(** * Continuous Pomodoro: elapsed-time reconciliation and reward ledger

    A shallow embedding of the React application component [App] (the
    fixed-settings variant and the configurable variant that follows the
    worker-timer hook) together with the statements that its design
    document makes about it.

    Conventions of the embedding:
    - JavaScript numbers that the application manipulates are integers
      (seconds, minutes, counts, millisecond time stamps); they are [Z],
      which is exact for the integers a double represents exactly
      (below 2^53), where [Math.floor(a / b)] is floor division.
      The only way a non-integer enters is [parseInt] returning [NaN],
      so values read back from [localStorage] are [jsnum].
    - JavaScript strings are [string]; of the white space that
      [parseInt] skips only the ASCII part is modelled.
    - [localStorage] is a finite map from strings to strings.
    - React state variables and refs are the fields of the record [App];
      an event handler is a function on [App]; the effects that React
      runs after a render are functions on [App] as well, and [settle]
      runs them in declaration order until nothing changes.
    - Calls to [showNotification] and [playSound], and the calls that
      [sendBrowserNotification] makes to the browser, are appended to
      the [outputs] log.  What the browser lets the page read of its
      notification interface is part of the state ([browser]); the
      fixed variant reads its banner component there.
    - The two clock components are their [formatTime]; the timer worker
      is its message handler over the browser's set of active intervals;
      the settings dialog is its [handleSave] over the three text
      fields. *)

From Stdlib Require Import ZArith Lia List String Ascii Decimal DecimalString DecimalZ.
From stdpp Require Import gmap strings.

Local Open Scope string_scope.
Local Open Scope Z_scope.

(** ** JavaScript numbers and strings *)

(** Result of [parseInt]: an integer or [NaN]. *)
Inductive jsnum : Type :=
  | NaN : jsnum
  | Num : Z -> jsnum.

Definition js_add (a b : jsnum) : jsnum :=
  match a, b with
  | Num x, Num y => Num (x + y)
  | _, _ => NaN
  end.

Definition js_sub (a b : jsnum) : jsnum :=
  match a, b with
  | Num x, Num y => Num (x - y)
  | _, _ => NaN
  end.

(** [Math.floor(a / d)] for an integer divisor [d]. *)
Definition js_floor_div (a : jsnum) (d : Z) : jsnum :=
  match a with
  | Num x => Num (x / d)
  | NaN => NaN
  end.

(** [Math.max(a, b)]: [NaN] as soon as one argument is. *)
Definition js_max (a b : jsnum) : jsnum :=
  match a, b with
  | Num x, Num y => Num (Z.max x y)
  | _, _ => NaN
  end.

(** [a > b] and [a < b]: every comparison with [NaN] is false. *)
Definition js_gtb (a b : jsnum) : bool :=
  match a, b with
  | Num x, Num y => y <? x
  | _, _ => false
  end.

Definition js_ltb (a b : jsnum) : bool :=
  match a, b with
  | Num x, Num y => x <? y
  | _, _ => false
  end.

(** [Math.floor(a / b)] and [Math.ceil(a / b)] on integers, [0 < b]. *)
Definition floor_div (a b : Z) : Z := a / b.
Definition ceil_div (a b : Z) : Z := - ((- a) / b).

(** The white space that [parseInt] skips (ASCII part). *)
Definition isWhiteSpace (c : ascii) : bool :=
  let n := nat_of_ascii c in
  (Nat.eqb n 32 || (Nat.leb 9 n && Nat.leb n 13))%bool.

Fixpoint trimStart (s : string) : string :=
  match s with
  | String c r => if isWhiteSpace c then trimStart r else s
  | EmptyString => s
  end.

(** Longest prefix of decimal digits, as a decimal numeral. *)
Fixpoint takeDigits (s : string) : uint :=
  match s with
  | String c r =>
      match c with
      | "0"%char => D0 (takeDigits r)
      | "1"%char => D1 (takeDigits r)
      | "2"%char => D2 (takeDigits r)
      | "3"%char => D3 (takeDigits r)
      | "4"%char => D4 (takeDigits r)
      | "5"%char => D5 (takeDigits r)
      | "6"%char => D6 (takeDigits r)
      | "7"%char => D7 (takeDigits r)
      | "8"%char => D8 (takeDigits r)
      | "9"%char => D9 (takeDigits r)
      | _ => Nil
      end
  | EmptyString => Nil
  end.

(** [parseInt(s, 10)]: skip white space, read an optional sign, then the
    longest run of digits; no digit gives [NaN]. *)
Definition parseInt (s : string) : jsnum :=
  let s1 := trimStart s in
  let '(negative, s2) :=
    match s1 with
    | String "-"%char r => (true, r)
    | String "+"%char r => (false, r)
    | _ => (false, s1)
    end in
  match takeDigits s2 with
  | Nil => NaN
  | d => Num (if negative then - Z.of_uint d else Z.of_uint d)
  end.

(** [n.toString()] for an integer [n]. *)
Definition toString (n : Z) : string := NilZero.string_of_int (Z.to_int n).

(** ** localStorage *)

Definition getItem (ls : gmap string string) (key : string) : option string :=
  ls !! key.

Definition setItem (key value : string) (ls : gmap string string)
  : gmap string string := <[key := value]> ls.

Definition removeItem (key : string) (ls : gmap string string)
  : gmap string string := delete key ls.

(** [localStorage.getItem(key) || dflt]: a missing item and the empty
    string are both falsy. *)
Definition getItemOr (ls : gmap string string) (key dflt : string) : string :=
  match getItem ls key with
  | Some EmptyString => dflt
  | Some v => v
  | None => dflt
  end.

Definition kAccumulated : string := "pomodoroAccumulatedSeconds".
Definition kStartTime : string := "pomodoroStartTime".
Definition kIsRunning : string := "pomodoroIsRunning".
Definition kCompleted : string := "pomodorosCompleted".
Definition kRest : string := "availableRestMinutes".

(** ** Initial state *)

Record InitialValues : Type := mkInitialValues {
  pomodoros : jsnum;
  seconds : jsnum;
  wasRunning : bool;
  restMinutes : jsnum
}.

(** [getInitialState(pomodoroDurationSeconds)], with [Date.now()] passed
    as [now]; the branch for a page without [window] is left out. *)
Definition getInitialState (ls : gmap string string) (now : Z)
    (pomodoroDurationSeconds : Z) : InitialValues :=
  let savedAccumulated := parseInt (getItemOr ls kAccumulated "0") in
  let savedStartTime := parseInt (getItemOr ls kStartTime "0") in
  let wasRunning := bool_decide (getItem ls kIsRunning = Some "true") in
  let storedPomodoros := parseInt (getItemOr ls kCompleted "0") in
  let storedRest := parseInt (getItemOr ls kRest "0") in
  let totalSeconds :=
    if (wasRunning && js_gtb savedStartTime (Num 0))%bool
    then js_add savedAccumulated
           (js_floor_div (js_sub (Num now) savedStartTime) 1000)
    else savedAccumulated in
  let totalSeconds :=
    if js_ltb totalSeconds (Num 0) then Num 0 else totalSeconds in
  let derivedPomodoros := js_floor_div totalSeconds pomodoroDurationSeconds in
  let initialPomodoros := js_max storedPomodoros derivedPomodoros in
  {| pomodoros := initialPomodoros;
     seconds := totalSeconds;
     wasRunning := wasRunning;
     restMinutes := storedRest |}.

(** ** Application state *)

Record Settings : Type := mkSettings {
  pomodoroDuration : Z;
  shortRestReward : Z;
  longRestReward : Z
}.

(** The settings of the fixed variant: 25 minutes, 5 and 15 minutes. *)
Definition defaultSettings : Settings :=
  {| pomodoroDuration := 25; shortRestReward := 5; longRestReward := 15 |}.

(** [Math.max(60, settings.pomodoroDuration * 60)]; the fixed variant has
    the constant [25 * 60]. *)
Definition POMODORO_DURATION_SECONDS (st : Settings) : Z :=
  Z.max 60 (pomodoroDuration st * 60).

Inductive NotificationType : Type := gift | super | info.

Inductive SoundType : Type := success | alert.

(** ** The notification interface of the browser *)

(** The values of [Notification.permission]. *)
Inductive NotificationPermission : Type := Granted | Denied | Default.

(** The object that the code reads as the notification constructor: its
    [permission] ([None] for [undefined]) and whether its
    [requestPermission] is a function.  In the configurable variant the
    object is [window.Notification].  In the fixed variant the name
    [Notification] is bound by the import of the banner component, and
    that is the object whose properties the code reads. *)
Record NotificationObject : Type := mkNotificationObject {
  permission : option NotificationPermission;
  requestPermissionIsFunction : bool
}.

(** What the page reads from its browser: the notification object
    ([None] when [window] has none) and whether the registration of the
    service worker has an active worker ([swRegistration?.active]). *)
Record Browser : Type := mkBrowser {
  notificationObject : option NotificationObject;
  serviceWorkerActive : bool
}.

(** The banner component read as a notification object: a function
    component has no [permission] and no [requestPermission]. *)
Definition bannerComponent : NotificationObject :=
  {| permission := None; requestPermissionIsFunction := false |}.

(** The browser as the fixed variant sees it: [window] has a
    [Notification], the name denotes the banner component, and there is
    no service worker. *)
Definition fixedVariantBrowser : Browser :=
  {| notificationObject := Some bannerComponent;
     serviceWorkerActive := false |}.

(** A browser of the configurable variant in which notifications are
    granted and the service worker is not active. *)
Definition grantedBrowser : Browser :=
  {| notificationObject :=
       Some {| permission := Some Granted;
               requestPermissionIsFunction := true |};
     serviceWorkerActive := false |}.

(** The calls the component makes: the banner ([setNotification]), a
    notification created with [new], the message that asks the service
    worker to show one, [requestPermission()], and [playSound]. *)
Inductive Output : Type :=
  | ShowNotification (message : string) (type : NotificationType)
  | BrowserNotification (title body : string)
  | ServiceWorkerNotification (title body : string)
  | RequestPermission
  | PlaySound (type : SoundType).

(** The [useState] variables, the two refs, the browser, the
    notifications that wait for the answer to a permission request (the
    continuations of the promises of [sendBrowserNotification]),
    [localStorage] and the log of outputs.  The JSON item that holds the
    settings is kept decoded in [settings]; it is not among the five
    items of [localStorage]. *)
Record App : Type := mkApp {
  settings : Settings;
  pomodorosCompleted : Z;
  availableRestMinutes : Z;
  isRunning : bool;
  totalSeconds : Z;
  isResting : bool;
  restSecondsRemaining : Z;
  prevPomodorosRef : Z;
  manualUpdatesPending : Z;
  browser : Browser;
  permissionWaiters : list (string * string);
  localStorage : gmap string string;
  outputs : list Output
}.

Definition set_settings (v : Settings) (a : App) : App :=
  {| settings := v;
     pomodorosCompleted := pomodorosCompleted a;
     availableRestMinutes := availableRestMinutes a;
     isRunning := isRunning a;
     totalSeconds := totalSeconds a;
     isResting := isResting a;
     restSecondsRemaining := restSecondsRemaining a;
     prevPomodorosRef := prevPomodorosRef a;
     manualUpdatesPending := manualUpdatesPending a;
     browser := browser a;
     permissionWaiters := permissionWaiters a;
     localStorage := localStorage a;
     outputs := outputs a |}.

Definition set_pomodorosCompleted (v : Z) (a : App) : App :=
  {| settings := settings a;
     pomodorosCompleted := v;
     availableRestMinutes := availableRestMinutes a;
     isRunning := isRunning a;
     totalSeconds := totalSeconds a;
     isResting := isResting a;
     restSecondsRemaining := restSecondsRemaining a;
     prevPomodorosRef := prevPomodorosRef a;
     manualUpdatesPending := manualUpdatesPending a;
     browser := browser a;
     permissionWaiters := permissionWaiters a;
     localStorage := localStorage a;
     outputs := outputs a |}.

Definition set_availableRestMinutes (v : Z) (a : App) : App :=
  {| settings := settings a;
     pomodorosCompleted := pomodorosCompleted a;
     availableRestMinutes := v;
     isRunning := isRunning a;
     totalSeconds := totalSeconds a;
     isResting := isResting a;
     restSecondsRemaining := restSecondsRemaining a;
     prevPomodorosRef := prevPomodorosRef a;
     manualUpdatesPending := manualUpdatesPending a;
     browser := browser a;
     permissionWaiters := permissionWaiters a;
     localStorage := localStorage a;
     outputs := outputs a |}.

Definition set_isRunning (v : bool) (a : App) : App :=
  {| settings := settings a;
     pomodorosCompleted := pomodorosCompleted a;
     availableRestMinutes := availableRestMinutes a;
     isRunning := v;
     totalSeconds := totalSeconds a;
     isResting := isResting a;
     restSecondsRemaining := restSecondsRemaining a;
     prevPomodorosRef := prevPomodorosRef a;
     manualUpdatesPending := manualUpdatesPending a;
     browser := browser a;
     permissionWaiters := permissionWaiters a;
     localStorage := localStorage a;
     outputs := outputs a |}.

Definition set_totalSeconds (v : Z) (a : App) : App :=
  {| settings := settings a;
     pomodorosCompleted := pomodorosCompleted a;
     availableRestMinutes := availableRestMinutes a;
     isRunning := isRunning a;
     totalSeconds := v;
     isResting := isResting a;
     restSecondsRemaining := restSecondsRemaining a;
     prevPomodorosRef := prevPomodorosRef a;
     manualUpdatesPending := manualUpdatesPending a;
     browser := browser a;
     permissionWaiters := permissionWaiters a;
     localStorage := localStorage a;
     outputs := outputs a |}.

Definition set_isResting (v : bool) (a : App) : App :=
  {| settings := settings a;
     pomodorosCompleted := pomodorosCompleted a;
     availableRestMinutes := availableRestMinutes a;
     isRunning := isRunning a;
     totalSeconds := totalSeconds a;
     isResting := v;
     restSecondsRemaining := restSecondsRemaining a;
     prevPomodorosRef := prevPomodorosRef a;
     manualUpdatesPending := manualUpdatesPending a;
     browser := browser a;
     permissionWaiters := permissionWaiters a;
     localStorage := localStorage a;
     outputs := outputs a |}.

Definition set_restSecondsRemaining (v : Z) (a : App) : App :=
  {| settings := settings a;
     pomodorosCompleted := pomodorosCompleted a;
     availableRestMinutes := availableRestMinutes a;
     isRunning := isRunning a;
     totalSeconds := totalSeconds a;
     isResting := isResting a;
     restSecondsRemaining := v;
     prevPomodorosRef := prevPomodorosRef a;
     manualUpdatesPending := manualUpdatesPending a;
     browser := browser a;
     permissionWaiters := permissionWaiters a;
     localStorage := localStorage a;
     outputs := outputs a |}.

Definition set_prevPomodorosRef (v : Z) (a : App) : App :=
  {| settings := settings a;
     pomodorosCompleted := pomodorosCompleted a;
     availableRestMinutes := availableRestMinutes a;
     isRunning := isRunning a;
     totalSeconds := totalSeconds a;
     isResting := isResting a;
     restSecondsRemaining := restSecondsRemaining a;
     prevPomodorosRef := v;
     manualUpdatesPending := manualUpdatesPending a;
     browser := browser a;
     permissionWaiters := permissionWaiters a;
     localStorage := localStorage a;
     outputs := outputs a |}.

Definition set_manualUpdatesPending (v : Z) (a : App) : App :=
  {| settings := settings a;
     pomodorosCompleted := pomodorosCompleted a;
     availableRestMinutes := availableRestMinutes a;
     isRunning := isRunning a;
     totalSeconds := totalSeconds a;
     isResting := isResting a;
     restSecondsRemaining := restSecondsRemaining a;
     prevPomodorosRef := prevPomodorosRef a;
     manualUpdatesPending := v;
     browser := browser a;
     permissionWaiters := permissionWaiters a;
     localStorage := localStorage a;
     outputs := outputs a |}.

Definition set_localStorage (v : gmap string string) (a : App) : App :=
  {| settings := settings a;
     pomodorosCompleted := pomodorosCompleted a;
     availableRestMinutes := availableRestMinutes a;
     isRunning := isRunning a;
     totalSeconds := totalSeconds a;
     isResting := isResting a;
     restSecondsRemaining := restSecondsRemaining a;
     prevPomodorosRef := prevPomodorosRef a;
     manualUpdatesPending := manualUpdatesPending a;
     browser := browser a;
     permissionWaiters := permissionWaiters a;
     localStorage := v;
     outputs := outputs a |}.

Definition set_outputs (v : list Output) (a : App) : App :=
  {| settings := settings a;
     pomodorosCompleted := pomodorosCompleted a;
     availableRestMinutes := availableRestMinutes a;
     isRunning := isRunning a;
     totalSeconds := totalSeconds a;
     isResting := isResting a;
     restSecondsRemaining := restSecondsRemaining a;
     prevPomodorosRef := prevPomodorosRef a;
     manualUpdatesPending := manualUpdatesPending a;
     browser := browser a;
     permissionWaiters := permissionWaiters a;
     localStorage := localStorage a;
     outputs := v |}.

Definition set_browser (v : Browser) (a : App) : App :=
  {| settings := settings a;
     pomodorosCompleted := pomodorosCompleted a;
     availableRestMinutes := availableRestMinutes a;
     isRunning := isRunning a;
     totalSeconds := totalSeconds a;
     isResting := isResting a;
     restSecondsRemaining := restSecondsRemaining a;
     prevPomodorosRef := prevPomodorosRef a;
     manualUpdatesPending := manualUpdatesPending a;
     browser := v;
     permissionWaiters := permissionWaiters a;
     localStorage := localStorage a;
     outputs := outputs a |}.

Definition set_permissionWaiters (v : list (string * string)) (a : App) : App :=
  {| settings := settings a;
     pomodorosCompleted := pomodorosCompleted a;
     availableRestMinutes := availableRestMinutes a;
     isRunning := isRunning a;
     totalSeconds := totalSeconds a;
     isResting := isResting a;
     restSecondsRemaining := restSecondsRemaining a;
     prevPomodorosRef := prevPomodorosRef a;
     manualUpdatesPending := manualUpdatesPending a;
     browser := browser a;
     permissionWaiters := v;
     localStorage := localStorage a;
     outputs := outputs a |}.

(** [localStorage.setItem], [localStorage.removeItem] and the output
    calls, as state transformers. *)
Definition store (key value : string) (a : App) : App :=
  set_localStorage (setItem key value (localStorage a)) a.

Definition unstore (key : string) (a : App) : App :=
  set_localStorage (removeItem key (localStorage a)) a.

Definition emit (o : Output) (a : App) : App :=
  set_outputs (outputs a ++ [o]) a.

Definition showNotification (message : string) (type : NotificationType)
  : App -> App := emit (ShowNotification message type).

(** [Notification.requestPermission()]. *)
Definition requestPermission : App -> App := emit RequestPermission.

(** [sendBrowserNotification(title, body)] of the configurable variant.
    With the permission granted the notification goes through the
    service worker when that is active and is created with [new]
    otherwise (an exception of the constructor is caught).  With a
    permission that is not denied the helper asks for it when it can, and
    the continuation of that promise sends the notification again once
    the answer is granted ([permissionAnswered] below).

    The helper of the fixed variant has the first two tests only and
    reads the banner component: there [permission] is [undefined], no
    test succeeds and nothing is sent, which is what this definition
    gives for [bannerComponent]. *)
Definition sendBrowserNotification (title body : string) (a : App) : App :=
  match notificationObject (browser a) with
  | None => a
  | Some BrowserNotification_ =>
      match permission BrowserNotification_ with
      | Some Granted =>
          if serviceWorkerActive (browser a)
          then emit (ServiceWorkerNotification title body) a
          else emit (BrowserNotification title body) a
      | Some Denied => a
      | _ =>
          if requestPermissionIsFunction BrowserNotification_
          then set_permissionWaiters
                 (permissionWaiters a ++ [(title, body)])
                 (requestPermission a)
          else a
      end
  end.

(** The promises of [requestPermission] resolve with the answer
    [answer], which the browser has stored as the permission: every
    continuation of [sendBrowserNotification] that was waiting sends its
    notification again if the answer is granted. *)
Definition permissionAnswered (answer : NotificationPermission) (a : App)
  : App :=
  let waiting := permissionWaiters a in
  let a :=
    set_browser
      {| notificationObject :=
           (fun n => {| permission := Some answer;
                        requestPermissionIsFunction :=
                          requestPermissionIsFunction n |})
             <$> notificationObject (browser a);
         serviceWorkerActive := serviceWorkerActive (browser a) |} a in
  let a := set_permissionWaiters [] a in
  foldl (fun a '(title, body) =>
           match answer with
           | Granted => sendBrowserNotification title body a
           | _ => a
           end) a waiting.

Definition playSound (type : SoundType) : App -> App :=
  emit (PlaySound type).

(** ** The gift effect (reward ledger) *)

Record Tally : Type := mkTally {
  newRestMinutes : Z;
  superGifts : Z;
  normalGifts : Z
}.

(** One iteration of the body of the [for] loop. *)
Definition giftLoopBody (st : Settings) (startCalc i : Z) (t : Tally) : Tally :=
  let currentPomodoroNumber := startCalc + i in
  if ((0 <? currentPomodoroNumber)
      && (Z.rem currentPomodoroNumber 4 =? 0))%bool
  then {| newRestMinutes := newRestMinutes t + longRestReward st;
          superGifts := superGifts t + 1;
          normalGifts := normalGifts t |}
  else {| newRestMinutes := newRestMinutes t + shortRestReward st;
          superGifts := superGifts t;
          normalGifts := normalGifts t + 1 |}.

(** [for (let i = ...; i <= giftableCount; i++) body]; [fuel] bounds the
    number of iterations. *)
Fixpoint giftLoop (st : Settings) (fuel : nat) (startCalc giftableCount i : Z)
    (t : Tally) : Tally :=
  match fuel with
  | O => t
  | S fuel' =>
      if i <=? giftableCount
      then giftLoop st fuel' startCalc giftableCount (i + 1)
             (giftLoopBody st startCalc i t)
      else t
  end.

Definition giftMessage (t : Tally) : Output :=
  if 0 <? superGifts t
  then ShowNotification
         (if ((0 <? superGifts t) && (0 <? normalGifts t))%bool
          then "Gifts! You've earned " +:+ toString (newRestMinutes t)
                 +:+ " minutes of rest."
          else "Super Gift! You've earned " +:+ toString (newRestMinutes t)
                 +:+ " minutes of rest.")
         super
  else ShowNotification
         ("Gift! You've earned " +:+ toString (newRestMinutes t)
            +:+ " minutes of rest.")
         gift.

(** Body of the effect that depends on [pomodorosCompleted]. *)
Definition giftEffect (a : App) : App :=
  let previousPomodoros := prevPomodorosRef a in
  let a := store kCompleted (toString (pomodorosCompleted a)) a in
  let a :=
    if previousPomodoros <? pomodorosCompleted a then
      let totalDiff := pomodorosCompleted a - previousPomodoros in
      let manualCount := Z.min totalDiff (manualUpdatesPending a) in
      let giftableCount := totalDiff - manualCount in
      let a :=
        set_manualUpdatesPending
          (Z.max 0 (manualUpdatesPending a - manualCount)) a in
      if 0 <? giftableCount then
        let startCalc := previousPomodoros + manualCount in
        let t := giftLoop (settings a) (Z.to_nat giftableCount)
                   startCalc giftableCount 1 (mkTally 0 0 0) in
        if 0 <? newRestMinutes t then
          let updatedRest := availableRestMinutes a + newRestMinutes t in
          let a := set_availableRestMinutes updatedRest a in
          let a := store kRest (toString updatedRest) a in
          let a := emit (giftMessage t) a in
          let a := sendBrowserNotification "Pomodoro Completed!"
                     ("You've earned " +:+ toString (newRestMinutes t)
                        +:+ " minutes of rest.") a in
          playSound success a
        else a
      else a
    else a in
  set_prevPomodorosRef (pomodorosCompleted a) a.

(** Body of the effect that derives the cycle count from the seconds. *)
Definition cycleEffect (a : App) : App :=
  let completedNow :=
    floor_div (totalSeconds a) (POMODORO_DURATION_SECONDS (settings a)) in
  if pomodorosCompleted a <? completedNow
  then set_pomodorosCompleted completedNow a
  else a.

(** Body of the effect announcing the end of a rest. *)
Definition restFinishedEffect (a : App) : App :=
  if (isResting a && (restSecondsRemaining a =? 0))%bool
  then playSound alert
         (sendBrowserNotification "Rest Finished!"
            "Time to get back to focus." a)
  else a.

(** Effects after one render, in declaration order.  The gift effect has
    [pomodorosCompleted] as its only changing dependency and leaves the
    value it last saw in [prevPomodorosRef], so it runs exactly when the
    two differ; the cycle effect changes nothing when its dependencies
    did not change, so running it is the same as skipping it. *)
Definition renderEffects (a : App) : App :=
  cycleEffect
    (if pomodorosCompleted a =? prevPomodorosRef a then a else giftEffect a).

(** The cycle effect can set state once, which causes one more render;
    after it nothing changes any more ([settle_stable] below). *)
Definition settle (a : App) : App := renderEffects (renderEffects a).

(** On mount every effect runs once, whatever its dependencies. *)
Definition mountEffects (a : App) : App :=
  renderEffects (cycleEffect (giftEffect a)).

(** ** Event handlers

    Left out, as they touch none of the state below: the audio context
    that start and use-rest unlock, and the random trivia fact that
    use-rest rotates.  [Date.now()] is the argument [now]. *)

(** The configurable variant asks for the permission when it is
    [default]; the fixed variant has no such code, and with
    [bannerComponent] the test fails. *)
Definition handleStartResume (now : Z) (a : App) : App :=
  let a := store kAccumulated (toString (totalSeconds a)) a in
  let a := store kStartTime (toString now) a in
  let a := store kIsRunning "true" a in
  let a := set_isRunning true a in
  match notificationObject (browser a) with
  | Some BrowserNotification_ =>
      match permission BrowserNotification_ with
      | Some Default =>
          if requestPermissionIsFunction BrowserNotification_
          then requestPermission a
          else a
      | _ => a
      end
  | None => a
  end.

Definition handlePause (a : App) : App :=
  let completedNow :=
    floor_div (totalSeconds a) (POMODORO_DURATION_SECONDS (settings a)) in
  let a := set_pomodorosCompleted (Z.max (pomodorosCompleted a) completedNow) a in
  let a := store kAccumulated (toString (totalSeconds a)) a in
  let a := store kIsRunning "false" a in
  let a := unstore kStartTime a in
  set_isRunning false a.

Definition handleResetTimer (a : App) : App :=
  let a := set_totalSeconds 0 a in
  let a := store kAccumulated "0" a in
  let a := unstore kStartTime a in
  showNotification "Timer progress has been reset." info a.

Definition handleResetPomodoros (now : Z) (a : App) : App :=
  let newTotalSeconds :=
    Z.rem (totalSeconds a) (POMODORO_DURATION_SECONDS (settings a)) in
  let running := isRunning a in
  let a := set_totalSeconds newTotalSeconds a in
  let a := set_pomodorosCompleted 0 a in
  let a := set_manualUpdatesPending 0 a in
  let a :=
    if running
    then store kStartTime (toString now)
           (store kAccumulated (toString newTotalSeconds) a)
    else store kAccumulated (toString newTotalSeconds) a in
  showNotification "Pomodoros completed have been reset." info a.

Definition handleResetRestMinutes (a : App) : App :=
  let a := set_availableRestMinutes 0 a in
  let a := store kRest "0" a in
  showNotification "Gift store minutes have been reset." info a.

Definition BORROW_MINUTES : Z := 5.

Definition handleUseRest (a : App) : App :=
  if isResting a then a
  else
    let a := if isRunning a then handlePause a else a in
    let a := set_isResting true a in
    if 0 <? availableRestMinutes a then
      let a := set_restSecondsRemaining (availableRestMinutes a * 60) a in
      let a := set_availableRestMinutes 0 a in
      store kRest "0" a
    else
      let a := set_restSecondsRemaining (BORROW_MINUTES * 60) a in
      let newTotal := availableRestMinutes a - BORROW_MINUTES in
      let a := set_availableRestMinutes newTotal a in
      let a := store kRest (toString newTotal) a in
      showNotification
        ("You've borrowed " +:+ toString BORROW_MINUTES
           +:+ " minutes. Earn Pomodoros to pay it back!") info a.

Definition handlePauseRest (a : App) : App :=
  let adjustmentMinutes :=
    if 0 <? restSecondsRemaining a
    then ceil_div (restSecondsRemaining a) 60
    else floor_div (restSecondsRemaining a) 60 in
  let a :=
    if adjustmentMinutes =? 0 then a
    else
      let newTotal := availableRestMinutes a + adjustmentMinutes in
      let a := set_availableRestMinutes newTotal a in
      let a := store kRest (toString newTotal) a in
      if 0 <? adjustmentMinutes
      then showNotification
             (toString adjustmentMinutes
                +:+ " minute(s) of rest returned to your gift store.") info a
      else showNotification
             (toString (Z.abs adjustmentMinutes)
                +:+ " minute(s) borrowed from your gift store.") info a in
  let a := set_isResting false a in
  set_restSecondsRemaining 0 a.

Definition handleAddPomodoro (now : Z) (a : App) : App :=
  let running := isRunning a in
  let newTotal := totalSeconds a + POMODORO_DURATION_SECONDS (settings a) in
  let a := set_manualUpdatesPending (manualUpdatesPending a + 1) a in
  let a := set_pomodorosCompleted (pomodorosCompleted a + 1) a in
  let a := set_totalSeconds newTotal a in
  let a :=
    if running
    then store kStartTime (toString now)
           (store kAccumulated (toString newTotal) a)
    else store kAccumulated (toString newTotal) a in
  showNotification "1 pomodoro added." info a.

Definition handleRemovePomodoro (now : Z) (a : App) : App :=
  if 0 <? pomodorosCompleted a then
    let running := isRunning a in
    let newSeconds :=
      Z.max 0 (totalSeconds a - POMODORO_DURATION_SECONDS (settings a)) in
    let a := showNotification "1 pomodoro removed." info a in
    let a := set_totalSeconds newSeconds a in
    let a :=
      if running
      then store kStartTime (toString now)
             (store kAccumulated (toString newSeconds) a)
      else store kAccumulated (toString newSeconds) a in
    set_pomodorosCompleted (pomodorosCompleted a - 1) a
  else a.

Definition handleAddRestMinutes (minutes : Z) (a : App) : App :=
  if 0 <? minutes then
    let newTotal := availableRestMinutes a + minutes in
    let a := set_availableRestMinutes newTotal a in
    let a := store kRest (toString newTotal) a in
    showNotification
      (toString minutes +:+ " minute(s) added to your gift store.") info a
  else a.

Definition handleRemoveRestMinutes (minutes : Z) (a : App) : App :=
  if 0 <? minutes then
    let prev := availableRestMinutes a in
    let newTotal := prev - minutes in
    let a := set_availableRestMinutes newTotal a in
    let a := store kRest (toString newTotal) a in
    if minutes <=? prev
    then showNotification
           (toString minutes +:+ " minute(s) removed from your gift store.")
           info a
    else a
  else a.

(** [handleSave] of the settings dialog followed by [handleSaveSettings]:
    values that are not all positive are refused. *)
Definition handleSaveSettings (st : Settings) (a : App) : App :=
  if ((pomodoroDuration st <=? 0) || (shortRestReward st <=? 0)
      || (longRestReward st <=? 0))%bool
  then a
  else showNotification "Settings saved." info (set_settings st a).

Definition handleMainTick (a : App) : App :=
  set_totalSeconds (totalSeconds a + 1) a.

Definition handleRestTick (a : App) : App :=
  set_restSecondsRemaining (restSecondsRemaining a - 1) a.

(** [syncStateFromStorage].  [None] stands for a [NaN] total, which the
    integer state of this development does not represent; the code does
    not fail there. *)
Definition syncStateFromStorage (now : Z) (a : App) : option App :=
  let ls := localStorage a in
  if bool_decide (getItem ls kIsRunning = Some "true") then
    let accumulatedSecondsOnStart := parseInt (getItemOr ls kAccumulated "0") in
    let startTime := parseInt (getItemOr ls kStartTime "0") in
    match startTime with
    | Num 0 => Some a
    | _ =>
        let elapsedSinceStart :=
          js_floor_div (js_sub (Num now) startTime) 1000 in
        match js_add accumulatedSecondsOnStart elapsedSinceStart with
        | Num t => Some (set_totalSeconds t a)
        | NaN => None
        end
    end
  else Some a.

Definition handleVisibilityChange (now : Z) (a : App) : option App :=
  if isRunning a then syncStateFromStorage now a else Some a.

(** Loading the page in the browser [br]: the state initialisers followed
    by the effects of the first render.  [None] stands for a [NaN]
    counter, as above.  The effect of the fixed variant that asks for the
    permission on mount tests the [permission] of the banner component
    against [default] and never asks. *)
Definition mount (st : Settings) (br : Browser) (ls : gmap string string)
    (now : Z) : option App :=
  let initialValues := getInitialState ls now (POMODORO_DURATION_SECONDS st) in
  match pomodoros initialValues, seconds initialValues,
        restMinutes initialValues with
  | Num p, Num t, Num r =>
      Some (mountEffects
              {| settings := st;
                 pomodorosCompleted := p;
                 availableRestMinutes := r;
                 isRunning := wasRunning initialValues;
                 totalSeconds := t;
                 isResting := false;
                 restSecondsRemaining := 0;
                 prevPomodorosRef := p;
                 manualUpdatesPending := 0;
                 browser := br;
                 permissionWaiters := [];
                 localStorage := ls;
                 outputs := [] |})
  | _, _, _ => None
  end.

(** [handleReboot]: the five items are removed, then the page reloads. *)
Definition handleReboot (now : Z) (a : App) : option App :=
  let ls := localStorage a in
  let ls := removeItem kAccumulated ls in
  let ls := removeItem kStartTime ls in
  let ls := removeItem kIsRunning ls in
  let ls := removeItem kCompleted ls in
  let ls := removeItem kRest ls in
  mount (settings a) (browser a) ls now.

(** ** Events *)

Inductive Event : Type :=
  | MainTick
  | RestTick
  | VisibilityVisible (now : Z)
  | StartResume (now : Z)
  | Pause
  | ResetTimer
  | ResetPomodoros (now : Z)
  | ResetRestMinutes
  | UseRest
  | PauseRest
  | AddPomodoro (now : Z)
  | RemovePomodoro (now : Z)
  | AddRestMinutes (minutes : Z)
  | RemoveRestMinutes (minutes : Z)
  | SaveSettings (st : Settings)
  | Reboot (now : Z)
  | Reload (now : Z)
  | PermissionAnswer (answer : NotificationPermission)
  | BrowserChange (br : Browser).

(** Which events the rendered page can deliver: the intervals exist only
    while their flag is set, and the buttons are rendered or disabled as
    in the JSX of [App] and of the statistics panel.  The last two events
    come from the browser: the answer to a permission request, which
    needs an object that can be asked, and any other change of what the
    page reads from it (the user changes the permission in the site
    settings, the service worker activates). *)
Definition enabled (a : App) (ev : Event) : bool :=
  match ev with
  | MainTick => isRunning a
  | RestTick => isResting a
  | StartResume _ => negb (isResting a) && negb (isRunning a)
  | Pause => negb (isResting a) && isRunning a
  | UseRest => negb (isResting a)
  | PauseRest => isResting a
  | ResetTimer =>
      negb (isRunning a) && negb (isResting a) && (0 <? totalSeconds a)
  | ResetPomodoros _ => 0 <? pomodorosCompleted a
  | RemovePomodoro _ => 0 <? pomodorosCompleted a
  | PermissionAnswer _ =>
      match notificationObject (browser a) with
      | Some BrowserNotification_ =>
          requestPermissionIsFunction BrowserNotification_
      | None => false
      end
  | _ => true
  end.

(** One event processed to completion: handler, then effects.  The two
    events of the browser set no state of the component, so no render
    follows them. *)
Definition step (a : App) (ev : Event) : option App :=
  match ev with
  | MainTick => Some (settle (handleMainTick a))
  | RestTick => Some (restFinishedEffect (settle (handleRestTick a)))
  | VisibilityVisible now => settle <$> handleVisibilityChange now a
  | StartResume now => Some (settle (handleStartResume now a))
  | Pause => Some (settle (handlePause a))
  | ResetTimer => Some (settle (handleResetTimer a))
  | ResetPomodoros now => Some (settle (handleResetPomodoros now a))
  | ResetRestMinutes => Some (settle (handleResetRestMinutes a))
  | UseRest => Some (settle (handleUseRest a))
  | PauseRest => Some (settle (handlePauseRest a))
  | AddPomodoro now => Some (settle (handleAddPomodoro now a))
  | RemovePomodoro now => Some (settle (handleRemovePomodoro now a))
  | AddRestMinutes m => Some (settle (handleAddRestMinutes m a))
  | RemoveRestMinutes m => Some (settle (handleRemoveRestMinutes m a))
  | SaveSettings st => Some (settle (handleSaveSettings st a))
  | Reboot now => handleReboot now a
  | Reload now => mount (settings a) (browser a) (localStorage a) now
  | PermissionAnswer answer => Some (permissionAnswered answer a)
  | BrowserChange br => Some (set_browser br a)
  end.

(** A sequence of events, each one enabled when it is delivered. *)
Fixpoint run (a : App) (evs : list Event) : option App :=
  match evs with
  | [] => Some a
  | ev :: evs' =>
      if enabled a ev then
        match step a ev with
        | Some a' => run a' evs'
        | None => None
        end
      else None
  end.

(** States the application can be in: after a page load in any browser
    from any store, and after any enabled event. *)
Inductive reachable : App -> Prop :=
  | reachable_mount st br ls now a :
      mount st br ls now = Some a -> reachable a
  | reachable_step a ev a' :
      reachable a -> enabled a ev = true -> step a ev = Some a' ->
      reachable a'.

(** ** Predicates used in the statements *)

(** The state of the component and the store are the same in both; the
    browser, the waiting notifications and the log may differ. *)
Definition samePage (a b : App) : Prop :=
  settings b = settings a /\
  pomodorosCompleted b = pomodorosCompleted a /\
  availableRestMinutes b = availableRestMinutes a /\
  isRunning b = isRunning a /\
  totalSeconds b = totalSeconds a /\
  isResting b = isResting a /\
  restSecondsRemaining b = restSecondsRemaining a /\
  prevPomodorosRef b = prevPomodorosRef a /\
  manualUpdatesPending b = manualUpdatesPending a /\
  localStorage b = localStorage a.

(** Events that lower the cycle count by design. *)
Definition lowersCycles (ev : Event) : bool :=
  match ev with
  | RemovePomodoro _ | ResetPomodoros _ | Reboot _ => true
  | _ => false
  end.

(** What holds between two events: the refs and the store agree with the
    rendered state and the effects have nothing left to do. *)
Record Inv (a : App) : Prop := mkInv {
  inv_prev : prevPomodorosRef a = pomodorosCompleted a;
  inv_derived :
    floor_div (totalSeconds a) (POMODORO_DURATION_SECONDS (settings a))
    <= pomodorosCompleted a;
  inv_excl : (isRunning a && isResting a)%bool = false;
  inv_stored :
    getItem (localStorage a) kCompleted
    = Some (toString (pomodorosCompleted a));
  inv_rest :
    parseInt (getItemOr (localStorage a) kRest "0")
    = Num (availableRestMinutes a);
  inv_pending : manualUpdatesPending a = 0;
  inv_flag :
    isRunning a = true <-> getItem (localStorage a) kIsRunning = Some "true";
  inv_nonneg : 0 <= pomodorosCompleted a
}.

(** What a handler must leave behind for the effects to restore [Inv]. *)
Record PreSettle (a : App) : Prop := mkPreSettle {
  pre_excl : (isRunning a && isResting a)%bool = false;
  pre_stored :
    pomodorosCompleted a = prevPomodorosRef a ->
    getItem (localStorage a) kCompleted
    = Some (toString (pomodorosCompleted a));
  pre_rest :
    parseInt (getItemOr (localStorage a) kRest "0")
    = Num (availableRestMinutes a);
  pre_pending :
    0 <= manualUpdatesPending a
    <= Z.max 0 (pomodorosCompleted a - prevPomodorosRef a);
  pre_flag :
    isRunning a = true <-> getItem (localStorage a) kIsRunning = Some "true";
  pre_nonneg : 0 <= pomodorosCompleted a
}.

(** ** The reward rule as the design document words it *)

(** An index is a bonus index when it is a positive multiple of 4. *)
Definition spec_isBonusIndex (idx : Z) : bool :=
  (0 <? idx) && (idx mod 4 =? 0).

Definition spec_rewardAt (st : Settings) (idx : Z) : Z :=
  if spec_isBonusIndex idx then longRestReward st else shortRestReward st.

(** The absolute indices [previousCycles + manualCount + i] for
    [i = 1 .. giftableCount]. *)
Definition spec_indices (previousCycles manualCount giftableCount : Z)
  : list Z :=
  map (fun i : nat => previousCycles + manualCount + Z.of_nat i)
    (seq 1 (Z.to_nat giftableCount)).

Definition spec_credit (st : Settings)
    (previousCycles manualCount giftableCount : Z) : Z :=
  foldr Z.add 0
    (map (spec_rewardAt st)
       (spec_indices previousCycles manualCount giftableCount)).

Definition spec_bonusCount (previousCycles manualCount giftableCount : Z) : Z :=
  Z.of_nat (length (filter (fun i => spec_isBonusIndex i = true)
       (spec_indices previousCycles manualCount giftableCount))).

(** For the statements: the calls that [sendBrowserNotification] makes in
    the browser [br], and the notifications it leaves waiting for the
    answer to its request. *)
Definition notificationCalls (br : Browser) (title body : string)
  : list Output :=
  match notificationObject br with
  | Some {| permission := Some Granted |} =>
      [if serviceWorkerActive br
       then ServiceWorkerNotification title body
       else BrowserNotification title body]
  | Some {| permission := Some Denied |} => []
  | Some {| requestPermissionIsFunction := true |} => [RequestPermission]
  | _ => []
  end.

Definition notificationWaiters (br : Browser) (title body : string)
  : list (string * string) :=
  match notificationObject br with
  | Some {| permission := Some Granted |}
  | Some {| permission := Some Denied |} => []
  | Some {| requestPermissionIsFunction := true |} => [(title, body)]
  | _ => []
  end.

(** ** States and stores used as examples *)

(** A snapshot persisted while running: 1500 accumulated seconds, one
    completed cycle, started at 1000000 ms. *)
Definition snapshotStore : gmap string string :=
  <[kAccumulated := "1500"]>
    (<[kCompleted := "1"]>
       (<[kIsRunning := "true"]> (<[kStartTime := "1000000"]> ∅))).

(** The page right after loading an empty store at time 0. *)
Definition freshApp : App :=
  {| settings := defaultSettings;
     pomodorosCompleted := 0;
     availableRestMinutes := 0;
     isRunning := false;
     totalSeconds := 0;
     isResting := false;
     restSecondsRemaining := 0;
     prevPomodorosRef := 0;
     manualUpdatesPending := 0;
     browser := fixedVariantBrowser;
     permissionWaiters := [];
     localStorage := <[kCompleted := "0"]> ∅;
     outputs := [] |}.

(** The moment the gift effect sees the count go from [previousCycles]
    to [newCycles] with [pending] manual updates. *)
Definition ledgerState (previousCycles newCycles pending : Z) : App :=
  set_manualUpdatesPending pending
    (set_prevPomodorosRef previousCycles
       (set_pomodorosCompleted newCycles freshApp)).

(** Idle with a rest balance, and resting with some seconds left. *)
Definition idleState (balance : Z) : App :=
  set_availableRestMinutes balance freshApp.

Definition restingState (balance secondsRemaining : Z) : App :=
  set_restSecondsRemaining secondsRemaining
    (set_isResting true (set_availableRestMinutes balance freshApp)).

(** A store written by a clock that later went back: checkpoint of 1000
    seconds, running, started at 5000000 ms. *)
Definition rollbackStore : gmap string string :=
  <[kAccumulated := "1000"]>
    (<[kIsRunning := "true"]> (<[kStartTime := "5000000"]> ∅)).



(** The page after start was pressed at 1000 ms on a fresh page. *)
Definition runningApp : App := settle (handleStartResume 1000 freshApp).

(** A session without any command that lowers the cycle count. *)
Definition sampleSession : list Event :=
  [StartResume 1000; MainTick; VisibilityVisible 1501000; Pause;
   AddPomodoro 1502000; UseRest; RestTick; PauseRest; Reload 1600000].

(** The checkpoint and the start time stamp in the store are numbers. *)
Definition wfStore (ls : gmap string string) : Prop :=
  (exists acc, parseInt (getItemOr ls kAccumulated "0") = Num acc) /\
  (exists start, parseInt (getItemOr ls kStartTime "0") = Num start).

(** ** Further states used as examples *)

(** One second before the first cycle completes, timer running. *)
Definition nearlyDoneApp : App :=
  default freshApp (run freshApp [StartResume 1000; VisibilityVisible 1500000]).

(** While the timer is stopped, the stored checkpoint is the seconds of
    the page (negative values counting as zero). *)
Definition PausedCheckpoint (a : App) : Prop :=
  isRunning a = false ->
  exists acc,
    parseInt (getItemOr (localStorage a) kAccumulated "0") = Num acc /\
    Z.max 0 acc = Z.max 0 (totalSeconds a).

(** The running page in a browser that has granted notifications. *)
Definition grantedRunningApp : App :=
  default freshApp
    (run freshApp [BrowserChange grantedBrowser; StartResume 1000]).

(** Ten minutes of focus, then paused. *)
Definition pausedApp : App :=
  default freshApp
    (run freshApp [StartResume 1000; VisibilityVisible 601000; Pause]).

(** Twelve minutes of balance, idle. *)
Definition restedApp : App :=
  default freshApp (run freshApp [AddRestMinutes 12]).

(** ** The clock displays *)

(** [s.padStart(targetLength, fill)] for a fill of one character. *)
Definition padStart (targetLength : nat) (fill : ascii) (s : string) : string :=
  string_of_list_ascii (repeat fill (targetLength - String.length s)) +:+ s.

(** [parts.filter(Boolean)]: [null] and the empty string are dropped. *)
Fixpoint filterBoolean (parts : list (option string)) : list string :=
  match parts with
  | [] => []
  | Some (String c r) :: rest => String c r :: filterBoolean rest
  | _ :: rest => filterBoolean rest
  end.

(** [formatTime] of both clock components, for an integer argument. *)
Definition formatTime (totalSeconds : Z) : string :=
  let hours := floor_div totalSeconds 3600 in
  let minutes := floor_div (Z.rem totalSeconds 3600) 60 in
  let secs := Z.rem totalSeconds 60 in
  let parts :=
    filterBoolean
      [ if 0 <? hours then Some (padStart 2 "0" (toString hours)) else None;
        Some (padStart 2 "0" (toString minutes));
        Some (padStart 2 "0" (toString secs)) ] in
  String.concat ":" parts.

(** What the rest clock renders: the minus sign of overtime and the
    digits. *)
Record RestClock : Type := mkRestClock {
  showMinus : bool;
  digits : string
}.

Definition RestTimerDisplay (secondsRemaining : Z) : RestClock :=
  let isOvertime := secondsRemaining <? 0 in
  let absSeconds := Z.abs secondsRemaining in
  {| showMinus := isOvertime; digits := formatTime absSeconds |}.

(** [secondsRemainingInPomodoro] of the application. *)
Definition secondsRemainingInPomodoro (a : App) : Z :=
  let D := POMODORO_DURATION_SECONDS (settings a) in
  if totalSeconds a =? 0 then D
  else
    let secondsIntoCurrentPomodoro := Z.rem (totalSeconds a) D in
    if ((secondsIntoCurrentPomodoro =? 0) && (0 <? totalSeconds a))%bool
    then D
    else D - secondsIntoCurrentPomodoro.

(** Reading a clock back, for the statements: the fields between the
    colons are numbers in base 60. *)
Fixpoint splitColon (s : string) : list string :=
  match s with
  | EmptyString => [EmptyString]
  | String c r =>
      if Ascii.eqb c ":" then EmptyString :: splitColon r
      else match splitColon r with
           | h :: t => String c h :: t
           | [] => [String c EmptyString]
           end
  end.

Definition readClock (s : string) : option Z :=
  foldl (fun acc field =>
           match acc, parseInt field with
           | Some n, Num v => Some (n * 60 + v)
           | _, _ => None
           end)
    (Some 0) (splitColon s).

(** No colon occurs in the text. *)
Fixpoint noColon (s : string) : bool :=
  match s with
  | EmptyString => true
  | String c r => negb (Ascii.eqb c ":") && noColon r
  end.

(** ** The timer worker and its hook *)

(** The worker: its variable [intervalId] and, on the side of the
    browser, the intervals that are active and the next id that
    [setInterval] hands out. *)
Record Worker : Type := mkWorker {
  intervalId : option nat;
  activeIntervals : gset nat;
  nextIntervalId : nat
}.

Definition newWorker : Worker :=
  {| intervalId := None; activeIntervals := ∅; nextIntervalId := 1 |}.

Definition clearInterval (id : nat) (w : Worker) : Worker :=
  {| intervalId := intervalId w;
     activeIntervals := activeIntervals w ∖ {[id]};
     nextIntervalId := nextIntervalId w |}.

(** [setInterval] registers a fresh id and returns it. *)
Definition setInterval (w : Worker) : nat * Worker :=
  (nextIntervalId w,
   {| intervalId := intervalId w;
      activeIntervals := {[nextIntervalId w]} ∪ activeIntervals w;
      nextIntervalId := S (nextIntervalId w) |}).

Definition set_intervalId (v : option nat) (w : Worker) : Worker :=
  {| intervalId := v;
     activeIntervals := activeIntervals w;
     nextIntervalId := nextIntervalId w |}.

(** [self.onmessage] of the worker. *)
Definition worker_onmessage (data : string) (w : Worker) : Worker :=
  if bool_decide (data = "start") then
    let w :=
      match intervalId w with
      | Some id => clearInterval id w
      | None => w
      end in
    let '(id, w) := setInterval w in
    set_intervalId (Some id) w
  else if bool_decide (data = "stop") then
    match intervalId w with
    | Some id => set_intervalId None (clearInterval id w)
    | None => w
    end
  else w.

(** The effect of [useWorkerTimer] that follows [isRunning]: the message
    it posts. *)
Definition useWorkerTimer_message (isRunning : bool) : string :=
  if isRunning then "start" else "stop".

(** The worker after the messages of a list, oldest first. *)
Definition worker_run (msgs : list string) (w : Worker) : Worker :=
  foldl (fun w data => worker_onmessage data w) w msgs.

(** One tick is posted per second for each active interval. *)
Definition ticksPerSecond (w : Worker) : nat := size (activeIntervals w).

Record WorkerInv (w : Worker) : Prop := mkWorkerInv {
  winv_active :
    activeIntervals w
    = match intervalId w with Some id => {[id]} | None => ∅ end;
  winv_fresh : forall id, id ∈ activeIntervals w -> (id < nextIntervalId w)%nat
}.

(** ** The settings dialog *)

Module SettingsModal.

(** The text fields of the dialog ([localSettings]). *)
Record LocalSettings : Type := mkLocalSettings {
  pomodoroDuration : string;
  shortRestReward : string;
  longRestReward : string
}.

(** The fields when the dialog opens: the settings as text. *)
Definition open (st : Settings) : LocalSettings :=
  match st with
  | mkSettings p s l =>
      {| pomodoroDuration := toString p;
         shortRestReward := toString s;
         longRestReward := toString l |}
  end.

Definition invalid (v : jsnum) : bool :=
  match v with
  | NaN => true
  | Num n => n <=? 0
  end.

(** [handleSave]: [None] when the alert is shown, else the settings
    passed to [onSave]. *)
Definition handleSave (l : LocalSettings) : option Settings :=
  let p := parseInt (pomodoroDuration l) in
  let s := parseInt (shortRestReward l) in
  let g := parseInt (longRestReward l) in
  if (invalid p || invalid s || invalid g)%bool then None
  else
    match p, s, g with
    | Num p, Num s, Num g => Some (mkSettings p s g)
    | _, _, _ => None
    end.

End SettingsModal.

(** * Properties *)

(** ** Sanity checks of the embedding *)

Example parseInt_skips_space_and_stops : parseInt "  -12abc" = Num (-12).
Proof. reflexivity. Qed.

Example parseInt_no_digit : parseInt "abc" = NaN.
Proof. reflexivity. Qed.

Example parseInt_plus : parseInt "+7" = Num 7.
Proof. reflexivity. Qed.

Example toString_negative : toString (-75) = "-75".
Proof. reflexivity. Qed.

Example toString_zero : toString 0 = "0".
Proof. reflexivity. Qed.

Example ceil_div_30 : ceil_div 30 60 = 1.
Proof. reflexivity. Qed.

Example floor_div_minus_75 : floor_div (-75) 60 = -2.
Proof. reflexivity. Qed.

Example getInitialState_snapshot :
  getInitialState snapshotStore 2500000 1500
  = mkInitialValues (Num 2) (Num 3000) true (Num 0).
Proof. vm_compute. reflexivity. Qed.

Example fixed_duration : POMODORO_DURATION_SECONDS defaultSettings = 25 * 60.
Proof. reflexivity. Qed.

(** ** Numbers written to the store read back unchanged *)

Lemma takeDigits_string_of_uint (d : uint) :
  takeDigits (NilEmpty.string_of_uint d) = d.
Proof. induction d; simpl; congruence. Qed.

Lemma parseInt_digits (d : uint) :
  d <> Nil -> parseInt (NilEmpty.string_of_uint d) = Num (Z.of_uint d).
Proof.
  intros Hd. unfold parseInt.
  assert (Ht : trimStart (NilEmpty.string_of_uint d) = NilEmpty.string_of_uint d)
    by (destruct d; reflexivity).
  rewrite Ht.
  assert (Hs : match NilEmpty.string_of_uint d with
               | String "-"%char r => (true, r)
               | String "+"%char r => (false, r)
               | _ => (false, NilEmpty.string_of_uint d)
               end = (false, NilEmpty.string_of_uint d))
    by (destruct d; reflexivity).
  rewrite Hs, takeDigits_string_of_uint.
  destruct d; congruence.
Qed.

Lemma parseInt_minus_digits (d : uint) :
  d <> Nil ->
  parseInt (String "-"%char (NilEmpty.string_of_uint d)) = Num (- Z.of_uint d).
Proof.
  intros Hd. unfold parseInt.
  change (trimStart (String "-"%char (NilEmpty.string_of_uint d)))
    with (String "-"%char (NilEmpty.string_of_uint d)).
  cbv iota beta. rewrite takeDigits_string_of_uint.
  destruct d; congruence.
Qed.

Lemma parseInt_toString (n : Z) : parseInt (toString n) = Num n.
Proof.
  destruct n as [|p|p].
  - reflexivity.
  - unfold toString. cbn [Z.to_int NilZero.string_of_int].
    pose proof (DecimalPos.Unsigned.to_uint_nonnil p) as Hp.
    replace (NilZero.string_of_uint (Pos.to_uint p))
      with (NilEmpty.string_of_uint (Pos.to_uint p))
      by (unfold NilZero.string_of_uint; destruct (Pos.to_uint p); congruence).
    rewrite parseInt_digits by assumption.
    f_equal. exact (DecimalZ.of_to (Z.pos p)).
  - unfold toString. cbn [Z.to_int NilZero.string_of_int].
    pose proof (DecimalPos.Unsigned.to_uint_nonnil p) as Hp.
    replace (NilZero.string_of_uint (Pos.to_uint p))
      with (NilEmpty.string_of_uint (Pos.to_uint p))
      by (unfold NilZero.string_of_uint; destruct (Pos.to_uint p); congruence).
    rewrite parseInt_minus_digits by assumption.
    f_equal. exact (DecimalZ.of_to (Z.neg p)).
Qed.

Lemma toString_nonempty (n : Z) : toString n <> "".
Proof.
  intros H. pose proof (parseInt_toString n) as P. rewrite H in P. discriminate.
Qed.

Lemma parseInt_stored (ls : gmap string string) (key : string) (n : Z) :
  getItem ls key = Some (toString n) ->
  parseInt (getItemOr ls key "0") = Num n.
Proof.
  intros H. unfold getItemOr. rewrite H.
  pose proof (toString_nonempty n) as Hne.
  destruct (toString n) eqn:E; [congruence|].
  rewrite <- E. apply parseInt_toString.
Qed.

Lemma getItem_setItem_eq (ls : gmap string string) (k v : string) :
  getItem (setItem k v ls) k = Some v.
Proof. apply lookup_insert_eq. Qed.

Lemma getItem_setItem_ne (ls : gmap string string) (k k' v : string) :
  k <> k' -> getItem (setItem k v ls) k' = getItem ls k'.
Proof. intros H. unfold getItem, setItem. by rewrite lookup_insert_ne. Qed.

Lemma getItem_removeItem_eq (ls : gmap string string) (k : string) :
  getItem (removeItem k ls) k = None.
Proof. apply lookup_delete_eq. Qed.

Lemma getItem_removeItem_ne (ls : gmap string string) (k k' : string) :
  k <> k' -> getItem (removeItem k ls) k' = getItem ls k'.
Proof. intros H. unfold getItem, removeItem. by rewrite lookup_delete_ne. Qed.

Lemma getItemOr_setItem_ne (ls : gmap string string) (k k' v d : string) :
  k <> k' -> getItemOr (setItem k v ls) k' d = getItemOr ls k' d.
Proof. intros H. unfold getItemOr. by rewrite getItem_setItem_ne. Qed.

Lemma getItemOr_removeItem_ne (ls : gmap string string) (k k' d : string) :
  k <> k' -> getItemOr (removeItem k ls) k' d = getItemOr ls k' d.
Proof. intros H. unfold getItemOr. by rewrite getItem_removeItem_ne. Qed.

Lemma parseInt_setItem (ls : gmap string string) (k : string) (n : Z) :
  parseInt (getItemOr (setItem k (toString n) ls) k "0") = Num n.
Proof. apply parseInt_stored, getItem_setItem_eq. Qed.

Lemma parseInt_setItem_zero (ls : gmap string string) (k : string) :
  parseInt (getItemOr (setItem k "0" ls) k "0") = Num 0.
Proof. exact (parseInt_setItem ls k 0). Qed.

(** The helper for browser notifications and the start handler, as
    updates of the log and of the waiting notifications. *)
Lemma sendBrowserNotification_eq (title body : string) (a : App) :
  sendBrowserNotification title body a
  = set_permissionWaiters
      (permissionWaiters a ++ notificationWaiters (browser a) title body)
      (set_outputs (outputs a ++ notificationCalls (browser a) title body) a).
Proof.
  destruct a as [st pc ar ir ts irs rs pr mu [[[p f]|] sw] pw ls outs].
  - destruct p as [[| |]|], f, sw; cbn; rewrite ?app_nil_r; reflexivity.
  - cbn. rewrite !app_nil_r. reflexivity.
Qed.

Lemma handleStartResume_eq (now : Z) (a : App) :
  exists calls,
    handleStartResume now a
    = set_outputs (outputs a ++ calls)
        (set_isRunning true
           (store kIsRunning "true"
              (store kStartTime (toString now)
                 (store kAccumulated (toString (totalSeconds a)) a)))).
Proof.
  destruct a as [st pc ar ir ts irs rs pr mu [[[p f]|] sw] pw ls outs].
  - destruct p as [[| |]|], f;
      first [by exists [RequestPermission]
            | exists []; cbn; by rewrite app_nil_r].
  - exists []. cbn. by rewrite app_nil_r.
Qed.

Ltac start_eq :=
  match goal with
  | |- context [handleStartResume ?now ?a] =>
      let calls := fresh "calls" in
      destruct (handleStartResume_eq now a) as [calls ->]
  end.

(** Reduce projections of updated records. *)
Ltac app_cbn_fields :=
  cbn [settings pomodorosCompleted availableRestMinutes isRunning totalSeconds
       isResting restSecondsRemaining prevPomodorosRef manualUpdatesPending
       browser permissionWaiters localStorage outputs
       set_settings set_pomodorosCompleted set_availableRestMinutes
       set_isRunning set_totalSeconds set_isResting set_restSecondsRemaining
       set_prevPomodorosRef set_manualUpdatesPending set_browser
       set_permissionWaiters set_localStorage
       set_outputs store unstore emit showNotification requestPermission
       playSound] in *.

Ltac app_cbn :=
  app_cbn_fields;
  repeat (rewrite sendBrowserNotification_eq in *; app_cbn_fields).

(** The five keys are pairwise different. *)
Ltac keys_ne :=
  unfold kAccumulated, kStartTime, kIsRunning, kCompleted, kRest; discriminate.

(** Read a store after writes. *)
Ltac ls_simpl :=
  repeat first
    [ rewrite getItem_setItem_eq
    | rewrite parseInt_setItem
    | rewrite parseInt_setItem_zero
    | rewrite getItem_removeItem_eq
    | rewrite getItem_setItem_ne by keys_ne
    | rewrite getItemOr_setItem_ne by keys_ne
    | rewrite getItem_removeItem_ne by keys_ne
    | rewrite getItemOr_removeItem_ne by keys_ne ].

(** Turn boolean comparisons in the context into propositions. *)
Ltac zbool :=
  repeat match goal with
  | H : (_ <? _) = true |- _ => apply Z.ltb_lt in H
  | H : (_ <? _) = false |- _ => apply Z.ltb_ge in H
  | H : (_ <=? _) = true |- _ => apply Z.leb_le in H
  | H : (_ <=? _) = false |- _ => apply Z.leb_gt in H
  | H : (_ =? _) = true |- _ => apply Z.eqb_eq in H
  | H : (_ =? _) = false |- _ => apply Z.eqb_neq in H
  end.

(** ** The effects *)

Lemma POMODORO_DURATION_SECONDS_pos (st : Settings) :
  60 <= POMODORO_DURATION_SECONDS st.
Proof. unfold POMODORO_DURATION_SECONDS. lia. Qed.

Lemma cycleEffect_eq (a : App) :
  cycleEffect a
  = set_pomodorosCompleted
      (Z.max (pomodorosCompleted a)
         (floor_div (totalSeconds a) (POMODORO_DURATION_SECONDS (settings a))))
      a.
Proof.
  unfold cycleEffect.
  destruct (Z.ltb_spec (pomodorosCompleted a)
              (floor_div (totalSeconds a)
                 (POMODORO_DURATION_SECONDS (settings a)))) as [H|H].
  - by rewrite Z.max_r by lia.
  - rewrite Z.max_l by lia. by destruct a.
Qed.

Lemma giftEffect_prev a : prevPomodorosRef (giftEffect a) = pomodorosCompleted a.
Proof.
  unfold giftEffect. app_cbn.
  repeat case_match; app_cbn; reflexivity.
Qed.

Lemma giftEffect_frame a :
  let a' := giftEffect a in
  settings a' = settings a /\ pomodorosCompleted a' = pomodorosCompleted a /\
  isRunning a' = isRunning a /\ totalSeconds a' = totalSeconds a /\
  isResting a' = isResting a /\ restSecondsRemaining a' = restSecondsRemaining a.
Proof.
  unfold giftEffect. app_cbn.
  repeat case_match; app_cbn; repeat split; reflexivity.
Qed.
Lemma giftEffect_pending a :
  manualUpdatesPending (giftEffect a) =
  if prevPomodorosRef a <? pomodorosCompleted a then
    Z.max 0 (manualUpdatesPending a - Z.min (pomodorosCompleted a - prevPomodorosRef a) (manualUpdatesPending a))
  else manualUpdatesPending a.
Proof.
  unfold giftEffect. app_cbn.
  repeat case_match; app_cbn; try reflexivity.
Qed.


Lemma giftEffect_stored a :
  getItem (localStorage (giftEffect a)) kCompleted
  = Some (toString (pomodorosCompleted a)).
Proof.
  unfold giftEffect. app_cbn.
  repeat case_match; app_cbn; ls_simpl; reflexivity.
Qed.

Lemma giftEffect_other a k :
  k <> kCompleted -> k <> kRest ->
  getItem (localStorage (giftEffect a)) k = getItem (localStorage a) k.
Proof.
  intros H1 H2. unfold giftEffect. app_cbn.
  repeat case_match; app_cbn;
    rewrite ?getItem_setItem_ne by congruence; reflexivity.
Qed.

Lemma giftEffect_rest a :
  parseInt (getItemOr (localStorage a) kRest "0") = Num (availableRestMinutes a) ->
  parseInt (getItemOr (localStorage (giftEffect a)) kRest "0")
  = Num (availableRestMinutes (giftEffect a)).
Proof.
  intros H. unfold giftEffect. app_cbn.
  repeat case_match; app_cbn; ls_simpl; auto.
Qed.

Lemma giftEffect_idle a :
  pomodorosCompleted a <= prevPomodorosRef a ->
  availableRestMinutes (giftEffect a) = availableRestMinutes a /\
  outputs (giftEffect a) = outputs a /\
  manualUpdatesPending (giftEffect a) = manualUpdatesPending a.
Proof.
  intros H. unfold giftEffect. app_cbn.
  destruct (Z.ltb_spec (prevPomodorosRef a) (pomodorosCompleted a)); [lia|].
  app_cbn. auto.
Qed.

Lemma renderEffects_frame b :
  let b' := renderEffects b in
  settings b' = settings b /\
  pomodorosCompleted b'
  = Z.max (pomodorosCompleted b)
      (floor_div (totalSeconds b) (POMODORO_DURATION_SECONDS (settings b))) /\
  isRunning b' = isRunning b /\ totalSeconds b' = totalSeconds b /\
  isResting b' = isResting b /\
  restSecondsRemaining b' = restSecondsRemaining b /\
  prevPomodorosRef b' = pomodorosCompleted b.
Proof.
  unfold renderEffects. rewrite cycleEffect_eq.
  destruct (pomodorosCompleted b =? prevPomodorosRef b) eqn:E; zbool.
  - app_cbn. repeat split; congruence.
  - pose proof (giftEffect_frame b) as Fr. cbv zeta in Fr.
    destruct Fr as (F1 & F2 & F3 & F4 & F5 & F6).
    app_cbn. rewrite F1, F2, F4. repeat split; auto using giftEffect_prev.
Qed.

Lemma renderEffects_other b k :
  k <> kCompleted -> k <> kRest ->
  getItem (localStorage (renderEffects b)) k = getItem (localStorage b) k.
Proof.
  intros H1 H2. unfold renderEffects. rewrite cycleEffect_eq. app_cbn.
  case_match; auto using giftEffect_other.
Qed.

Lemma renderEffects_rest b :
  parseInt (getItemOr (localStorage b) kRest "0") = Num (availableRestMinutes b) ->
  parseInt (getItemOr (localStorage (renderEffects b)) kRest "0")
  = Num (availableRestMinutes (renderEffects b)).
Proof.
  intros H. unfold renderEffects. rewrite cycleEffect_eq. app_cbn.
  case_match; auto using giftEffect_rest.
Qed.

Lemma renderEffects_stored b :
  (pomodorosCompleted b = prevPomodorosRef b ->
   getItem (localStorage b) kCompleted = Some (toString (pomodorosCompleted b))) ->
  getItem (localStorage (renderEffects b)) kCompleted
  = Some (toString (pomodorosCompleted b)).
Proof.
  intros H. unfold renderEffects. rewrite cycleEffect_eq. app_cbn.
  destruct (pomodorosCompleted b =? prevPomodorosRef b) eqn:E; zbool.
  - auto.
  - apply giftEffect_stored.
Qed.

Lemma renderEffects_pending b :
  0 <= manualUpdatesPending b
    <= Z.max 0 (pomodorosCompleted b - prevPomodorosRef b) ->
  manualUpdatesPending (renderEffects b) = 0.
Proof.
  intros H. unfold renderEffects. rewrite cycleEffect_eq. app_cbn.
  destruct (pomodorosCompleted b =? prevPomodorosRef b) eqn:E; zbool.
  - lia.
  - rewrite giftEffect_pending. case_match; zbool; lia.
Qed.

Lemma renderEffects_pre (b : App) :
  PreSettle b -> PreSettle (renderEffects b).
Proof.
  intros [Hx Hs Hr Hp Hf Hn].
  pose proof (renderEffects_frame b) as Fr. cbv zeta in Fr.
  destruct Fr as (F1 & F2 & F3 & F4 & F5 & F6 & F7).
  split.
  - by rewrite F3, F5.
  - intros Heq. rewrite F2, F7 in Heq.
    rewrite renderEffects_stored by assumption.
    by rewrite F2, Heq.
  - by apply renderEffects_rest.
  - rewrite renderEffects_pending by assumption. lia.
  - rewrite F3, renderEffects_other by keys_ne. assumption.
  - lia.
Qed.

Lemma renderEffects_inv (b : App) :
  PreSettle b ->
  floor_div (totalSeconds b) (POMODORO_DURATION_SECONDS (settings b))
    <= pomodorosCompleted b ->
  Inv (renderEffects b).
Proof.
  intros [Hx Hs Hr Hp Hf Hn] Hd.
  pose proof (renderEffects_frame b) as Fr. cbv zeta in Fr.
  destruct Fr as (F1 & F2 & F3 & F4 & F5 & F6 & F7).
  rewrite Z.max_l in F2 by lia.
  split.
  - congruence.
  - by rewrite F1, F2, F4.
  - by rewrite F3, F5.
  - rewrite F2. by apply renderEffects_stored.
  - by apply renderEffects_rest.
  - by apply renderEffects_pending.
  - rewrite F3, renderEffects_other by keys_ne. assumption.
  - lia.
Qed.

Lemma settle_inv (b : App) : PreSettle b -> Inv (settle b).
Proof.
  intros H. unfold settle. apply renderEffects_inv.
  - by apply renderEffects_pre.
  - pose proof (renderEffects_frame b) as Fr. cbv zeta in Fr.
    destruct Fr as (F1 & F2 & F3 & F4 & F5 & F6 & F7).
    rewrite F1, F2, F4. lia.
Qed.

Lemma Inv_PreSettle a : Inv a -> PreSettle a.
Proof.
  intros [H1 H2 H3 H4 H5 H6 H7 H8]. split; auto. lia.
Qed.

(** Once [Inv] holds the effects have nothing left to do. *)
Lemma renderEffects_fix a : Inv a -> renderEffects a = a.
Proof.
  intros [H1 H2 H3 H4 H5 H6 H7 H8].
  unfold renderEffects. rewrite H1, Z.eqb_refl, cycleEffect_eq.
  rewrite Z.max_l by lia. by destruct a.
Qed.

Lemma settle_stable b : PreSettle b -> renderEffects (settle b) = settle b.
Proof. intros H. by apply renderEffects_fix, settle_inv. Qed.

(** ** The handlers leave a state the effects can settle *)

(** Discharge the fields of [PreSettle] or [Inv] after a handler. *)
Ltac pre_fields :=
  split; app_cbn; ls_simpl; zbool;
  try solve [ assumption | reflexivity | lia | congruence
            | intros; congruence
            | split; intros; congruence ].

Lemma handleMainTick_pre a : Inv a -> PreSettle (handleMainTick a).
Proof.
  intros [H1 H2 H3 H4 H5 H6 H7 H8]. unfold handleMainTick. pre_fields.
Qed.

Lemma handleRestTick_pre a : Inv a -> PreSettle (handleRestTick a).
Proof.
  intros [H1 H2 H3 H4 H5 H6 H7 H8]. unfold handleRestTick. pre_fields.
Qed.

Lemma handleStartResume_pre now a :
  Inv a -> isResting a = false -> PreSettle (handleStartResume now a).
Proof.
  intros [H1 H2 H3 H4 H5 H6 H7 H8] Hr. start_eq. pre_fields.
Qed.

Lemma handlePause_pre a : Inv a -> PreSettle (handlePause a).
Proof.
  intros [H1 H2 H3 H4 H5 H6 H7 H8]. unfold handlePause.
  rewrite Z.max_l by lia. pre_fields.
Qed.

Lemma handleResetTimer_pre a : Inv a -> isRunning a = false -> PreSettle (handleResetTimer a).
Proof.
  intros [H1 H2 H3 H4 H5 H6 H7 H8] Hr. unfold handleResetTimer. pre_fields.
Qed.

Lemma handleResetPomodoros_pre now a : Inv a -> PreSettle (handleResetPomodoros now a).
Proof.
  intros [H1 H2 H3 H4 H5 H6 H7 H8]. unfold handleResetPomodoros.
  destruct (isRunning a) eqn:E; pre_fields.
Qed.

Lemma handleResetRestMinutes_pre a : Inv a -> PreSettle (handleResetRestMinutes a).
Proof.
  intros [H1 H2 H3 H4 H5 H6 H7 H8]. unfold handleResetRestMinutes. pre_fields.
Qed.

Lemma handleUseRest_pre a : Inv a -> PreSettle (handleUseRest a).
Proof.
  intros I. pose proof I as [H1 H2 H3 H4 H5 H6 H7 H8]. unfold handleUseRest.
  destruct (isResting a) eqn:Er; [by apply Inv_PreSettle|].
  destruct (isRunning a) eqn:Eu.
  - unfold handlePause. rewrite Z.max_l by lia. app_cbn.
    case_match; pre_fields.
  - case_match; pre_fields; by rewrite Eu.
Qed.

Lemma handlePauseRest_pre a : Inv a -> PreSettle (handlePauseRest a).
Proof.
  intros [H1 H2 H3 H4 H5 H6 H7 H8]. unfold handlePauseRest.
  repeat case_match; pre_fields.
Qed.

Lemma handleAddPomodoro_pre now a : Inv a -> PreSettle (handleAddPomodoro now a).
Proof.
  intros [H1 H2 H3 H4 H5 H6 H7 H8]. unfold handleAddPomodoro.
  destruct (isRunning a) eqn:E; pre_fields.
Qed.

Lemma handleRemovePomodoro_pre now a : Inv a -> PreSettle (handleRemovePomodoro now a).
Proof.
  intros I. pose proof I as [H1 H2 H3 H4 H5 H6 H7 H8]. unfold handleRemovePomodoro.
  case_match; [|by apply Inv_PreSettle].
  destruct (isRunning a) eqn:E; pre_fields.
Qed.

Lemma handleAddRestMinutes_pre m a : Inv a -> PreSettle (handleAddRestMinutes m a).
Proof.
  intros I. pose proof I as [H1 H2 H3 H4 H5 H6 H7 H8]. unfold handleAddRestMinutes.
  case_match; [|by apply Inv_PreSettle]. pre_fields.
Qed.

Lemma handleRemoveRestMinutes_pre m a : Inv a -> PreSettle (handleRemoveRestMinutes m a).
Proof.
  intros I. pose proof I as [H1 H2 H3 H4 H5 H6 H7 H8]. unfold handleRemoveRestMinutes.
  case_match; [|by apply Inv_PreSettle]. case_match; pre_fields.
Qed.

Lemma handleSaveSettings_pre st a : Inv a -> PreSettle (handleSaveSettings st a).
Proof.
  intros I. pose proof I as [H1 H2 H3 H4 H5 H6 H7 H8]. unfold handleSaveSettings.
  case_match; [by apply Inv_PreSettle|]. pre_fields.
Qed.

Lemma syncStateFromStorage_pre now a b :
  Inv a -> syncStateFromStorage now a = Some b -> PreSettle b.
Proof.
  intros I. pose proof I as [H1 H2 H3 H4 H5 H6 H7 H8]. unfold syncStateFromStorage.
  intros H. repeat case_match; simplify_eq; try by apply Inv_PreSettle.
  all: pre_fields.
Qed.

(** ** Loading the page *)

Lemma mountEffects_eq (a : App) :
  prevPomodorosRef a = pomodorosCompleted a ->
  floor_div (totalSeconds a) (POMODORO_DURATION_SECONDS (settings a))
    <= pomodorosCompleted a ->
  mountEffects a = store kCompleted (toString (pomodorosCompleted a)) a.
Proof.
  intros Hp Hd.
  assert (G : giftEffect a
              = set_prevPomodorosRef (pomodorosCompleted a)
                  (store kCompleted (toString (pomodorosCompleted a)) a)).
  { unfold giftEffect. app_cbn_fields. by rewrite Hp, Z.ltb_irrefl. }
  assert (S : set_prevPomodorosRef (pomodorosCompleted a)
                (store kCompleted (toString (pomodorosCompleted a)) a)
              = store kCompleted (toString (pomodorosCompleted a)) a).
  { destruct a; app_cbn_fields. cbn in Hp. by subst. }
  assert (C : cycleEffect (store kCompleted (toString (pomodorosCompleted a)) a)
              = store kCompleted (toString (pomodorosCompleted a)) a).
  { rewrite cycleEffect_eq. app_cbn_fields. rewrite (Z.max_l _ _ Hd).
    by destruct a. }
  unfold mountEffects. rewrite G, S, C. unfold renderEffects.
  change (pomodorosCompleted
            (store kCompleted (toString (pomodorosCompleted a)) a))
    with (pomodorosCompleted a).
  change (prevPomodorosRef
            (store kCompleted (toString (pomodorosCompleted a)) a))
    with (prevPomodorosRef a).
  by rewrite Hp, Z.eqb_refl, C.
Qed.

Lemma getInitialState_seconds_nonneg ls now d t :
  seconds (getInitialState ls now d) = Num t -> 0 <= t.
Proof.
  unfold getInitialState. cbn [seconds].
  match goal with |- (if js_ltb ?x _ then _ else _) = _ -> _ =>
    destruct x as [|v] eqn:E end; cbn [js_ltb].
  - discriminate.
  - destruct (Z.ltb_spec v 0); intros [= <-]; lia.
Qed.

Lemma getInitialState_pomodoros ls now d :
  pomodoros (getInitialState ls now d)
  = js_max (parseInt (getItemOr ls kCompleted "0"))
      (js_floor_div (seconds (getInitialState ls now d)) d).
Proof. reflexivity. Qed.

Lemma getInitialState_restMinutes ls now d :
  restMinutes (getInitialState ls now d) = parseInt (getItemOr ls kRest "0").
Proof. reflexivity. Qed.

Lemma getInitialState_wasRunning ls now d :
  wasRunning (getInitialState ls now d)
  = bool_decide (getItem ls kIsRunning = Some "true").
Proof. reflexivity. Qed.

(** What [mount] returns, spelled out. *)
Lemma mount_Some st br ls now a :
  mount st br ls now = Some a ->
  exists stored t r,
    parseInt (getItemOr ls kCompleted "0") = Num stored /\
    seconds (getInitialState ls now (POMODORO_DURATION_SECONDS st)) = Num t /\
    parseInt (getItemOr ls kRest "0") = Num r /\
    0 <= t /\
    let p := Z.max stored (floor_div t (POMODORO_DURATION_SECONDS st)) in
    a = {| settings := st;
           pomodorosCompleted := p;
           availableRestMinutes := r;
           isRunning := bool_decide (getItem ls kIsRunning = Some "true");
           totalSeconds := t;
           isResting := false;
           restSecondsRemaining := 0;
           prevPomodorosRef := p;
           manualUpdatesPending := 0;
           browser := br;
           permissionWaiters := [];
           localStorage := setItem kCompleted (toString p) ls;
           outputs := [] |}.
Proof.
  unfold mount. intros H.
  pose proof (getInitialState_pomodoros ls now (POMODORO_DURATION_SECONDS st)) as Hp.
  pose proof (getInitialState_restMinutes ls now (POMODORO_DURATION_SECONDS st)) as Hr.
  pose proof (getInitialState_wasRunning ls now (POMODORO_DURATION_SECONDS st)) as Hw.
  pose proof (getInitialState_seconds_nonneg ls now (POMODORO_DURATION_SECONDS st)) as Hn.
  destruct (pomodoros _) as [|p] eqn:Ep; [discriminate|].
  destruct (seconds _) as [|t] eqn:Et; [discriminate|].
  destruct (restMinutes _) as [|r] eqn:Er; [discriminate|].
  destruct (parseInt (getItemOr ls kCompleted "0")) as [|stored] eqn:Es;
    [discriminate|].
  cbn [js_floor_div js_max] in Hp. injection Hp as ->.
  exists stored, t, r. repeat split; auto.
  cbv zeta. injection H as <-.
  rewrite mountEffects_eq; app_cbn; unfold floor_div; try lia.
  reflexivity.
Qed.

Lemma mount_Inv st br ls now a : mount st br ls now = Some a -> Inv a.
Proof.
  intros H. apply mount_Some in H as (stored & t & r & Hs & Ht & Hr & Hn & ->).
  pose proof (POMODORO_DURATION_SECONDS_pos st) as Hd.
  assert (0 <= t / POMODORO_DURATION_SECONDS st) by (apply Z.div_pos; lia).
  split; app_cbn; ls_simpl; unfold floor_div; try (reflexivity || lia || assumption).
  apply bool_decide_eq_true.
Qed.

(** The events of the browser leave the page as it is. *)
Lemma samePage_refl a : samePage a a.
Proof. by repeat split. Qed.

Lemma samePage_trans a b c : samePage a b -> samePage b c -> samePage a c.
Proof.
  intros (A1 & A2 & A3 & A4 & A5 & A6 & A7 & A8 & A9 & A10)
         (B1 & B2 & B3 & B4 & B5 & B6 & B7 & B8 & B9 & B10).
  repeat split; congruence.
Qed.

Lemma sendBrowserNotification_samePage title body a :
  samePage a (sendBrowserNotification title body a).
Proof. rewrite sendBrowserNotification_eq. by repeat split. Qed.

Lemma permissionAnswered_samePage answer a :
  samePage a (permissionAnswered answer a).
Proof.
  unfold permissionAnswered.
  set (b := set_permissionWaiters [] _).
  assert (Hb : samePage a b) by by repeat split.
  generalize dependent b. generalize (permissionWaiters a) as waiting.
  induction waiting as [|[title body] waiting IH]; intros b Hb; [exact Hb|].
  cbn [foldl]. apply IH. destruct answer; try exact Hb.
  eapply samePage_trans; [exact Hb|apply sendBrowserNotification_samePage].
Qed.

Lemma Inv_samePage a b : samePage a b -> Inv a -> Inv b.
Proof.
  intros (A1 & A2 & A3 & A4 & A5 & A6 & A7 & A8 & A9 & A10)
         [H1 H2 H3 H4 H5 H6 H7 H8].
  split; rewrite ?A1, ?A2, ?A3, ?A4, ?A5, ?A6, ?A7, ?A8, ?A9, ?A10;
    assumption.
Qed.

Lemma step_Inv a ev a' :
  Inv a -> enabled a ev = true -> step a ev = Some a' -> Inv a'.
Proof.
  intros I He Hs. destruct ev; cbn [step enabled] in *; simplify_eq.
  - by apply settle_inv, handleMainTick_pre.
  - assert (Inv (settle (handleRestTick a))) as [H1 H2 H3 H4 H5 H6 H7 H8]
      by by apply settle_inv, handleRestTick_pre.
    unfold restFinishedEffect. case_match; [|by split].
    split; app_cbn; assumption.
  - destruct (handleVisibilityChange now a) as [b|] eqn:Eb; [|discriminate].
    injection Hs as <-. apply settle_inv. unfold handleVisibilityChange in Eb.
    destruct (isRunning a); simplify_eq;
      eauto using syncStateFromStorage_pre, Inv_PreSettle.
  - apply settle_inv, handleStartResume_pre; auto.
    destruct (isResting a); [discriminate|reflexivity].
  - by apply settle_inv, handlePause_pre.
  - apply settle_inv, handleResetTimer_pre; auto.
    destruct (isRunning a); [discriminate|reflexivity].
  - by apply settle_inv, handleResetPomodoros_pre.
  - by apply settle_inv, handleResetRestMinutes_pre.
  - by apply settle_inv, handleUseRest_pre.
  - by apply settle_inv, handlePauseRest_pre.
  - by apply settle_inv, handleAddPomodoro_pre.
  - by apply settle_inv, handleRemovePomodoro_pre.
  - by apply settle_inv, handleAddRestMinutes_pre.
  - by apply settle_inv, handleRemoveRestMinutes_pre.
  - by apply settle_inv, handleSaveSettings_pre.
  - by apply mount_Inv in Hs.
  - by apply mount_Inv in Hs.
  - eapply Inv_samePage; [apply permissionAnswered_samePage|exact I].
  - eapply Inv_samePage; [|exact I]. by repeat split.
Qed.

Theorem reachable_Inv a : reachable a -> Inv a.
Proof.
  induction 1 as [st br ls now a H|a ev a' _ IH He Hs].
  - by apply mount_Inv in H.
  - by apply (step_Inv a ev).
Qed.

(** ** The gift loop against the document's reward rule *)

Lemma giftLoopBody_spec st start i t :
  giftLoopBody st start i t
  = {| newRestMinutes := newRestMinutes t + spec_rewardAt st (start + i);
       superGifts :=
         superGifts t + (if spec_isBonusIndex (start + i) then 1 else 0);
       normalGifts :=
         normalGifts t + (if spec_isBonusIndex (start + i) then 0 else 1) |}.
Proof.
  unfold giftLoopBody, spec_rewardAt, spec_isBonusIndex.
  destruct (Z.ltb_spec 0 (start + i)) as [Hpos|Hneg]; cbn [andb].
  - rewrite Z.rem_mod_nonneg by lia.
    destruct (_ =? 0); f_equal; lia.
  - f_equal; lia.
Qed.

Lemma giftLoop_spec st n : forall start g i t,
  i + Z.of_nat n = g + 1 ->
  let idxs := map (fun k : nat => start + (i + Z.of_nat k)) (seq 0 n) in
  let r := giftLoop st n start g i t in
  newRestMinutes r
  = newRestMinutes t + foldr Z.add 0 (map (spec_rewardAt st) idxs) /\
  superGifts r
  = superGifts t
    + Z.of_nat (length (filter (fun i => spec_isBonusIndex i = true) idxs)) /\
  superGifts r + normalGifts r
  = superGifts t + normalGifts t + Z.of_nat n.
Proof.
  induction n as [|n IH]; intros start g i t Hn; cbn zeta.
  - cbn. lia.
  - cbn [giftLoop]. destruct (Z.leb_spec i g); [|lia].
    specialize (IH start g (i + 1) (giftLoopBody st start i t) ltac:(lia)).
    cbn zeta in IH. destruct IH as (IH1 & IH2 & IH3).
    rewrite IH1, IH3, IH2. rewrite giftLoopBody_spec.
    cbn [newRestMinutes superGifts normalGifts].
    assert (E : map (fun k : nat => start + (i + Z.of_nat k)) (seq 1 n)
                = map (fun k : nat => start + (i + 1 + Z.of_nat k)) (seq 0 n)).
    { rewrite <- seq_shift, map_map. apply map_ext. intros. lia. }
    cbn [seq map foldr]. rewrite E, Z.add_0_r.
    rewrite filter_cons.
    destruct (decide (spec_isBonusIndex (start + i) = true)) as [Hb|Hb].
    + rewrite Hb. cbn [length]. repeat split; lia.
    + apply not_true_is_false in Hb. rewrite Hb. repeat split; lia.
Qed.

Lemma giftLoop_credit st prev manual g :
  0 <= g ->
  let r := giftLoop st (Z.to_nat g) (prev + manual) g 1 (mkTally 0 0 0) in
  newRestMinutes r = spec_credit st prev manual g /\
  superGifts r = spec_bonusCount prev manual g /\
  superGifts r + normalGifts r = g.
Proof.
  intros Hg.
  pose proof (giftLoop_spec st (Z.to_nat g) (prev + manual) g 1 (mkTally 0 0 0)
                ltac:(lia)) as H.
  cbn zeta in *. destruct H as (H1 & H2 & H3).
  rewrite H1, H3, H2. cbn [newRestMinutes superGifts normalGifts].
  unfold spec_credit, spec_bonusCount, spec_indices.
  assert (E : map (fun i : nat => prev + manual + Z.of_nat i)
                (seq 1 (Z.to_nat g))
              = map (fun k : nat => prev + manual + (1 + Z.of_nat k))
                  (seq 0 (Z.to_nat g))).
  { rewrite <- seq_shift, map_map. apply map_ext. intros. lia. }
  rewrite E.
  repeat split; lia.
Qed.

(** ** The fuel of the gift loop is enough *)

Lemma giftLoop_fuel_enough st n : forall extra start g i t,
  i + Z.of_nat n = g + 1 ->
  giftLoop st (n + extra) start g i t = giftLoop st n start g i t.
Proof.
  induction n as [|n IH]; intros extra start g i t Hn.
  - cbn [Nat.add giftLoop]. destruct extra as [|e]; [reflexivity|].
    cbn [giftLoop]. destruct (Z.leb_spec i g); [lia|reflexivity].
  - cbn [Nat.add giftLoop]. destruct (Z.leb_spec i g); [|reflexivity].
    apply IH. lia.
Qed.

Lemma spec_indices_length prev manual g :
  0 <= g -> Z.of_nat (length (spec_indices prev manual g)) = g.
Proof.
  intros Hg. unfold spec_indices. rewrite length_map, length_seq. lia.
Qed.

Lemma spec_credit_zero st prev manual : spec_credit st prev manual 0 = 0.
Proof. reflexivity. Qed.

Lemma spec_credit_pos st prev manual g :
  0 < shortRestReward st -> 0 < longRestReward st -> 0 < g ->
  0 < spec_credit st prev manual g.
Proof.
  intros Hs Hl Hg. unfold spec_credit, spec_indices.
  destruct (Z.to_nat g) as [|n] eqn:E; [lia|].
  cbn [seq map foldr].
  assert (Hnn : forall l, 0 <= foldr Z.add 0 (map (spec_rewardAt st) l)).
  { induction l as [|x l IH]; cbn [map foldr]; [lia|].
    unfold spec_rewardAt at 1. destruct (spec_isBonusIndex x); lia. }
  specialize (Hnn (map (fun i : nat => prev + manual + Z.of_nat i) (seq 2 n))).
  unfold spec_rewardAt at 1. destruct (spec_isBonusIndex _); lia.
Qed.

(** The gift effect on a live increase, in the document's terms. *)
Lemma giftEffect_credit (a : App) :
  prevPomodorosRef a < pomodorosCompleted a ->
  let totalDelta := pomodorosCompleted a - prevPomodorosRef a in
  let manualCount := Z.min totalDelta (manualUpdatesPending a) in
  let giftableCount := totalDelta - manualCount in
  let credit :=
    spec_credit (settings a) (prevPomodorosRef a) manualCount giftableCount in
  availableRestMinutes (giftEffect a)
  = availableRestMinutes a + Z.max 0 credit /\
  (credit <= 0 -> outputs (giftEffect a) = outputs a) /\
  (0 < credit ->
   exists (message : string) (type : NotificationType),
     outputs (giftEffect a)
     = (outputs a
        ++ ShowNotification message type
           :: notificationCalls (browser a) "Pomodoro Completed!"
                ("You've earned " +:+ toString credit +:+ " minutes of rest.")
           ++ [PlaySound success])%list /\
     type = (if 0 <? spec_bonusCount (prevPomodorosRef a) manualCount
                       giftableCount
             then super else gift)).
Proof.
  intros Hlt. cbn zeta.
  set (totalDelta := pomodorosCompleted a - prevPomodorosRef a).
  set (manualCount := Z.min totalDelta (manualUpdatesPending a)).
  set (g := totalDelta - manualCount).
  assert (Hg : 0 <= g) by (unfold g, manualCount; lia).
  pose proof (giftLoop_credit (settings a) (prevPomodorosRef a) manualCount g Hg)
    as Hloop. cbn zeta in Hloop. destruct Hloop as (L1 & L2 & L3).
  unfold giftEffect. app_cbn.
  destruct (Z.ltb_spec (prevPomodorosRef a) (pomodorosCompleted a)); [|lia].
  fold totalDelta. fold manualCount. fold g. app_cbn.
  destruct (Z.ltb_spec 0 g) as [Hpos|Hzero].
  - rewrite L1.
    destruct (Z.ltb_spec 0
                (spec_credit (settings a) (prevPomodorosRef a) manualCount g))
      as [Hc|Hc]; app_cbn.
    + split; [lia|]. split; [lia|]. intros _.
      unfold giftMessage. rewrite L2.
      destruct (0 <? spec_bonusCount _ _ _) eqn:Eb.
      * eexists _, _. rewrite <- !app_assoc. cbn [app]. rewrite L1. split; reflexivity.
      * eexists _, _. rewrite <- !app_assoc. cbn [app]. rewrite L1. split; reflexivity.
    + split; [lia|]. split; [reflexivity|lia].
  - assert (g = 0) as -> by lia. rewrite spec_credit_zero. app_cbn.
    split; [lia|]. split; [reflexivity|lia].
Qed.

(** ** Reachability helpers *)

Lemma freshApp_mount : mount defaultSettings fixedVariantBrowser ∅ 0 = Some freshApp.
Proof. vm_compute. reflexivity. Qed.

Lemma freshApp_reachable : reachable freshApp.
Proof. exact (reachable_mount defaultSettings fixedVariantBrowser ∅ 0 freshApp freshApp_mount). Defined.

Lemma run_reachable evs : forall a a',
  reachable a -> run a evs = Some a' -> reachable a'.
Proof.
  induction evs as [|ev evs IH]; intros a a' Hr Hrun; cbn [run] in Hrun.
  - by injection Hrun as <-.
  - destruct (enabled a ev) eqn:He; [|discriminate].
    destruct (step a ev) as [b|] eqn:Hs; [|discriminate].
    eauto using reachable_step.
Qed.

Lemma runningApp_reachable : reachable runningApp.
Proof.
  exact (reachable_step freshApp (StartResume 1000) runningApp
           freshApp_reachable eq_refl eq_refl).
Defined.

Lemma grantedRunningApp_reachable : reachable grantedRunningApp.
Proof.
  apply (run_reachable [BrowserChange grantedBrowser; StartResume 1000]
           freshApp);
    [exact freshApp_reachable | vm_compute; reflexivity].
Defined.

Lemma pausedApp_reachable : reachable pausedApp.
Proof.
  apply (run_reachable [StartResume 1000; VisibilityVisible 601000; Pause]
           freshApp);
    [exact freshApp_reachable | vm_compute; reflexivity].
Defined.

(** ** What one settled step does *)

Lemma settle_frame b :
  settings (settle b) = settings b /\
  pomodorosCompleted (settle b)
  = Z.max (pomodorosCompleted b)
      (floor_div (totalSeconds b) (POMODORO_DURATION_SECONDS (settings b))) /\
  isRunning (settle b) = isRunning b /\
  totalSeconds (settle b) = totalSeconds b /\
  isResting (settle b) = isResting b /\
  restSecondsRemaining (settle b) = restSecondsRemaining b.
Proof.
  unfold settle.
  pose proof (renderEffects_frame b) as F. cbv zeta in F.
  destruct F as (F1 & F2 & F3 & F4 & F5 & F6 & _).
  pose proof (renderEffects_frame (renderEffects b)) as G. cbv zeta in G.
  destruct G as (G1 & G2 & G3 & G4 & G5 & G6 & _).
  rewrite G1, G2, G3, G4, G5, G6, F1, F2, F3, F4, F5, F6.
  repeat split; lia.
Qed.

Lemma settle_other b k :
  k <> kCompleted -> k <> kRest ->
  getItem (localStorage (settle b)) k = getItem (localStorage b) k.
Proof.
  intros H1 H2. unfold settle. by rewrite !renderEffects_other.
Qed.


Lemma mount_defined st br ls now stored t r :
  parseInt (getItemOr ls kCompleted "0") = Num stored ->
  seconds (getInitialState ls now (POMODORO_DURATION_SECONDS st)) = Num t ->
  parseInt (getItemOr ls kRest "0") = Num r ->
  exists a, mount st br ls now = Some a.
Proof.
  intros Hs Ht Hr. unfold mount.
  rewrite getInitialState_pomodoros, getInitialState_restMinutes.
  rewrite Ht, Hs, Hr. cbn. eauto.
Qed.

Lemma getInitialState_seconds_paused ls now d acc :
  parseInt (getItemOr ls kAccumulated "0") = Num acc ->
  getItem ls kIsRunning <> Some "true" ->
  seconds (getInitialState ls now d) = Num (Z.max 0 acc).
Proof.
  intros Hacc Hflag. unfold getInitialState. cbn [seconds].
  rewrite Hacc, bool_decide_eq_false_2 by assumption. cbn [andb js_ltb].
  destruct (Z.ltb_spec acc 0); f_equal; lia.
Qed.

Lemma getInitialState_seconds_running ls now d acc start :
  parseInt (getItemOr ls kAccumulated "0") = Num acc ->
  parseInt (getItemOr ls kStartTime "0") = Num start ->
  getItem ls kIsRunning = Some "true" ->
  seconds (getInitialState ls now d)
  = Num (Z.max 0 (if 0 <? start then acc + floor_div (now - start) 1000
                  else acc)).
Proof.
  intros Hacc Hstart Hflag. unfold getInitialState. cbn [seconds].
  rewrite Hacc, Hstart, bool_decide_eq_true_2 by assumption.
  cbn [andb js_gtb js_sub js_floor_div js_add]. unfold floor_div.
  destruct (0 <? start); cbn [js_ltb];
    match goal with |- (if ?x <? 0 then _ else _) = _ =>
      destruct (Z.ltb_spec x 0) end; f_equal; lia.
Qed.

Lemma renderEffects_idle b :
  pomodorosCompleted b = prevPomodorosRef b ->
  availableRestMinutes (renderEffects b) = availableRestMinutes b /\
  outputs (renderEffects b) = outputs b.
Proof.
  intros H. unfold renderEffects. rewrite cycleEffect_eq, H, Z.eqb_refl.
  app_cbn. auto.
Qed.

(** A manual increase that the pending counter covers settles without a
    reward. *)
Lemma settle_manual_increase b :
  prevPomodorosRef b < pomodorosCompleted b ->
  pomodorosCompleted b - prevPomodorosRef b <= manualUpdatesPending b ->
  floor_div (totalSeconds b) (POMODORO_DURATION_SECONDS (settings b))
    <= pomodorosCompleted b ->
  availableRestMinutes (settle b) = availableRestMinutes b /\
  outputs (settle b) = outputs b.
Proof.
  intros Hlt Hpend Hd.
  destruct (giftEffect_credit b Hlt) as (Hc & Ho & _). cbn zeta in Hc, Ho.
  rewrite Z.min_l in Hc, Ho by lia. rewrite Z.sub_diag in Hc, Ho.
  rewrite spec_credit_zero in Hc, Ho. specialize (Ho ltac:(lia)).
  pose proof (renderEffects_frame b) as F. cbv zeta in F.
  destruct F as (F1 & F2 & F3 & F4 & F5 & F6 & F7).
  rewrite Z.max_l in F2 by lia.
  unfold settle.
  assert (E1 : availableRestMinutes (renderEffects b) = availableRestMinutes b
               /\ outputs (renderEffects b) = outputs b).
  { unfold renderEffects. rewrite cycleEffect_eq.
    destruct (Z.eqb_spec (pomodorosCompleted b) (prevPomodorosRef b)); [lia|].
    app_cbn. split; [lia|assumption]. }
  destruct E1 as [E1 E2].
  destruct (renderEffects_idle (renderEffects b)) as [G1 G2]; [congruence|].
  split; congruence.
Qed.

Lemma step_count_mono a ev a' :
  Inv a -> step a ev = Some a' -> lowersCycles ev = false ->
  pomodorosCompleted a <= pomodorosCompleted a'.
Proof.
  intros I Hs Hl.
  destruct ev; cbn [step lowersCycles] in *; try discriminate;
    try (injection Hs as <-).
  all: try match goal with
       | |- _ <= pomodorosCompleted (settle ?b) =>
           destruct (settle_frame b) as (_ & -> & _);
           transitivity (pomodorosCompleted b); [|lia]
       end.
  - unfold handleMainTick. app_cbn. lia.
  - unfold restFinishedEffect. 
    assert (pomodorosCompleted a <= pomodorosCompleted (settle (handleRestTick a))).
    { destruct (settle_frame (handleRestTick a)) as (_ & -> & _).
      unfold handleRestTick. app_cbn. lia. }
    case_match; app_cbn; lia.
  - destruct (handleVisibilityChange now a) as [b|] eqn:Eb; [|discriminate].
    injection Hs as <-.
    destruct (settle_frame b) as (_ & -> & _).
    transitivity (pomodorosCompleted b); [|lia].
    unfold handleVisibilityChange, syncStateFromStorage in Eb.
    repeat case_match; simplify_eq; app_cbn; lia.
  - start_eq. app_cbn. lia.
  - unfold handlePause. app_cbn. lia.
  - unfold handleResetTimer. app_cbn. lia.
  - unfold handleResetRestMinutes. app_cbn. lia.
  - unfold handleUseRest, handlePause. repeat case_match; app_cbn; lia.
  - unfold handlePauseRest. repeat case_match; app_cbn; lia.
  - unfold handleAddPomodoro. repeat case_match; app_cbn; lia.
  - unfold handleAddRestMinutes. repeat case_match; app_cbn; lia.
  - unfold handleRemoveRestMinutes. repeat case_match; app_cbn; lia.
  - unfold handleSaveSettings. repeat case_match; app_cbn; lia.
  - apply mount_Some in Hs as (s' & t' & r' & Hs' & _ & _ & _ & ->).
    cbn zeta. app_cbn.
    rewrite (parseInt_stored _ _ _ (inv_stored a I)) in Hs'.
    injection Hs' as <-. lia.
  - destruct (permissionAnswered_samePage answer a) as (_ & -> & _). lia.
  - reflexivity.
Qed.

Lemma handleUseRest_pauses_first a :
  isRunning a = true -> isResting a = false ->
  handleUseRest a = handleUseRest (handlePause a).
Proof.
  intros Hrun Hrest. unfold handleUseRest at 1 2.
  rewrite Hrest, Hrun.
  assert (H1 : isResting (handlePause a) = false)
    by (unfold handlePause; app_cbn; assumption).
  assert (H2 : isRunning (handlePause a) = false)
    by (unfold handlePause; app_cbn; reflexivity).
  by rewrite H1, H2.
Qed.

(** ** Rounding when a rest ends *)

Lemma floor_div_60_unique (s m : Z) :
  60 * m <= s < 60 * (m + 1) -> floor_div s 60 = m.
Proof.
  intros H. unfold floor_div. symmetry.
  apply (Z.div_unique s 60 m (s - 60 * m)); lia.
Qed.

Lemma ceil_div_60_unique (s m : Z) :
  60 * (m - 1) < s <= 60 * m -> ceil_div s 60 = m.
Proof.
  intros H. unfold ceil_div.
  pose proof (floor_div_60_unique (- s) (- m)) as E.
  unfold floor_div in E. rewrite E; lia.
Qed.

Lemma handlePauseRest_adjustment (a : App) (m : Z) :
  (0 < restSecondsRemaining a /\
   60 * (m - 1) < restSecondsRemaining a <= 60 * m) \/
  (restSecondsRemaining a <= 0 /\
   60 * m <= restSecondsRemaining a < 60 * (m + 1)) ->
  (if 0 <? restSecondsRemaining a
   then ceil_div (restSecondsRemaining a) 60
   else floor_div (restSecondsRemaining a) 60) = m.
Proof.
  intros [[Hpos Hm]|[Hneg Hm]].
  - destruct (Z.ltb_spec 0 (restSecondsRemaining a)); [|lia].
    by apply ceil_div_60_unique.
  - destruct (Z.ltb_spec 0 (restSecondsRemaining a)); [lia|].
    by apply floor_div_60_unique.
Qed.

Lemma handlePauseRest_balance (a : App) (m : Z) :
  (0 < restSecondsRemaining a /\
   60 * (m - 1) < restSecondsRemaining a <= 60 * m) \/
  (restSecondsRemaining a <= 0 /\
   60 * m <= restSecondsRemaining a < 60 * (m + 1)) ->
  availableRestMinutes (handlePauseRest a) = availableRestMinutes a + m.
Proof.
  intros H. unfold handlePauseRest.
  rewrite (handlePauseRest_adjustment a m H).
  destruct (Z.eqb_spec m 0) as [->|Hne]; app_cbn; [lia|].
  destruct (0 <? m); reflexivity.
Qed.

(** ** Reading items that are missing *)



(** The seconds that [getInitialState] computes from numeric items. *)
Lemma getInitialState_seconds ls now d acc :
  parseInt (getItemOr ls kAccumulated "0") = Num acc ->
  (bool_decide (getItem ls kIsRunning = Some "true") = true ->
   exists start, parseInt (getItemOr ls kStartTime "0") = Num start) ->
  exists t,
    seconds (getInitialState ls now d) = Num t /\
    0 <= t /\
    forall start,
      parseInt (getItemOr ls kStartTime "0") = Num start ->
      t = Z.max 0
            (if (bool_decide (getItem ls kIsRunning = Some "true")
                 && (0 <? start))%bool
             then acc + floor_div (now - start) 1000
             else acc).
Proof.
  intros Hacc Hstart. unfold getInitialState. cbn [seconds].
  rewrite Hacc.
  destruct (bool_decide (getItem ls kIsRunning = Some "true")) eqn:Er.
  - destruct (Hstart eq_refl) as [start Hs]. rewrite Hs.
    cbn [andb js_gtb js_sub js_floor_div js_add].
    destruct (Z.ltb_spec 0 start); cbn [js_ltb].
    + destruct (Z.ltb_spec (acc + (now - start) / 1000) 0);
        eexists; (split; [reflexivity|]); (split; [lia|]);
        intros s' [= <-]; destruct (Z.ltb_spec 0 start); unfold floor_div; lia.
    + destruct (Z.ltb_spec acc 0);
        eexists; (split; [reflexivity|]); (split; [lia|]);
        intros s' [= <-]; destruct (Z.ltb_spec 0 start); unfold floor_div; lia.
  - cbn [andb js_ltb].
    destruct (Z.ltb_spec acc 0);
      eexists; (split; [reflexivity|]); (split; [lia|]); intros; lia.
Qed.

(** ** Events are never stuck on a well-formed store *)

Lemma getItemOr_congr (ls ls' : gmap string string) k d :
  getItem ls k = getItem ls' k -> getItemOr ls k d = getItemOr ls' k d.
Proof. unfold getItemOr. by intros ->. Qed.

Lemma parseInt_removeItem (ls : gmap string string) k :
  parseInt (getItemOr (removeItem k ls) k "0") = Num 0.
Proof. unfold getItemOr. by rewrite getItem_removeItem_eq. Qed.

Lemma settle_wfStore b : wfStore (localStorage b) -> wfStore (localStorage (settle b)).
Proof.
  intros [[acc Ha] [start Hs]]. split.
  - exists acc. rewrite <- Ha. apply f_equal, getItemOr_congr, settle_other; keys_ne.
  - exists start. rewrite <- Hs. apply f_equal, getItemOr_congr, settle_other; keys_ne.
Qed.

Lemma mount_wfStore st br ls now stored r :
  wfStore ls ->
  parseInt (getItemOr ls kCompleted "0") = Num stored ->
  parseInt (getItemOr ls kRest "0") = Num r ->
  exists a, mount st br ls now = Some a /\ wfStore (localStorage a).
Proof.
  intros [[acc Ha] [start Hs]] Hc Hr.
  destruct (getInitialState_seconds ls now (POMODORO_DURATION_SECONDS st) acc Ha)
    as (t & Ht & _); [eauto|].
  destruct (mount_defined st br ls now stored t r Hc Ht Hr) as [a Hm].
  exists a. split; [exact Hm|].
  apply mount_Some in Hm as (s' & t' & r' & _ & _ & _ & _ & ->).
  cbn zeta. app_cbn. split; ls_simpl; eauto.
Qed.

Ltac wf_fields :=
  split; app_cbn; ls_simpl; rewrite ?parseInt_removeItem; eauto.

Lemma step_defined a ev :
  Inv a -> wfStore (localStorage a) ->
  exists a', step a ev = Some a' /\ wfStore (localStorage a').
Proof.
  intros I W. pose proof W as [[acc Ha] [start Hs]].
  destruct ev; cbn [step].
  - eexists; split; [reflexivity|]. apply settle_wfStore. assumption.
  - eexists; split; [reflexivity|].
    unfold restFinishedEffect. case_match; app_cbn; by apply settle_wfStore.
  - unfold handleVisibilityChange, syncStateFromStorage.
    rewrite Ha, Hs. cbn [js_sub js_floor_div js_add].
    repeat case_match; cbn [fmap option_fmap option_map];
      eexists; (split; [reflexivity|]); apply settle_wfStore; assumption.
  - eexists; split; [reflexivity|]. apply settle_wfStore.
    start_eq. wf_fields.
  - eexists; split; [reflexivity|]. apply settle_wfStore.
    unfold handlePause. wf_fields.
  - eexists; split; [reflexivity|]. apply settle_wfStore.
    unfold handleResetTimer. wf_fields.
  - eexists; split; [reflexivity|]. apply settle_wfStore.
    unfold handleResetPomodoros. case_match; wf_fields.
  - eexists; split; [reflexivity|]. apply settle_wfStore.
    unfold handleResetRestMinutes. wf_fields.
  - eexists; split; [reflexivity|]. apply settle_wfStore.
    unfold handleUseRest, handlePause. repeat case_match; wf_fields.
  - eexists; split; [reflexivity|]. apply settle_wfStore.
    unfold handlePauseRest. repeat case_match; wf_fields.
  - eexists; split; [reflexivity|]. apply settle_wfStore.
    unfold handleAddPomodoro. case_match; wf_fields.
  - eexists; split; [reflexivity|]. apply settle_wfStore.
    unfold handleRemovePomodoro. repeat case_match; wf_fields.
  - eexists; split; [reflexivity|]. apply settle_wfStore.
    unfold handleAddRestMinutes. repeat case_match; wf_fields.
  - eexists; split; [reflexivity|]. apply settle_wfStore.
    unfold handleRemoveRestMinutes. repeat case_match; wf_fields.
  - eexists; split; [reflexivity|]. apply settle_wfStore.
    unfold handleSaveSettings. repeat case_match; wf_fields.
  - unfold handleReboot.
    apply (mount_wfStore _ _ _ _ 0 0).
    + split; exists 0; unfold getItemOr;
        rewrite ?getItem_removeItem_eq,
                ?(getItem_removeItem_ne _ _ kAccumulated),
                ?(getItem_removeItem_ne _ _ kStartTime),
                ?getItem_removeItem_eq by keys_ne; reflexivity.
    + unfold getItemOr.
      by rewrite !(getItem_removeItem_ne _ kRest kCompleted) by keys_ne;
         rewrite getItem_removeItem_eq.
    + unfold getItemOr. by rewrite getItem_removeItem_eq.
  - apply (mount_wfStore _ _ _ _ (pomodorosCompleted a) (availableRestMinutes a)).
    + assumption.
    + apply parseInt_stored, (inv_stored a I).
    + apply (inv_rest a I).
  - eexists; split; [reflexivity|].
    destruct (permissionAnswered_samePage answer a)
      as (_ & _ & _ & _ & _ & _ & _ & _ & _ & ->).
    exact W.
  - eexists; split; [reflexivity|]. exact W.
Qed.

(** * The claims *)

(** ** C1: seeding at load *)

(** C1.  Loading the page seeds the cycle count with the larger of the
    stored count and the count derived from the reconciled seconds; the
    load credits no rest minutes, emits nothing, and leaves the ref that
    the gift effect compares against equal to the seeded count, so the
    seed is not seen as an increase. *)
Theorem reload_seeds_cycles_without_reward
    (st : Settings) (br : Browser) (ls : gmap string string)
    (now stored t r : Z) :
  parseInt (getItemOr ls kCompleted "0") = Num stored ->
  seconds (getInitialState ls now (POMODORO_DURATION_SECONDS st)) = Num t ->
  parseInt (getItemOr ls kRest "0") = Num r ->
  exists a,
    mount st br ls now = Some a /\
    pomodorosCompleted a
    = Z.max stored (floor_div t (POMODORO_DURATION_SECONDS st)) /\
    prevPomodorosRef a = pomodorosCompleted a /\
    manualUpdatesPending a = 0 /\
    totalSeconds a = t /\
    availableRestMinutes a = r /\
    outputs a = [].
Proof.
  intros Hs Ht Hr.
  destruct (mount st br ls now) as [a|] eqn:Hm.
  - exists a. split; [reflexivity|].
    apply mount_Some in Hm as (s' & t' & r' & Hs' & Ht' & Hr' & _ & ->).
    cbn zeta. app_cbn.
    assert (s' = stored) by congruence.
    assert (t' = t) by congruence.
    assert (r' = r) by congruence. subst. repeat split; reflexivity.
  - exfalso. unfold mount in Hm.
    rewrite getInitialState_pomodoros, getInitialState_restMinutes in Hm.
    rewrite Ht, Hs, Hr in Hm. cbn in Hm. discriminate.
Qed.

(** C1 on the snapshot of the design document: 1500 s accumulated, one
    stored cycle, 1500 s elapsed since the start time stamp. *)
Lemma reload_seeds_cycles_without_reward_example :
  exists a,
    mount defaultSettings grantedBrowser snapshotStore 2500000 = Some a /\
    pomodorosCompleted a = 2 /\
    prevPomodorosRef a = pomodorosCompleted a /\
    manualUpdatesPending a = 0 /\
    totalSeconds a = 3000 /\
    availableRestMinutes a = 0 /\
    outputs a = [].
Proof.
  apply (reload_seeds_cycles_without_reward
           defaultSettings grantedBrowser snapshotStore 2500000 1 3000 0);
    vm_compute; reflexivity.
Defined.

(** ** C2: bonus placement *)

(** C2.  When the count rises from [previousCycles] to a higher value,
    the minutes the gift effect credits are the sum, over the absolute
    indices [previousCycles + manualCount + i] for [i = 1..giftableCount],
    of the long reward at the positive multiples of 4 and of the short
    reward elsewhere. *)
Theorem gift_credit_by_absolute_index (a : App) :
  prevPomodorosRef a < pomodorosCompleted a ->
  0 < shortRestReward (settings a) ->
  0 < longRestReward (settings a) ->
  let previousCycles := prevPomodorosRef a in
  let totalDelta := pomodorosCompleted a - previousCycles in
  let manualCount := Z.min totalDelta (manualUpdatesPending a) in
  let giftableCount := totalDelta - manualCount in
  availableRestMinutes (giftEffect a)
  = availableRestMinutes a
    + foldr Z.add 0
        (map (spec_rewardAt (settings a))
           (spec_indices previousCycles manualCount giftableCount)).
Proof.
  intros Hlt Hs Hl. cbn zeta.
  destruct (giftEffect_credit a Hlt) as (Hc & _). cbn zeta in Hc.
  rewrite Hc. fold (spec_credit (settings a) (prevPomodorosRef a)
    (Z.min (pomodorosCompleted a - prevPomodorosRef a) (manualUpdatesPending a))
    (pomodorosCompleted a - prevPomodorosRef a
     - Z.min (pomodorosCompleted a - prevPomodorosRef a)
         (manualUpdatesPending a))).
  set (g := pomodorosCompleted a - prevPomodorosRef a - _).
  destruct (Z.eq_dec g 0) as [->|Hne].
  - by rewrite spec_credit_zero.
  - pose proof (spec_credit_pos (settings a) (prevPomodorosRef a)
      (Z.min (pomodorosCompleted a - prevPomodorosRef a)
         (manualUpdatesPending a)) g Hs Hl).
    assert (0 < g) by (unfold g in *; lia). lia.
Qed.

(** C2 for a rise from 2 to 5 with nothing pending. *)
Lemma gift_credit_by_absolute_index_example :
  spec_indices 2 0 3 = [3; 4; 5] /\
  map (spec_rewardAt defaultSettings) [3; 4; 5] = [5; 15; 5] /\
  availableRestMinutes (giftEffect (ledgerState 2 5 0)) = 0 + (5 + (15 + (5 + 0))).
Proof.
  split; [reflexivity|]. split; [reflexivity|].
  apply (gift_credit_by_absolute_index (ledgerState 2 5 0)); reflexivity.
Defined.

(** ** C3: manual increases are absorbed *)

(** C3.  On an increase of the count the gift effect takes
    [manualCount = min (totalDelta, pending)] of the increase as manual:
    the pending counter drops by [manualCount], only the remaining
    [totalDelta - manualCount] cycles are rewarded, and when the pending
    counter covers the whole increase nothing is credited, stored or
    emitted. *)
Theorem manual_increase_absorbed (a : App) :
  prevPomodorosRef a < pomodorosCompleted a ->
  let totalDelta := pomodorosCompleted a - prevPomodorosRef a in
  let manualCount := Z.min totalDelta (manualUpdatesPending a) in
  let giftableCount := totalDelta - manualCount in
  manualUpdatesPending (giftEffect a) = manualUpdatesPending a - manualCount /\
  Z.of_nat (length (spec_indices (prevPomodorosRef a) manualCount giftableCount))
  = giftableCount /\
  availableRestMinutes (giftEffect a)
  = availableRestMinutes a
    + Z.max 0 (spec_credit (settings a) (prevPomodorosRef a) manualCount
                 giftableCount) /\
  (totalDelta <= manualUpdatesPending a ->
   availableRestMinutes (giftEffect a) = availableRestMinutes a /\
   outputs (giftEffect a) = outputs a /\
   getItem (localStorage (giftEffect a)) kRest
   = getItem (localStorage a) kRest).
Proof.
  intros Hlt. cbn zeta.
  destruct (giftEffect_credit a Hlt) as (Hc & Ho & _). cbn zeta in Hc, Ho.
  split; [|split; [|split]].
  - rewrite giftEffect_pending.
    destruct (Z.ltb_spec (prevPomodorosRef a) (pomodorosCompleted a)); lia.
  - apply spec_indices_length. lia.
  - exact Hc.
  - intros Hall.
    rewrite Z.min_l in Hc, Ho by lia. rewrite Z.sub_diag in Hc, Ho.
    rewrite spec_credit_zero in Hc, Ho.
    split; [lia|]. split; [apply Ho; lia|].
    unfold giftEffect. app_cbn.
    destruct (Z.ltb_spec (prevPomodorosRef a) (pomodorosCompleted a)); [|lia].
    rewrite Z.min_l by lia. rewrite Z.sub_diag.
    change (0 <? 0) with false. app_cbn.
    by rewrite getItem_setItem_ne by keys_ne.
Qed.

(** C3 for a rise from 3 to 4 with one pending manual update. *)
Lemma manual_increase_absorbed_example :
  manualUpdatesPending (giftEffect (ledgerState 3 4 1)) = 1 - 1 /\
  availableRestMinutes (giftEffect (ledgerState 3 4 1)) = 0 /\
  outputs (giftEffect (ledgerState 3 4 1)) = [] /\
  getItem (localStorage (giftEffect (ledgerState 3 4 1))) kRest = None.
Proof.
  destruct (manual_increase_absorbed (ledgerState 3 4 1) ltac:(reflexivity))
    as (Hp & _ & _ & Hq).
  split; [exact Hp|]. apply Hq. vm_compute. discriminate.
Defined.

(** ** C4 and C5: the rest session *)

(** C4.  Ending a rest with [s] seconds remaining changes the balance by
    [m], where [m] is [s / 60] rounded up when [s] is positive and rounded
    down otherwise; [m] is zero exactly when [s] is zero, and then the
    balance, the store and the outputs are untouched. *)
Theorem end_rest_refund_or_forfeit (a : App) (m : Z) :
  (0 < restSecondsRemaining a /\
   60 * (m - 1) < restSecondsRemaining a <= 60 * m) \/
  (restSecondsRemaining a <= 0 /\
   60 * m <= restSecondsRemaining a < 60 * (m + 1)) ->
  availableRestMinutes (handlePauseRest a) = availableRestMinutes a + m /\
  (m = 0 <-> restSecondsRemaining a = 0) /\
  (m = 0 ->
   outputs (handlePauseRest a) = outputs a /\
   localStorage (handlePauseRest a) = localStorage a) /\
  (m <> 0 ->
   exists message : string,
     outputs (handlePauseRest a)
     = (outputs a ++ [ShowNotification message info])%list /\
     getItem (localStorage (handlePauseRest a)) kRest
     = Some (toString (availableRestMinutes a + m))) /\
  isResting (handlePauseRest a) = false /\
  restSecondsRemaining (handlePauseRest a) = 0.
Proof.
  intros H. unfold handlePauseRest.
  rewrite (handlePauseRest_adjustment a m H).
  assert (Hz : m = 0 <-> restSecondsRemaining a = 0) by lia.
  destruct (Z.eqb_spec m 0) as [->|Hne]; app_cbn.
  - repeat split; try tauto; lia.
  - destruct (0 <? m); app_cbn; ls_simpl.
    all: repeat split; try tauto; try lia; intros _; eauto.
Qed.

(** C4 at 30, -75 and 0 seconds remaining. *)
Lemma end_rest_refund_or_forfeit_example :
  availableRestMinutes (handlePauseRest (restingState 0 30)) = 0 + 1 /\
  availableRestMinutes (handlePauseRest (restingState 0 (-75))) = 0 + (-2) /\
  (availableRestMinutes (handlePauseRest (restingState 7 0)) = 7 + 0 /\
   outputs (handlePauseRest (restingState 7 0)) = outputs (restingState 7 0)).
Proof.
  split; [|split].
  - apply (end_rest_refund_or_forfeit (restingState 0 30) 1).
    left. cbn. lia.
  - apply (end_rest_refund_or_forfeit (restingState 0 (-75)) (-2)).
    right. cbn. lia.
  - destruct (end_rest_refund_or_forfeit (restingState 7 0) 0) as (H1 & _ & H3 & _).
    + right. cbn. lia.
    + split; [exact H1|]. apply H3. reflexivity.
Defined.

(** C5.  Using rest from the idle state starts a session of
    [balance * 60] seconds and empties the balance when the balance is
    positive; otherwise it starts a session of 300 seconds and takes 5
    minutes from the balance.  Ending the session at once gives the
    balance back. *)
Theorem use_rest_spends_or_borrows (a : App) :
  isResting a = false ->
  isResting (handleUseRest a) = true /\
  (0 < availableRestMinutes a ->
   restSecondsRemaining (handleUseRest a) = availableRestMinutes a * 60 /\
   availableRestMinutes (handleUseRest a) = 0 /\
   getItem (localStorage (handleUseRest a)) kRest = Some "0") /\
  (availableRestMinutes a <= 0 ->
   restSecondsRemaining (handleUseRest a) = 300 /\
   availableRestMinutes (handleUseRest a) = availableRestMinutes a - 5 /\
   getItem (localStorage (handleUseRest a)) kRest
   = Some (toString (availableRestMinutes a - 5))) /\
  availableRestMinutes (handlePauseRest (handleUseRest a))
  = availableRestMinutes a.
Proof.
  intros Hidle.
  assert (Hfields :
    isResting (handleUseRest a) = true /\
    restSecondsRemaining (handleUseRest a)
    = (if 0 <? availableRestMinutes a then availableRestMinutes a * 60 else 300) /\
    availableRestMinutes (handleUseRest a)
    = (if 0 <? availableRestMinutes a then 0 else availableRestMinutes a - 5) /\
    getItem (localStorage (handleUseRest a)) kRest
    = Some (if 0 <? availableRestMinutes a then "0"
            else toString (availableRestMinutes a - 5))).
  { unfold handleUseRest. rewrite Hidle.
    destruct (isRunning a); unfold handlePause, BORROW_MINUTES; app_cbn;
      destruct (0 <? availableRestMinutes a); app_cbn; ls_simpl;
      repeat split; reflexivity. }
  destruct Hfields as (F1 & F2 & F3 & F4).
  destruct (Z.ltb_spec 0 (availableRestMinutes a)) as [Hpos|Hneg].
  - split; [exact F1|]. split; [auto|]. split; [lia|].
    rewrite (handlePauseRest_balance (handleUseRest a)
               (availableRestMinutes a)); [lia|left; lia].
  - split; [exact F1|]. split; [lia|]. split; [auto|].
    rewrite (handlePauseRest_balance (handleUseRest a) 5); [lia|left; lia].
Qed.

(** C5 with a balance of 0 (borrow) and of 12 (spend). *)
Lemma use_rest_spends_or_borrows_example :
  restSecondsRemaining (handleUseRest (idleState 0)) = 300 /\
  availableRestMinutes (handleUseRest (idleState 0)) = 0 - 5 /\
  availableRestMinutes (handlePauseRest (handleUseRest (idleState 0))) = 0 /\
  restSecondsRemaining (handleUseRest (idleState 12)) = 12 * 60 /\
  availableRestMinutes (handleUseRest (idleState 12)) = 0.
Proof.
  destruct (use_rest_spends_or_borrows (idleState 0) eq_refl)
    as (_ & _ & Hb & He).
  destruct (use_rest_spends_or_borrows (idleState 12) eq_refl)
    as (_ & Hs & _ & _).
  destruct (Hb ltac:(cbn; lia)) as (B1 & B2 & _).
  destruct (Hs ltac:(cbn; lia)) as (S1 & S2 & _).
  repeat split; assumption.
Defined.

(** ** C6: clock rollback *)

(** C6, counterexample.  Loading [rollbackStore] 500 s before its start
    time stamp gives 500 seconds, less than the checkpoint of 1000: the
    negative delta is not clamped.  On resume-from-background, 4900 s
    before the start time stamp, the total becomes negative. *)
Lemma clock_rollback_not_clamped :
  seconds (getInitialState rollbackStore 4500000 1500) = Num 500 /\
  exists a1 a2,
    mount defaultSettings fixedVariantBrowser rollbackStore 5010000 = Some a1 /\
    totalSeconds a1 = 1010 /\
    enabled a1 (VisibilityVisible 100000) = true /\
    step a1 (VisibilityVisible 100000) = Some a2 /\
    totalSeconds a2 = -3900.
Proof.
  split; [vm_compute; reflexivity|].
  destruct (mount defaultSettings fixedVariantBrowser rollbackStore 5010000) as [a1|] eqn:E1;
    [|vm_compute in E1; discriminate].
  destruct (step a1 (VisibilityVisible 100000)) as [a2|] eqn:E2.
  - exists a1, a2.
    vm_compute in E1. injection E1 as <-.
    vm_compute in E2. injection E2 as <-.
    repeat split; reflexivity.
  - vm_compute in E1. injection E1 as <-. vm_compute in E2. discriminate.
Qed.

(** C6, as amended.  When the page loads, the total computed from a
    numeric checkpoint and start time stamp is the checkpoint plus the
    wall-clock delta, clamped at zero: it is never negative.  The delta
    itself is not clamped. *)
Theorem startup_total_clamped_at_zero
    (ls : gmap string string) (now d acc start : Z) :
  parseInt (getItemOr ls kAccumulated "0") = Num acc ->
  parseInt (getItemOr ls kStartTime "0") = Num start ->
  exists t,
    seconds (getInitialState ls now d) = Num t /\
    0 <= t /\
    t = Z.max 0
          (if (bool_decide (getItem ls kIsRunning = Some "true")
               && (0 <? start))%bool
           then acc + floor_div (now - start) 1000
           else acc).
Proof.
  intros Hacc Hstart.
  destruct (getInitialState_seconds ls now d acc Hacc) as (t & Ht & Hn & Hf).
  - eauto.
  - exists t. auto.
Qed.

(** C6 (amended) on [rollbackStore], loaded 4900 s before its start time
    stamp: the sum 1000 - 4900 is clamped to 0. *)
Lemma startup_total_clamped_at_zero_example :
  exists t,
    seconds (getInitialState rollbackStore 100000 1500) = Num t /\
    0 <= t /\
    t = Z.max 0 (1000 + floor_div (100000 - 5000000) 1000).
Proof.
  apply (startup_total_clamped_at_zero rollbackStore 100000 1500 1000 5000000);
    vm_compute; reflexivity.
Defined.

(** ** C7: the cycle count over time *)

(** C7, counterexample.  The reset-cycles command, which is not the
    remove-cycle command, takes the count from 1 to 0. *)
Lemma reset_cycles_lowers_count :
  exists a a',
    run freshApp [AddPomodoro 1000] = Some a /\
    pomodorosCompleted a = 1 /\
    enabled a (ResetPomodoros 2000) = true /\
    step a (ResetPomodoros 2000) = Some a' /\
    pomodorosCompleted a' = 0.
Proof.
  destruct (run freshApp [AddPomodoro 1000]) as [a|] eqn:E1;
    vm_compute in E1; [|discriminate].
  injection E1 as <-.
  eexists _, _. split; [reflexivity|]. split; [reflexivity|].
  split; [reflexivity|]. split; [vm_compute; reflexivity|]. reflexivity.
Qed.

(** C7, as amended.  Starting from any reachable state, a sequence of
    events with no remove-cycle, reset-cycles or reboot command in it
    ends with a cycle count at least as large as the one it started
    with; ticks, resume-from-background, start, pause, rest commands,
    add-one-cycle, settings changes and page reloads are all covered. *)
Theorem cycles_never_decrease_without_removal (evs : list Event) :
  forall a a',
    reachable a ->
    forallb (fun ev => negb (lowersCycles ev)) evs = true ->
    run a evs = Some a' ->
    pomodorosCompleted a <= pomodorosCompleted a'.
Proof.
  induction evs as [|ev evs IH]; intros a a' Hr Hall Hrun;
    cbn [run forallb] in *.
  - injection Hrun as <-. lia.
  - apply andb_true_iff in Hall as [Hev Hall].
    apply negb_true_iff in Hev.
    destruct (enabled a ev) eqn:He; [|discriminate].
    destruct (step a ev) as [b|] eqn:Hs; [|discriminate].
    transitivity (pomodorosCompleted b).
    + eapply step_count_mono; eauto using reachable_Inv.
    + eapply IH; eauto using reachable_step.
Qed.

(** C7 (amended) on a session with ticks, a resume, a pause, a manual
    cycle, a rest and a reload. *)
Lemma cycles_never_decrease_without_removal_example :
  exists a',
    run freshApp sampleSession = Some a' /\
    pomodorosCompleted freshApp <= pomodorosCompleted a'.
Proof.
  destruct (run freshApp sampleSession) as [a'|] eqn:E.
  - exists a'. split; [reflexivity|].
    exact (cycles_never_decrease_without_removal sampleSession freshApp a'
             freshApp_reachable eq_refl E).
  - vm_compute in E. discriminate.
Defined.

(** ** C8: focus and rest exclude each other *)

(** C8.  In every reachable state the focus timer and the rest session
    are not both active.  When the focus timer is running, use-rest is
    the pause transition followed by use-rest: afterwards the timer is
    stopped, the rest session is active, the accumulated seconds are
    committed to the store and the start time stamp is removed. *)
Theorem focus_and_rest_exclusive (a : App) :
  reachable a ->
  (isRunning a && isResting a)%bool = false /\
  (isRunning a = true ->
   handleUseRest a = handleUseRest (handlePause a) /\
   exists a',
     step a UseRest = Some a' /\
     isRunning a' = false /\
     isResting a' = true /\
     getItem (localStorage a') kAccumulated
     = Some (toString (totalSeconds a)) /\
     getItem (localStorage a') kStartTime = None /\
     getItem (localStorage a') kIsRunning = Some "false").
Proof.
  intros Hr. apply reachable_Inv in Hr as I.
  pose proof (inv_excl a I) as Hx. split; [exact Hx|].
  intros Hrun. rewrite Hrun in Hx. cbn in Hx.
  split; [by apply handleUseRest_pauses_first|].
  eexists. split; [reflexivity|].
  destruct (settle_frame (handleUseRest a)) as (_ & _ & -> & _ & -> & _).
  rewrite !settle_other by keys_ne.
  unfold handleUseRest, handlePause. rewrite Hx, Hrun. app_cbn.
  case_match; app_cbn; ls_simpl; repeat split; reflexivity.
Qed.

(** C8 on the page loaded from the running snapshot. *)
Lemma focus_and_rest_exclusive_example :
  exists a,
    mount defaultSettings fixedVariantBrowser snapshotStore 2500000 = Some a /\
    isRunning a = true /\
    (isRunning a && isResting a)%bool = false /\
    exists a',
      step a UseRest = Some a' /\
      isRunning a' = false /\
      isResting a' = true.
Proof.
  destruct (mount defaultSettings fixedVariantBrowser snapshotStore 2500000) as [a|] eqn:E.
  - exists a. split; [reflexivity|].
    destruct (focus_and_rest_exclusive a
                (reachable_mount defaultSettings fixedVariantBrowser snapshotStore 2500000 a E))
      as (Hx & Hp).
    assert (Hrun : isRunning a = true)
      by (vm_compute in E; injection E as <-; reflexivity).
    destruct (Hp Hrun) as (_ & a' & Hs & H1 & H2 & _).
    split; [exact Hrun|]. split; [exact Hx|].
    exists a'. auto.
  - vm_compute in E. discriminate.
Defined.

(** ** C9: missing and malformed items *)




(** ** C10: adding one cycle by hand *)

(** C10, counterexample.  On the running page the count equals the
    count derived from the seconds; add-one-cycle at 61000 ms gives
    count 1, again equal to the derived count; a reload 1500 seconds
    later reconstructs count 2. *)
Lemma reload_after_add_cycle_counts_elapsed_time :
  exists a' a'',
    reachable runningApp /\
    pomodorosCompleted runningApp
    = floor_div (totalSeconds runningApp)
        (POMODORO_DURATION_SECONDS (settings runningApp)) /\
    step runningApp (AddPomodoro 61000) = Some a' /\
    pomodorosCompleted a' = 1 /\
    pomodorosCompleted a'
    = floor_div (totalSeconds a') (POMODORO_DURATION_SECONDS (settings a')) /\
    step a' (Reload 1561000) = Some a'' /\
    pomodorosCompleted a'' = 2.
Proof.
  destruct (step runningApp (AddPomodoro 61000)) as [a'|] eqn:E1;
    vm_compute in E1; [|discriminate].
  injection E1 as <-.
  eexists _, _. split; [exact runningApp_reachable|].
  split; [reflexivity|]. split; [reflexivity|]. split; [reflexivity|].
  split; [reflexivity|]. split; [vm_compute; reflexivity|]. reflexivity.
Qed.

(** C10, as amended.  In a reachable state whose cycle count equals the
    count derived from its seconds, add-one-cycle raises the count by one
    and the seconds by one cycle length, so the equation still holds; no
    rest minutes are credited; the store holds the new seconds, with a
    fresh start time stamp when the timer is running.  A reload at any
    later time credits and emits nothing and never gives a lower count.
    When the timer is paused it gives the same count.  When the timer is
    running it gives the count derived from the new seconds plus the
    seconds elapsed since the command, which is the same count as long
    as the cycle in progress has not completed. *)
Theorem add_cycle_keeps_count_aligned (a : App) (now now' : Z) :
  reachable a ->
  pomodorosCompleted a
  = floor_div (totalSeconds a) (POMODORO_DURATION_SECONDS (settings a)) ->
  exists a' a'',
    step a (AddPomodoro now) = Some a' /\
    pomodorosCompleted a' = pomodorosCompleted a + 1 /\
    totalSeconds a'
    = totalSeconds a + POMODORO_DURATION_SECONDS (settings a) /\
    pomodorosCompleted a'
    = floor_div (totalSeconds a') (POMODORO_DURATION_SECONDS (settings a')) /\
    availableRestMinutes a' = availableRestMinutes a /\
    getItem (localStorage a') kAccumulated
    = Some (toString
              (totalSeconds a + POMODORO_DURATION_SECONDS (settings a))) /\
    (isRunning a = true ->
     getItem (localStorage a') kStartTime = Some (toString now)) /\
    step a' (Reload now') = Some a'' /\
    availableRestMinutes a'' = availableRestMinutes a' /\
    outputs a'' = [] /\
    pomodorosCompleted a' <= pomodorosCompleted a'' /\
    (isRunning a = false ->
     pomodorosCompleted a'' = pomodorosCompleted a') /\
    (isRunning a = true -> 0 < now -> now <= now' ->
     pomodorosCompleted a''
     = floor_div (totalSeconds a' + floor_div (now' - now) 1000)
         (POMODORO_DURATION_SECONDS (settings a))) /\
    (now <= now' ->
     totalSeconds a mod POMODORO_DURATION_SECONDS (settings a)
       + floor_div (now' - now) 1000
     < POMODORO_DURATION_SECONDS (settings a) ->
     pomodorosCompleted a'' = pomodorosCompleted a').
Proof.
  intros Hr Heq. apply reachable_Inv in Hr as I.
  pose proof (POMODORO_DURATION_SECONDS_pos (settings a)) as HD.
  set (D := POMODORO_DURATION_SECONDS (settings a)) in *.
  set (b := handleAddPomodoro now a).
  assert (Hb : settings b = settings a /\
               pomodorosCompleted b = pomodorosCompleted a + 1 /\
               totalSeconds b = totalSeconds a + D /\
               prevPomodorosRef b = prevPomodorosRef a /\
               manualUpdatesPending b = manualUpdatesPending a + 1 /\
               availableRestMinutes b = availableRestMinutes a /\
               getItem (localStorage b) kAccumulated
               = Some (toString (totalSeconds a + D)) /\
               getItem (localStorage b) kIsRunning
               = getItem (localStorage a) kIsRunning /\
               (isRunning a = true ->
                getItem (localStorage b) kStartTime = Some (toString now))).
  { unfold b, handleAddPomodoro. fold D.
    destruct (isRunning a); app_cbn; ls_simpl; repeat split; auto; discriminate. }
  destruct Hb as (B1 & B2 & B3 & B4 & B5 & B6 & B7 & B8 & B9).
  assert (Hdiv : floor_div (totalSeconds a + D) D = pomodorosCompleted a + 1).
  { unfold floor_div in *. rewrite Heq.
    replace (totalSeconds a + D) with (totalSeconds a + 1 * D) by lia.
    rewrite Z.div_add by lia. reflexivity. }
  pose proof (inv_prev a I) as Hprev. pose proof (inv_pending a I) as Hpend.
  pose proof (inv_nonneg a I) as Hnn.
  destruct (settle_frame b) as (S1 & S2 & S3 & S4 & S5 & S6).
  rewrite B1, B2, B3 in S2. fold D in S2. rewrite Hdiv, Z.max_id in S2.
  destruct (settle_manual_increase b) as (M1 & M2).
  { lia. } { lia. } { rewrite B1, B2, B3. fold D. lia. }
  assert (Ia' : Inv (settle b))
    by (apply settle_inv, handleAddPomodoro_pre; assumption).
  assert (Hstep : step a (AddPomodoro now) = Some (settle b)) by reflexivity.
  assert (Hother : forall k, k <> kCompleted -> k <> kRest ->
            getItem (localStorage (settle b)) k = getItem (localStorage b) k)
    by (intros; by apply settle_other).
  remember (settle b) as a' eqn:Ea'. clear Ea'.
  assert (Hacc : parseInt (getItemOr (localStorage a') kAccumulated "0")
                 = Num (totalSeconds a + D)).
  { apply parseInt_stored. rewrite Hother by keys_ne. exact B7. }
  assert (Hflag : getItem (localStorage a') kIsRunning
                  = getItem (localStorage a) kIsRunning).
  { rewrite Hother by keys_ne. exact B8. }
  assert (Htot : 0 <= totalSeconds a).
  { unfold floor_div in Heq. rewrite Heq in Hnn.
    destruct (Z.lt_ge_cases (totalSeconds a) 0) as [Hneg|]; [|assumption].
    pose proof (Z.div_lt_upper_bound (totalSeconds a) D 0 ltac:(lia) ltac:(lia)).
    lia. }
  assert (Hsec : exists t,
            seconds (getInitialState (localStorage a') now' D) = Num t /\
            t = Z.max 0
                  (if (isRunning a && (0 <? now))%bool
                   then totalSeconds a + D + floor_div (now' - now) 1000
                   else totalSeconds a + D)).
  { destruct (isRunning a) eqn:Erun.
    - assert (Hst : parseInt (getItemOr (localStorage a') kStartTime "0")
                    = Num now).
      { apply parseInt_stored. rewrite Hother by keys_ne. by apply B9. }
      rewrite (getInitialState_seconds_running _ now' D _ _ Hacc Hst).
      + eexists. split; [reflexivity|]. cbn [andb]. reflexivity.
      + rewrite Hflag. by apply (inv_flag a I).
    - rewrite (getInitialState_seconds_paused _ now' D _ Hacc).
      + eexists. split; reflexivity.
      + rewrite Hflag. intros Hf. apply (inv_flag a I) in Hf. congruence. }
  destruct Hsec as (t & Ht & Htval).
  assert (Hsto : parseInt (getItemOr (localStorage a') kCompleted "0")
                 = Num (pomodorosCompleted a'))
    by (apply parseInt_stored, (inv_stored a' Ia')).
  pose proof (inv_rest a' Ia') as Hrest.
  assert (Hset : settings a' = settings a) by congruence.
  assert (Ht2 : seconds (getInitialState (localStorage a') now'
                           (POMODORO_DURATION_SECONDS (settings a'))) = Num t)
    by (rewrite Hset; exact Ht).
  destruct (mount_defined _ (browser a') _ _ _ _ _ Hsto Ht2 Hrest) as [a'' Hm].
  exists a', a''. split; [exact Hstep|].
  split; [exact S2|]. split; [congruence|].
  split; [rewrite S1, S4, B1, B3; fold D; congruence|].
  split; [congruence|].
  split; [rewrite Hother by keys_ne; exact B7|].
  split; [intros Hrun; rewrite Hother by keys_ne; auto|].
  split; [exact Hm|].
  apply mount_Some in Hm as (s' & t' & r' & Hs' & Ht' & Hr' & _ & ->).
  cbn zeta. app_cbn.
  rewrite Hset in Ht'. fold D in Ht'.
  assert (s' = pomodorosCompleted a') by congruence.
  assert (t' = t) by congruence.
  assert (r' = availableRestMinutes a') by congruence. subst s' t' r'.
  rewrite Hset. fold D. rewrite S2, S4, B3.
  split; [reflexivity|]. split; [reflexivity|].
  split; [lia|].
  split; [|split].
  - intros Hrun. rewrite Hrun in Htval. cbn [andb] in Htval.
    rewrite Z.max_r in Htval by lia. rewrite Htval, Hdiv. lia.
  - intros Hrun Hnow0 Hnow. rewrite Hrun in Htval. cbn [andb] in Htval.
    destruct (Z.ltb_spec 0 now); [|lia].
    assert (He : 0 <= floor_div (now' - now) 1000)
      by (unfold floor_div; apply Z.div_pos; lia).
    rewrite Z.max_r in Htval by lia. rewrite Htval.
    apply Z.max_r. rewrite <- Hdiv. unfold floor_div in *.
    apply Z.div_le_mono; lia.
  - intros Hnow Hcross.
    assert (He : 0 <= floor_div (now' - now) 1000)
      by (unfold floor_div; apply Z.div_pos; lia).
    apply Z.max_l.
    transitivity
      (floor_div (totalSeconds a + D + floor_div (now' - now) 1000) D).
    + unfold floor_div in *. apply Z.div_le_mono; [lia|].
      rewrite Htval. destruct (isRunning a && (0 <? now))%bool; lia.
    + unfold floor_div in *.
      pose proof (Z.div_mod (totalSeconds a) D ltac:(lia)) as Hdm.
      pose proof (Z.mod_pos_bound (totalSeconds a) D ltac:(lia)) as Hmb.
      rewrite Heq.
      replace (totalSeconds a + D + (now' - now) / 1000)
        with ((totalSeconds a mod D + (now' - now) / 1000)
              + (totalSeconds a / D + 1) * D) by lia.
      rewrite Z.div_add by lia.
      rewrite Z.div_small by lia. lia.
Qed.

(** C10 on pages that are reachable and aligned: the paused page reloaded
    a long time after the command keeps count 1, and the running page
    reloaded one second after the command keeps count 1. *)
Lemma add_cycle_keeps_count_aligned_example :
  (exists a' a'',
     step pausedApp (AddPomodoro 700000) = Some a' /\
     pomodorosCompleted a' = 1 /\
     totalSeconds a' = 2100 /\
     step a' (Reload 1000000000) = Some a'' /\
     pomodorosCompleted a'' = 1 /\
     outputs a'' = []) /\
  (exists a' a'',
     step runningApp (AddPomodoro 61000) = Some a' /\
     pomodorosCompleted a' = 1 /\
     step a' (Reload 62000) = Some a'' /\
     pomodorosCompleted a'' = 1 /\
     outputs a'' = []).
Proof.
  split.
  - destruct (add_cycle_keeps_count_aligned pausedApp 700000 1000000000)
      as (a' & a'' & H1 & H2 & H3 & _ & _ & _ & _ & H8 & _ & H10 & _ & H12 & _).
    + exact pausedApp_reachable.
    + vm_compute. reflexivity.
    + exists a', a''. split; [exact H1|]. split; [exact H2|].
      split; [exact H3|]. split; [exact H8|].
      split; [rewrite (H12 eq_refl); exact H2|exact H10].
  - destruct (add_cycle_keeps_count_aligned runningApp 61000 62000)
      as (a' & a'' & H1 & H2 & _ & _ & _ & _ & _ & H8 & _ & H10 & _ & _ & _ & H14).
    + exact runningApp_reachable.
    + vm_compute. reflexivity.
    + exists a', a''. split; [exact H1|]. split; [exact H2|].
      split; [exact H8|].
      split; [|exact H10]. rewrite H14; [exact H2|lia|vm_compute; reflexivity].
Defined.

(** * Further properties *)

(** ** Settling after a handler, case by case *)

Lemma renderEffects_unchanged b :
  pomodorosCompleted b = prevPomodorosRef b ->
  availableRestMinutes (renderEffects b) = availableRestMinutes b /\
  outputs (renderEffects b) = outputs b /\
  manualUpdatesPending (renderEffects b) = manualUpdatesPending b.
Proof.
  intros H. unfold renderEffects. rewrite cycleEffect_eq, H, Z.eqb_refl.
  app_cbn. auto.
Qed.

(** Nothing rises: the effects only refresh the ref and the stored count. *)
Lemma settle_quiet b :
  pomodorosCompleted b <= prevPomodorosRef b ->
  floor_div (totalSeconds b) (POMODORO_DURATION_SECONDS (settings b))
    <= pomodorosCompleted b ->
  pomodorosCompleted (settle b) = pomodorosCompleted b /\
  availableRestMinutes (settle b) = availableRestMinutes b /\
  outputs (settle b) = outputs b /\
  manualUpdatesPending (settle b) = manualUpdatesPending b.
Proof.
  intros Hle Hd.
  destruct (settle_frame b) as (_ & S2 & _). rewrite Z.max_l in S2 by lia.
  split; [exact S2|].
  pose proof (renderEffects_frame b) as F. cbv zeta in F.
  destruct F as (F1 & F2 & F3 & F4 & F5 & F6 & F7).
  rewrite Z.max_l in F2 by lia.
  assert (E1 : availableRestMinutes (renderEffects b) = availableRestMinutes b
               /\ outputs (renderEffects b) = outputs b
               /\ manualUpdatesPending (renderEffects b)
                  = manualUpdatesPending b).
  { unfold renderEffects. rewrite cycleEffect_eq.
    destruct (Z.eqb_spec (pomodorosCompleted b) (prevPomodorosRef b)).
    - app_cbn. auto.
    - app_cbn. apply giftEffect_idle. lia. }
  destruct E1 as (E1 & E2 & E3).
  destruct (renderEffects_unchanged (renderEffects b)) as (E4 & E5 & E6);
    [congruence|]. fold (settle b) in E4, E5, E6.
  repeat split; congruence.
Qed.

(** A live rise with nothing pending: the whole rise is rewarded in the
    second render. *)
Lemma settle_live_increase b :
  prevPomodorosRef b = pomodorosCompleted b ->
  manualUpdatesPending b = 0 ->
  0 < shortRestReward (settings b) ->
  0 < longRestReward (settings b) ->
  let derived :=
    floor_div (totalSeconds b) (POMODORO_DURATION_SECONDS (settings b)) in
  let newCount := Z.max (pomodorosCompleted b) derived in
  let credit :=
    spec_credit (settings b) (pomodorosCompleted b) 0
      (newCount - pomodorosCompleted b) in
  pomodorosCompleted (settle b) = newCount /\
  availableRestMinutes (settle b) = availableRestMinutes b + credit /\
  (derived <= pomodorosCompleted b -> outputs (settle b) = outputs b) /\
  (pomodorosCompleted b < derived ->
   exists (message : string) (type : NotificationType),
     outputs (settle b)
     = (outputs b
        ++ ShowNotification message type
           :: notificationCalls (browser b) "Pomodoro Completed!"
                ("You've earned " +:+ toString credit +:+ " minutes of rest.")
           ++ [PlaySound success])%list /\
     type = (if 0 <? spec_bonusCount (pomodorosCompleted b) 0
                       (newCount - pomodorosCompleted b)
             then super else gift)).
Proof.
  intros Hprev Hpend Hs Hl. cbn zeta.
  set (D := POMODORO_DURATION_SECONDS (settings b)).
  set (d := floor_div (totalSeconds b) D).
  destruct (settle_frame b) as (_ & S2 & _). fold D d in S2.
  split; [exact S2|].
  destruct (Z.le_gt_cases d (pomodorosCompleted b)) as [Hle|Hgt].
  - destruct (settle_quiet b) as (_ & Q2 & Q3 & _); [lia|assumption|].
    rewrite Z.max_l by lia. rewrite Z.sub_diag, spec_credit_zero.
    split; [lia|]. split; [auto|lia].
  - rewrite Z.max_r by lia.
    set (b1 := set_pomodorosCompleted d b).
    assert (Hb1 : renderEffects b = b1).
    { unfold b1, renderEffects. rewrite Hprev, Z.eqb_refl, cycleEffect_eq.
      fold D d. by rewrite Z.max_r by lia. }
    assert (Hlt : prevPomodorosRef b1 < pomodorosCompleted b1)
      by (unfold b1; app_cbn; lia).
    destruct (giftEffect_credit b1 Hlt) as (Hc & _ & Ho). cbn zeta in Hc, Ho.
    assert (Hset : settle b = cycleEffect (giftEffect b1)).
    { unfold settle. rewrite Hb1. unfold renderEffects.
      destruct (Z.eqb_spec (pomodorosCompleted b1) (prevPomodorosRef b1));
        [lia|reflexivity]. }
    rewrite Hset, cycleEffect_eq. app_cbn.
    assert (P1 : prevPomodorosRef b1 = pomodorosCompleted b)
      by (unfold b1; app_cbn; assumption).
    assert (P2 : pomodorosCompleted b1 = d) by reflexivity.
    assert (P3 : manualUpdatesPending b1 = 0) by (unfold b1; app_cbn; assumption).
    assert (P4 : settings b1 = settings b) by reflexivity.
    assert (P5 : availableRestMinutes b1 = availableRestMinutes b) by reflexivity.
    assert (P6 : outputs b1 = outputs b) by reflexivity.
    change (browser b1) with (browser b) in Ho.
    rewrite P1, P2, P3, P4, P5 in Hc. rewrite P1, P2, P3, P4, P6 in Ho.
    rewrite Z.min_r in Hc, Ho by lia. rewrite Z.sub_0_r in Hc, Ho.
    pose proof (spec_credit_pos (settings b) (pomodorosCompleted b) 0
                  (d - pomodorosCompleted b) Hs Hl ltac:(lia)) as Hpos.
    split; [lia|]. split; [lia|]. intros _.
    destruct (Ho Hpos) as (msg & ty & Hout & Hty).
    exists msg, ty. split; [exact Hout|exact Hty].
Qed.

Lemma spec_credit_one st prev :
  spec_credit st prev 0 1 = spec_rewardAt st (prev + 1).
Proof.
  unfold spec_credit, spec_indices.
  change (Z.to_nat 1) with 1%nat. cbn [seq map foldr].
  change (Z.of_nat 1) with 1. rewrite !Z.add_0_r. reflexivity.
Qed.

Lemma nearlyDoneApp_reachable : reachable nearlyDoneApp.
Proof.
  apply (run_reachable [StartResume 1000; VisibilityVisible 1500000] freshApp);
    [exact freshApp_reachable | vm_compute; reflexivity].
Defined.

(** * Further properties of the application *)

(** ** The store mirrors the page *)

(** X1.  Between two events the store holds the cycle count and the rest
    balance of the page and the running flag of its timer, no manual
    update is pending, the ref of the gift effect equals the count, and
    the count is not below the one derived from the seconds. *)
Theorem store_mirrors_state (a : App) :
  reachable a ->
  getItem (localStorage a) kCompleted
  = Some (toString (pomodorosCompleted a)) /\
  parseInt (getItemOr (localStorage a) kRest "0")
  = Num (availableRestMinutes a) /\
  (getItem (localStorage a) kIsRunning = Some "true" <-> isRunning a = true) /\
  manualUpdatesPending a = 0 /\
  prevPomodorosRef a = pomodorosCompleted a /\
  0 <= pomodorosCompleted a /\
  floor_div (totalSeconds a) (POMODORO_DURATION_SECONDS (settings a))
  <= pomodorosCompleted a.
Proof.
  intros Hr. apply reachable_Inv in Hr as [H1 H2 H3 H4 H5 H6 H7 H8].
  repeat split; auto; apply H7.
Qed.

Lemma store_mirrors_state_example :
  getItem (localStorage runningApp) kCompleted = Some (toString 0) /\
  parseInt (getItemOr (localStorage runningApp) kRest "0") = Num 0 /\
  (getItem (localStorage runningApp) kIsRunning = Some "true"
   <-> isRunning runningApp = true) /\
  manualUpdatesPending runningApp = 0 /\
  prevPomodorosRef runningApp = pomodorosCompleted runningApp /\
  0 <= pomodorosCompleted runningApp /\
  floor_div (totalSeconds runningApp)
    (POMODORO_DURATION_SECONDS (settings runningApp))
  <= pomodorosCompleted runningApp.
Proof. exact (store_mirrors_state runningApp runningApp_reachable). Defined.

(** X2.  With a numeric checkpoint and start time stamp in the store,
    every event yields a next state with integer counters, and the store
    stays numeric. *)
Theorem numeric_store_stays_numeric (a : App) (ev : Event) :
  reachable a ->
  wfStore (localStorage a) ->
  exists a', step a ev = Some a' /\ wfStore (localStorage a').
Proof. intros Hr W. apply step_defined; auto using reachable_Inv. Qed.

Lemma numeric_store_stays_numeric_example :
  exists a',
    step runningApp (VisibilityVisible 91000) = Some a' /\
    wfStore (localStorage a').
Proof.
  apply (numeric_store_stays_numeric runningApp (VisibilityVisible 91000)).
  - exact runningApp_reachable.
  - split; eexists; vm_compute; reflexivity.
Defined.

(** ** Rewards for time that passes *)

(** X3.  A tick of the running timer adds one second; the count becomes
    the larger of the old count and the count derived from the new
    seconds, and the balance grows by the rewards of the newly counted
    cycles, numbered from the old count on.  When the tick completes
    exactly the next cycle, the reward is the one of that cycle's
    number. *)
Theorem tick_rewards_completed_cycles (a : App) :
  reachable a ->
  0 < shortRestReward (settings a) ->
  0 < longRestReward (settings a) ->
  let D := POMODORO_DURATION_SECONDS (settings a) in
  let newCount :=
    Z.max (pomodorosCompleted a) (floor_div (totalSeconds a + 1) D) in
  exists a',
    step a MainTick = Some a' /\
    totalSeconds a' = totalSeconds a + 1 /\
    pomodorosCompleted a' = newCount /\
    availableRestMinutes a'
    = availableRestMinutes a
      + spec_credit (settings a) (pomodorosCompleted a) 0
          (newCount - pomodorosCompleted a) /\
    (newCount = pomodorosCompleted a -> outputs a' = outputs a) /\
    (newCount = pomodorosCompleted a + 1 ->
     availableRestMinutes a'
     = availableRestMinutes a
       + spec_rewardAt (settings a) (pomodorosCompleted a + 1)).
Proof.
  intros Hr Hs Hl. cbn zeta. apply reachable_Inv in Hr as I.
  set (b := handleMainTick a).
  destruct (settle_live_increase b) as (L1 & L2 & L3 & _);
    try (unfold b, handleMainTick; app_cbn; auto using inv_prev, inv_pending).
  cbn zeta in L1, L2, L3.
  assert (B : settings b = settings a /\
              totalSeconds b = totalSeconds a + 1 /\
              pomodorosCompleted b = pomodorosCompleted a /\
              availableRestMinutes b = availableRestMinutes a /\
              outputs b = outputs a) by (repeat split; reflexivity).
  destruct B as (B1 & B2 & B3 & B4 & B5).
  rewrite B1, B2, B3 in L1, L2, L3. rewrite B4 in L2. rewrite B5 in L3.
  exists (settle b). split; [reflexivity|].
  destruct (settle_frame b) as (_ & _ & _ & S4 & _).
  split; [congruence|]. split; [exact L1|]. split; [exact L2|].
  split.
  - intros Heq. apply L3. lia.
  - intros Heq. rewrite L2, Heq.
    replace (pomodorosCompleted a + 1 - pomodorosCompleted a) with 1 by lia.
    by rewrite spec_credit_one.
Qed.

Lemma tick_rewards_completed_cycles_example :
  exists a',
    step nearlyDoneApp MainTick = Some a' /\
    totalSeconds a' = 1499 + 1 /\
    pomodorosCompleted a' = 1 /\
    availableRestMinutes a' = 0 + 5 /\
    (1 = pomodorosCompleted nearlyDoneApp ->
     outputs a' = outputs nearlyDoneApp) /\
    (1 = pomodorosCompleted nearlyDoneApp + 1 ->
     availableRestMinutes a'
     = availableRestMinutes nearlyDoneApp
       + spec_rewardAt (settings nearlyDoneApp)
           (pomodorosCompleted nearlyDoneApp + 1)).
Proof.
  apply (tick_rewards_completed_cycles nearlyDoneApp);
    [exact nearlyDoneApp_reachable | reflexivity | reflexivity].
Defined.

Lemma sync_numeric now' a acc start :
  getItem (localStorage a) kIsRunning = Some "true" ->
  parseInt (getItemOr (localStorage a) kAccumulated "0") = Num acc ->
  parseInt (getItemOr (localStorage a) kStartTime "0") = Num start ->
  start <> 0 ->
  syncStateFromStorage now' a
  = Some (set_totalSeconds (acc + floor_div (now' - start) 1000) a).
Proof.
  intros Hf Ha Hs Hne. unfold syncStateFromStorage.
  rewrite bool_decide_eq_true_2 by assumption. rewrite Ha, Hs.
  destruct start; [congruence| |]; reflexivity.
Qed.

(** X4.  On resume-from-background of a running timer the seconds become
    the stored checkpoint plus the whole seconds since the stored start
    time stamp; every cycle this completes is rewarded in this one step,
    with a single banner, a single call of the helper for browser
    notifications (whose calls depend on the browser) and a single
    sound. *)
Theorem resume_catches_up_in_one_batch (a : App) (now' acc start : Z) :
  reachable a ->
  isRunning a = true ->
  parseInt (getItemOr (localStorage a) kAccumulated "0") = Num acc ->
  parseInt (getItemOr (localStorage a) kStartTime "0") = Num start ->
  start <> 0 ->
  0 < shortRestReward (settings a) ->
  0 < longRestReward (settings a) ->
  let total := acc + floor_div (now' - start) 1000 in
  let derived := floor_div total (POMODORO_DURATION_SECONDS (settings a)) in
  let newCount := Z.max (pomodorosCompleted a) derived in
  let credit :=
    spec_credit (settings a) (pomodorosCompleted a) 0
      (newCount - pomodorosCompleted a) in
  exists a',
    step a (VisibilityVisible now') = Some a' /\
    totalSeconds a' = total /\
    pomodorosCompleted a' = newCount /\
    availableRestMinutes a' = availableRestMinutes a + credit /\
    (derived <= pomodorosCompleted a -> outputs a' = outputs a) /\
    (pomodorosCompleted a < derived ->
     exists (message : string) (type : NotificationType),
       outputs a'
       = (outputs a
          ++ ShowNotification message type
             :: notificationCalls (browser a) "Pomodoro Completed!"
                  ("You've earned " +:+ toString credit
                     +:+ " minutes of rest.")
             ++ [PlaySound success])%list).
Proof.
  intros Hr Hrun Ha Hst Hne Hs Hl. cbn zeta. apply reachable_Inv in Hr as I.
  assert (Hf : getItem (localStorage a) kIsRunning = Some "true")
    by (by apply (inv_flag a I)).
  set (b := set_totalSeconds (acc + floor_div (now' - start) 1000) a).
  assert (Hstep : step a (VisibilityVisible now') = Some (settle b)).
  { cbn [step]. unfold handleVisibilityChange. rewrite Hrun.
    by rewrite (sync_numeric now' a acc start Hf Ha Hst Hne). }
  destruct (settle_live_increase b) as (L1 & L2 & L3 & L4);
    try (unfold b; app_cbn; auto using inv_prev, inv_pending).
  cbn zeta in L1, L2, L3, L4.
  destruct (settle_frame b) as (_ & _ & _ & S4 & _).
  exists (settle b). split; [exact Hstep|].
  split; [exact S4|]. split; [exact L1|]. split; [exact L2|].
  split; [exact L3|].
  intros Hlt. destruct (L4 Hlt) as (msg & ty & Ho & _). eauto.
Qed.

(** The page 9000 s after start was pressed, as it is before it learns
    of the time: six cycles are due.  In the fixed variant the batch
    gives the banner and the sound; in a browser that has granted
    notifications it gives one notification as well. *)
Lemma resume_catches_up_in_one_batch_example :
  (exists a',
     step runningApp (VisibilityVisible 9001000) = Some a' /\
     totalSeconds a' = 9000 /\
     pomodorosCompleted a' = 6 /\
     availableRestMinutes a' = 40 /\
     outputs a'
     = [ShowNotification "Gifts! You've earned 40 minutes of rest." super;
        PlaySound success]) /\
  (exists a',
     step grantedRunningApp (VisibilityVisible 9001000) = Some a' /\
     pomodorosCompleted a' = 6 /\
     availableRestMinutes a' = 40 /\
     outputs a'
     = [ShowNotification "Gifts! You've earned 40 minutes of rest." super;
        BrowserNotification "Pomodoro Completed!"
          "You've earned 40 minutes of rest.";
        PlaySound success]).
Proof.
  split.
  - destruct (resume_catches_up_in_one_batch runningApp 9001000 0 1000
                runningApp_reachable)
      as (a' & H1 & H2 & H3 & H4 & _ & H6);
      try (vm_compute; reflexivity); [discriminate|].
    exists a'. split; [exact H1|]. split; [exact H2|].
    split; [exact H3|]. split; [exact H4|].
    destruct H6 as (msg & ty & Ho); [vm_compute; reflexivity|].
    assert (E : a' = default a' (step runningApp (VisibilityVisible 9001000)))
      by (rewrite H1; reflexivity).
    rewrite E. vm_compute. reflexivity.
  - destruct (resume_catches_up_in_one_batch grantedRunningApp 9001000 0 1000
                grantedRunningApp_reachable)
      as (a' & H1 & H2 & H3 & H4 & _ & H6);
      try (vm_compute; reflexivity); [discriminate|].
    exists a'. split; [exact H1|]. split; [exact H3|]. split; [exact H4|].
    destruct H6 as (msg & ty & Ho); [vm_compute; reflexivity|].
    assert (E : a' = default a' (step grantedRunningApp
                                   (VisibilityVisible 9001000)))
      by (rewrite H1; reflexivity).
    rewrite E. vm_compute. reflexivity.
Defined.

(** ** The checkpoint makes ticks redundant *)

Lemma ticks_keep_checkpoint (n : nat) (rest : list Event) : forall a0,
  isRunning a0 = true ->
  exists a1,
    run a0 (repeat MainTick n ++ rest) = run a1 rest /\
    isRunning a1 = true /\
    settings a1 = settings a0 /\
    (forall k, k <> kCompleted -> k <> kRest ->
       getItem (localStorage a1) k = getItem (localStorage a0) k) /\
    (reachable a0 -> reachable a1).
Proof.
  induction n as [|n IH]; intros a0 Hrun.
  - exists a0. cbn [repeat app]. auto.
  - cbn [repeat app run enabled step]. rewrite Hrun.
    set (a0' := settle (handleMainTick a0)).
    destruct (settle_frame (handleMainTick a0)) as (S1 & _ & S3 & _).
    destruct (IH a0') as (a1 & E1 & E2 & E3 & E4 & E5).
    { unfold a0'. rewrite S3. exact Hrun. }
    exists a1. split; [exact E1|]. split; [exact E2|].
    split; [unfold a0' in E3; rewrite E3, S1; reflexivity|].
    split.
    + intros k K1 K2. rewrite E4 by assumption.
      unfold a0'. by rewrite settle_other.
    + intros Hr. apply E5.
      apply (reachable_step a0 MainTick); [exact Hr|exact Hrun|reflexivity].
Qed.

(** X5.  After start is pressed at time [now], the seconds that a
    resume-from-background at time [now'] computes do not depend on how
    many ticks were delivered in between: they are the seconds at the
    time of the start plus the whole seconds from [now] to [now']. *)
Theorem resume_ignores_tick_count (a : App) (now now' : Z) (n : nat) :
  isRunning a = false ->
  isResting a = false ->
  now <> 0 ->
  exists a',
    run a (StartResume now :: repeat MainTick n ++ [VisibilityVisible now'])
    = Some a' /\
    totalSeconds a' = totalSeconds a + floor_div (now' - now) 1000.
Proof.
  intros Hrun Hrest Hne. cbn [run enabled step]. rewrite Hrun, Hrest. cbn [negb andb].
  set (a0 := settle (handleStartResume now a)).
  destruct (settle_frame (handleStartResume now a)) as (_ & _ & S3 & _).
  assert (R0 : isRunning a0 = true)
    by (unfold a0; rewrite S3; start_eq; reflexivity).
  assert (K : getItem (localStorage a0) kAccumulated
              = Some (toString (totalSeconds a)) /\
              getItem (localStorage a0) kStartTime = Some (toString now) /\
              getItem (localStorage a0) kIsRunning = Some "true").
  { unfold a0. rewrite !settle_other by keys_ne.
    start_eq. app_cbn. ls_simpl. auto. }
  destruct K as (K1 & K2 & K3).
  destruct (ticks_keep_checkpoint n [VisibilityVisible now'] a0 R0)
    as (a1 & E1 & E2 & _ & E4 & _).
  rewrite E1. cbn [run enabled step]. unfold handleVisibilityChange.
  rewrite E2.
  rewrite (sync_numeric now' a1 (totalSeconds a) now).
  - cbn [fmap option_fmap option_map]. eexists. split; [reflexivity|].
    destruct (settle_frame
                (set_totalSeconds
                   (totalSeconds a + floor_div (now' - now) 1000) a1))
      as (_ & _ & _ & S4 & _).
    exact S4.
  - rewrite E4 by keys_ne. exact K3.
  - apply parseInt_stored. rewrite E4 by keys_ne. exact K1.
  - apply parseInt_stored. rewrite E4 by keys_ne. exact K2.
  - exact Hne.
Qed.

Lemma resume_ignores_tick_count_example :
  exists a',
    run freshApp
      (StartResume 1000 :: repeat MainTick 7 ++ [VisibilityVisible 601000])
    = Some a' /\
    totalSeconds a' = 0 + floor_div (601000 - 1000) 1000.
Proof.
  apply (resume_ignores_tick_count freshApp 1000 601000 7);
    [reflexivity | reflexivity | discriminate].
Defined.

(** ** A paused page survives a reload *)

Lemma settle_PausedCheckpoint b :
  PausedCheckpoint b -> PausedCheckpoint (settle b).
Proof.
  intros H Hrun.
  destruct (settle_frame b) as (_ & _ & S3 & S4 & _).
  rewrite S3 in Hrun. destruct (H Hrun) as (acc & Ha & Hm).
  exists acc. split; [|congruence].
  rewrite <- Ha. f_equal. apply getItemOr_congr, settle_other; keys_ne.
Qed.

Lemma mount_PausedCheckpoint st br ls now a :
  mount st br ls now = Some a -> PausedCheckpoint a.
Proof.
  intros H. apply mount_Some in H as (s' & t & r & _ & Ht & _ & Hn & ->).
  intros Hrun. cbn zeta in *. app_cbn.
  apply bool_decide_eq_false in Hrun.
  destruct (parseInt (getItemOr ls kAccumulated "0")) as [|acc] eqn:Ea.
  - exfalso. unfold getInitialState in Ht. cbn [seconds] in Ht.
    rewrite Ea, bool_decide_eq_false_2 in Ht by assumption.
    cbn in Ht. discriminate.
  - rewrite (getInitialState_seconds_paused ls now _ acc Ea Hrun) in Ht.
    injection Ht as <-. exists acc. ls_simpl. split; [exact Ea|lia].
Qed.

Ltac paused_fields :=
  intros Hrun'; app_cbn; try discriminate;
  try (eexists; split; [ls_simpl; reflexivity|reflexivity]).

Lemma PausedCheckpoint_samePage a b :
  samePage a b -> PausedCheckpoint a -> PausedCheckpoint b.
Proof.
  intros (_ & _ & _ & A4 & A5 & _ & _ & _ & _ & A10) P.
  unfold PausedCheckpoint. rewrite A4, A5, A10. exact P.
Qed.

Lemma step_PausedCheckpoint a ev a' :
  Inv a -> PausedCheckpoint a -> enabled a ev = true ->
  step a ev = Some a' -> PausedCheckpoint a'.
Proof.
  intros I P He Hs.
  destruct ev; cbn [step enabled] in *; try (injection Hs as <-).
  - intros Hrun'. destruct (settle_frame (handleMainTick a)) as (_ & _ & S3 & _).
    rewrite S3 in Hrun'. unfold handleMainTick in Hrun'. app_cbn. congruence.
  - unfold restFinishedEffect.
    assert (Q : PausedCheckpoint (settle (handleRestTick a)))
      by (apply settle_PausedCheckpoint; exact P).
    case_match; [|exact Q]. intros Hrun'. app_cbn. exact (Q Hrun').
  - destruct (handleVisibilityChange now a) as [b|] eqn:Eb; [|discriminate].
    injection Hs as <-. apply settle_PausedCheckpoint.
    unfold handleVisibilityChange in Eb. destruct (isRunning a) eqn:Er.
    + unfold syncStateFromStorage in Eb.
      repeat case_match; simplify_eq; intros Hrun'; app_cbn; congruence.
    + by injection Eb as <-.
  - apply settle_PausedCheckpoint. start_eq. paused_fields.
  - apply settle_PausedCheckpoint. unfold handlePause. paused_fields.
  - apply settle_PausedCheckpoint. unfold handleResetTimer. paused_fields.
  - apply settle_PausedCheckpoint. unfold handleResetPomodoros.
    destruct (isRunning a) eqn:Er; paused_fields.
  - apply settle_PausedCheckpoint. unfold handleResetRestMinutes.
    intros Hrun'. app_cbn. destruct (P Hrun') as (acc & Ha & Hm).
    exists acc. ls_simpl. auto.
  - apply settle_PausedCheckpoint. unfold handleUseRest.
    destruct (isResting a); [exact P|].
    destruct (isRunning a) eqn:Er.
    + unfold handlePause. case_match; paused_fields.
    + case_match; intros Hrun'; app_cbn;
        destruct (P Er) as (acc & Ha & Hm); exists acc; ls_simpl; auto.
  - apply settle_PausedCheckpoint. unfold handlePauseRest.
    repeat case_match; intros Hrun'; app_cbn;
      destruct (P Hrun') as (acc & Ha & Hm); exists acc; ls_simpl; auto.
  - apply settle_PausedCheckpoint. unfold handleAddPomodoro.
    destruct (isRunning a) eqn:Er; paused_fields.
  - apply settle_PausedCheckpoint. unfold handleRemovePomodoro.
    case_match; [|exact P]. destruct (isRunning a) eqn:Er; paused_fields.
  - apply settle_PausedCheckpoint. unfold handleAddRestMinutes.
    case_match; [|exact P]. intros Hrun'. app_cbn.
    destruct (P Hrun') as (acc & Ha & Hm). exists acc. ls_simpl. auto.
  - apply settle_PausedCheckpoint. unfold handleRemoveRestMinutes.
    case_match; [|exact P].
    case_match; intros Hrun'; app_cbn;
      destruct (P Hrun') as (acc & Ha & Hm); exists acc; ls_simpl; auto.
  - apply settle_PausedCheckpoint. unfold handleSaveSettings.
    case_match; [exact P|]. intros Hrun'. app_cbn. exact (P Hrun').
  - by apply mount_PausedCheckpoint in Hs.
  - by apply mount_PausedCheckpoint in Hs.
  - eapply PausedCheckpoint_samePage;
      [apply permissionAnswered_samePage|exact P].
  - exact P.
Qed.

Lemma reachable_PausedCheckpoint a : reachable a -> PausedCheckpoint a.
Proof.
  induction 1 as [st br ls now a H|a ev a' Hr IH He Hs].
  - by apply mount_PausedCheckpoint in H.
  - apply (step_PausedCheckpoint a ev); auto using reachable_Inv.
Qed.

(** X6.  A page whose timer is stopped can be reloaded at any time: the
    reloaded page has the same cycle count, rest balance and settings
    and the same seconds (zero if they were negative), its timer is
    stopped, and the reload emits nothing. *)
Theorem paused_page_survives_reload (a : App) (now : Z) :
  reachable a ->
  isRunning a = false ->
  exists a',
    step a (Reload now) = Some a' /\
    pomodorosCompleted a' = pomodorosCompleted a /\
    totalSeconds a' = Z.max 0 (totalSeconds a) /\
    availableRestMinutes a' = availableRestMinutes a /\
    settings a' = settings a /\
    isRunning a' = false /\
    isResting a' = false /\
    outputs a' = [].
Proof.
  intros Hr Hrun. apply reachable_Inv in Hr as I.
  destruct (reachable_PausedCheckpoint a Hr Hrun) as (acc & Ha & Hm).
  assert (Hflag : getItem (localStorage a) kIsRunning <> Some "true").
  { intros Hf. apply (inv_flag a I) in Hf. congruence. }
  pose proof (getInitialState_seconds_paused (localStorage a) now
                (POMODORO_DURATION_SECONDS (settings a)) acc Ha Hflag) as Hsec.
  pose proof (parseInt_stored _ _ _ (inv_stored a I)) as Hsto.
  destruct (mount_defined _ (browser a) _ _ _ _ _ Hsto Hsec (inv_rest a I)) as [a' Hm'].
  exists a'. split; [exact Hm'|].
  apply mount_Some in Hm' as (s' & t' & r' & Hs' & Ht' & Hr' & _ & ->).
  cbn zeta. app_cbn.
  assert (s' = pomodorosCompleted a) by congruence.
  assert (t' = Z.max 0 acc) by congruence.
  assert (r' = availableRestMinutes a)
    by (pose proof (inv_rest a I); congruence).
  subst s' t' r'.
  pose proof (inv_derived a I) as Hd. pose proof (inv_nonneg a I) as Hn.
  pose proof (POMODORO_DURATION_SECONDS_pos (settings a)) as HD.
  assert (Hle : floor_div (Z.max 0 acc) (POMODORO_DURATION_SECONDS (settings a))
                <= pomodorosCompleted a).
  { rewrite Hm. unfold floor_div in *.
    destruct (Z.max_spec 0 (totalSeconds a)) as [[_ ->]|[_ ->]]; [assumption|].
    rewrite Z.div_0_l by lia. assumption. }
  split; [lia|]. split; [lia|]. split; [reflexivity|]. split; [reflexivity|].
  split; [by apply bool_decide_eq_false|]. split; reflexivity.
Qed.

Lemma paused_page_survives_reload_example :
  exists a',
    step pausedApp (Reload 86400000) = Some a' /\
    pomodorosCompleted a' = 0 /\
    totalSeconds a' = Z.max 0 600 /\
    availableRestMinutes a' = 0 /\
    settings a' = defaultSettings /\
    isRunning a' = false /\
    isResting a' = false /\
    outputs a' = [].
Proof.
  apply (paused_page_survives_reload pausedApp 86400000);
    [exact pausedApp_reachable | reflexivity].
Defined.

(** ** Reboot *)

Ltac in_list :=
  repeat first [apply list_elem_of_here | apply list_elem_of_further].

Lemma rebooted_store_lookup (ls : gmap string string) (k : string) :
  getItem
    (removeItem kRest
       (removeItem kCompleted
          (removeItem kIsRunning
             (removeItem kStartTime (removeItem kAccumulated ls))))) k
  = if bool_decide (k ∈ [kAccumulated; kStartTime; kIsRunning; kCompleted; kRest])
    then None else getItem ls k.
Proof.
  unfold getItem, removeItem. rewrite !lookup_delete.
  case_bool_decide as Hin.
  - repeat case_decide; try reflexivity.
    exfalso. repeat (apply elem_of_cons in Hin as [Hin|Hin]; [congruence|]).
    by apply elem_of_nil in Hin.
  - repeat case_decide; try reflexivity; subst; exfalso; apply Hin; in_list.
Qed.

(** X7.  Reboot leaves a page with zero cycles, zero seconds, zero
    balance, no timer and no rest session, and the settings it had;
    items of the store other than the five of the application are kept.
    A second reboot changes nothing more. *)
Theorem reboot_resets_and_is_idempotent (a : App) (now : Z) :
  exists a1,
    step a (Reboot now) = Some a1 /\
    pomodorosCompleted a1 = 0 /\
    totalSeconds a1 = 0 /\
    availableRestMinutes a1 = 0 /\
    isRunning a1 = false /\
    isResting a1 = false /\
    settings a1 = settings a /\
    outputs a1 = [] /\
    (forall k,
       k ∉ [kAccumulated; kStartTime; kIsRunning; kCompleted; kRest] ->
       getItem (localStorage a1) k = getItem (localStorage a) k) /\
    forall now2, step a1 (Reboot now2) = Some a1.
Proof.
  set (cleared := removeItem kRest
       (removeItem kCompleted
          (removeItem kIsRunning
             (removeItem kStartTime
                (removeItem kAccumulated (localStorage a)))))).
  assert (Habs : forall k,
            k ∈ [kAccumulated; kStartTime; kIsRunning; kCompleted; kRest] ->
            getItem cleared k = None).
  { intros k Hk. unfold cleared. rewrite rebooted_store_lookup.
    by rewrite bool_decide_eq_true_2. }
  assert (Hmount : forall st br now',
            mount st br cleared now'
            = Some {| settings := st;
                      pomodorosCompleted := 0;
                      availableRestMinutes := 0;
                      isRunning := false;
                      totalSeconds := 0;
                      isResting := false;
                      restSecondsRemaining := 0;
                      prevPomodorosRef := 0;
                      manualUpdatesPending := 0;
                      browser := br;
                      permissionWaiters := [];
                      localStorage := setItem kCompleted "0" cleared;
                      outputs := [] |}).
  { intros st br now'.
    assert (Hor : forall k,
              k ∈ [kAccumulated; kStartTime; kIsRunning; kCompleted; kRest] ->
              parseInt (getItemOr cleared k "0") = Num 0).
    { intros k Hk. unfold getItemOr. by rewrite Habs. }
    assert (Hflag : getItem cleared kIsRunning <> Some "true")
      by (rewrite Habs by in_list; discriminate).
    pose proof (getInitialState_seconds_paused cleared now'
                  (POMODORO_DURATION_SECONDS st) 0
                  (Hor kAccumulated ltac:(in_list)) Hflag) as Hsec.
    destruct (mount_defined st br cleared now' 0 (Z.max 0 0) 0
                (Hor kCompleted ltac:(in_list)) Hsec
                (Hor kRest ltac:(in_list))) as [a1 Hm].
    rewrite Hm. f_equal.
    apply mount_Some in Hm as (s' & t' & r' & Hs' & Ht' & Hr' & _ & ->).
    rewrite Hor in Hs', Hr' by in_list. rewrite Hsec in Ht'.
    injection Hs' as <-. injection Ht' as <-. injection Hr' as <-.
    cbn zeta. rewrite bool_decide_eq_false_2 by assumption.
    pose proof (POMODORO_DURATION_SECONDS_pos st).
    change (Z.max 0 0) with 0. unfold floor_div.
    rewrite Z.div_0_l by lia. reflexivity. }
  eexists. split; [exact (Hmount (settings a) (browser a) now)|].
  app_cbn. repeat split.
  - intros k Hk.
    rewrite getItem_setItem_ne by (intros <-; apply Hk; in_list).
    unfold cleared. rewrite rebooted_store_lookup.
    by rewrite bool_decide_eq_false_2.
  - intros now2. cbn [step]. unfold handleReboot. app_cbn.
    assert (Hsame :
      removeItem kRest
        (removeItem kCompleted
           (removeItem kIsRunning
              (removeItem kStartTime
                 (removeItem kAccumulated (setItem kCompleted "0" cleared)))))
      = cleared).
    { apply map_eq. intros k.
      change (getItem
        (removeItem kRest
          (removeItem kCompleted
            (removeItem kIsRunning
              (removeItem kStartTime
                (removeItem kAccumulated (setItem kCompleted "0" cleared)))))) k
        = getItem cleared k).
      rewrite rebooted_store_lookup. case_bool_decide as Hin.
      - symmetry. by apply Habs.
      - apply getItem_setItem_ne. intros <-. apply Hin. in_list. }
    rewrite Hsame. apply Hmount.
Qed.

(** ** Manual corrections of the cycle count *)

Lemma remove_cycle_sticks_aux (a : App) (now : Z) :
  reachable a ->
  0 < pomodorosCompleted a ->
  exists a',
    step a (RemovePomodoro now) = Some a' /\
    pomodorosCompleted a' = pomodorosCompleted a - 1 /\
    totalSeconds a'
    = Z.max 0 (totalSeconds a - POMODORO_DURATION_SECONDS (settings a)) /\
    availableRestMinutes a' = availableRestMinutes a /\
    manualUpdatesPending a' = 0 /\
    isRunning a' = isRunning a /\
    getItem (localStorage a') kAccumulated = Some (toString (totalSeconds a')).
Proof.
  intros Hr Hpos. apply reachable_Inv in Hr as I.
  pose proof (POMODORO_DURATION_SECONDS_pos (settings a)) as HD.
  set (D := POMODORO_DURATION_SECONDS (settings a)) in *.
  set (b := handleRemovePomodoro now a).
  assert (B : settings b = settings a /\
              pomodorosCompleted b = pomodorosCompleted a - 1 /\
              totalSeconds b = Z.max 0 (totalSeconds a - D) /\
              prevPomodorosRef b = prevPomodorosRef a /\
              manualUpdatesPending b = manualUpdatesPending a /\
              availableRestMinutes b = availableRestMinutes a /\
              isRunning b = isRunning a /\
              getItem (localStorage b) kAccumulated
              = Some (toString (Z.max 0 (totalSeconds a - D)))).
  { unfold b, handleRemovePomodoro. fold D.
    destruct (Z.ltb_spec 0 (pomodorosCompleted a)); [|lia].
    destruct (isRunning a) eqn:E; app_cbn; ls_simpl; rewrite ?E;
      repeat split; reflexivity. }
  destruct B as (B1 & B2 & B3 & B4 & B5 & B6 & B8 & B7).
  pose proof (inv_derived a I) as Hd. fold D in Hd. unfold floor_div in Hd.
  assert (Hder : floor_div (totalSeconds b) (POMODORO_DURATION_SECONDS (settings b))
                 <= pomodorosCompleted b).
  { rewrite B1, B2, B3. fold D. unfold floor_div.
    destruct (Z.max_spec 0 (totalSeconds a - D)) as [[_ ->]|[_ ->]].
    - replace (totalSeconds a - D) with (totalSeconds a + (-1) * D) by lia.
      rewrite Z.div_add by lia. lia.
    - rewrite Z.div_0_l by lia. lia. }
  destruct (settle_quiet b) as (Q1 & Q2 & Q3 & Q4); [|exact Hder|].
  { rewrite B2, B4, (inv_prev a I). lia. }
  destruct (settle_frame b) as (_ & _ & S3 & S4 & _).
  exists (settle b). split; [reflexivity|].
  split; [congruence|]. split; [congruence|]. split; [congruence|].
  split; [rewrite Q4, B5; apply (inv_pending a I)|].
  split; [congruence|].
  rewrite settle_other by keys_ne. rewrite S4, B3. exact B7.
Qed.

(** X8.  Remove-one-cycle on a page with at least one cycle lowers the
    count by exactly one and the seconds by one cycle length, stopping
    at zero; the effects do not raise the count again, and the balance
    is left alone.  The checkpoint in the store is the new seconds. *)
Theorem remove_cycle_sticks (a : App) (now : Z) :
  reachable a ->
  0 < pomodorosCompleted a ->
  exists a',
    step a (RemovePomodoro now) = Some a' /\
    pomodorosCompleted a' = pomodorosCompleted a - 1 /\
    totalSeconds a'
    = Z.max 0 (totalSeconds a - POMODORO_DURATION_SECONDS (settings a)) /\
    availableRestMinutes a' = availableRestMinutes a /\
    manualUpdatesPending a' = 0 /\
    getItem (localStorage a') kAccumulated = Some (toString (totalSeconds a')).
Proof.
  intros Hr Hpos.
  destruct (remove_cycle_sticks_aux a now Hr Hpos)
    as (a' & H1 & H2 & H3 & H4 & H5 & _ & H7).
  exists a'. auto 10.
Qed.

Lemma remove_cycle_sticks_example :
  exists a a',
    step freshApp (AddPomodoro 1000) = Some a /\
    step a (RemovePomodoro 2000) = Some a' /\
    pomodorosCompleted a' = pomodorosCompleted a - 1 /\
    totalSeconds a'
    = Z.max 0 (totalSeconds a - POMODORO_DURATION_SECONDS (settings a)) /\
    availableRestMinutes a' = availableRestMinutes a /\
    manualUpdatesPending a' = 0 /\
    getItem (localStorage a') kAccumulated = Some (toString (totalSeconds a')).
Proof.
  exists (settle (handleAddPomodoro 1000 freshApp)).
  destruct (remove_cycle_sticks (settle (handleAddPomodoro 1000 freshApp)) 2000)
    as (a' & H); [|reflexivity|].
  - exact (reachable_step freshApp (AddPomodoro 1000) _
             freshApp_reachable eq_refl eq_refl).
  - exists a'. split; [reflexivity|exact H].
Defined.

(** X9.  Add-one-cycle followed by remove-one-cycle gives back the count,
    the seconds and the balance the page had, whatever the times of the
    two commands; no reward is earned on the way. *)
Theorem add_then_remove_cycle_restores (a : App) (now1 now2 : Z) :
  reachable a ->
  0 <= totalSeconds a ->
  exists a',
    run a [AddPomodoro now1; RemovePomodoro now2] = Some a' /\
    pomodorosCompleted a' = pomodorosCompleted a /\
    totalSeconds a' = totalSeconds a /\
    availableRestMinutes a' = availableRestMinutes a /\
    isRunning a' = isRunning a.
Proof.
  intros Hr Ht. apply reachable_Inv in Hr as I.
  pose proof (POMODORO_DURATION_SECONDS_pos (settings a)) as HD.
  set (D := POMODORO_DURATION_SECONDS (settings a)) in *.
  set (b := handleAddPomodoro now1 a).
  assert (B : settings b = settings a /\
              pomodorosCompleted b = pomodorosCompleted a + 1 /\
              totalSeconds b = totalSeconds a + D /\
              prevPomodorosRef b = prevPomodorosRef a /\
              manualUpdatesPending b = manualUpdatesPending a + 1 /\
              availableRestMinutes b = availableRestMinutes a /\
              isRunning b = isRunning a).
  { unfold b, handleAddPomodoro. fold D.
    destruct (isRunning a) eqn:E; app_cbn; rewrite ?E;
      repeat split; reflexivity. }
  destruct B as (B1 & B2 & B3 & B4 & B5 & B6 & B7).
  pose proof (inv_derived a I) as Hd. fold D in Hd. unfold floor_div in Hd.
  pose proof (inv_prev a I) as Hp. pose proof (inv_pending a I) as Hq.
  pose proof (inv_nonneg a I) as Hn.
  assert (Hder : floor_div (totalSeconds b)
                   (POMODORO_DURATION_SECONDS (settings b))
                 <= pomodorosCompleted b).
  { rewrite B1, B2, B3. fold D. unfold floor_div.
    replace (totalSeconds a + D) with (totalSeconds a + 1 * D) by lia.
    rewrite Z.div_add by lia. lia. }
  destruct (settle_manual_increase b) as (M1 & _); [lia|lia|exact Hder|].
  destruct (settle_frame b) as (S1 & S2 & S3 & S4 & _).
  rewrite Z.max_l in S2 by lia.
  assert (Hr1 : reachable (settle b))
    by exact (reachable_step a (AddPomodoro now1) _ Hr eq_refl eq_refl).
  destruct (remove_cycle_sticks_aux (settle b) now2 Hr1)
    as (a' & E1 & E2 & E3 & E4 & _ & E5 & _); [lia|].
  exists a'. split.
  { assert (He : enabled (settle b) (RemovePomodoro now2) = true)
      by (cbn [enabled]; apply Z.ltb_lt; lia).
    cbn [run]. change (enabled a (AddPomodoro now1)) with true.
    change (step a (AddPomodoro now1)) with (Some (settle b)).
    cbv iota beta. by rewrite He, E1. }
  split; [lia|]. split; [|split; [congruence|]].
  - rewrite E3, S4, S1, B1, B3. fold D. lia.
  - rewrite E5, S3. exact B7.
Qed.

Lemma add_then_remove_cycle_restores_example :
  exists a',
    run pausedApp [AddPomodoro 700000; RemovePomodoro 800000] = Some a' /\
    pomodorosCompleted a' = 0 /\
    totalSeconds a' = 600 /\
    availableRestMinutes a' = 0 /\
    isRunning a' = false.
Proof.
  apply (add_then_remove_cycle_restores pausedApp 700000 800000);
    [exact pausedApp_reachable | vm_compute; discriminate].
Defined.

(** X10.  Reset-cycles sets the count to zero and keeps only the seconds
    of the cycle in progress (the remainder of the seconds by the cycle
    length); the effects do not raise the count again, nothing is
    rewarded and the balance is left alone. *)
Theorem reset_cycles_keeps_progress (a : App) (now : Z) :
  reachable a ->
  exists a',
    step a (ResetPomodoros now) = Some a' /\
    pomodorosCompleted a' = 0 /\
    totalSeconds a'
    = Z.rem (totalSeconds a) (POMODORO_DURATION_SECONDS (settings a)) /\
    (0 <= totalSeconds a ->
     0 <= totalSeconds a' < POMODORO_DURATION_SECONDS (settings a) /\
     totalSeconds a'
     = totalSeconds a
       - POMODORO_DURATION_SECONDS (settings a)
         * floor_div (totalSeconds a)
             (POMODORO_DURATION_SECONDS (settings a))) /\
    availableRestMinutes a' = availableRestMinutes a /\
    manualUpdatesPending a' = 0 /\
    getItem (localStorage a') kAccumulated = Some (toString (totalSeconds a')) /\
    getItem (localStorage a') kCompleted = Some "0".
Proof.
  intros Hr. apply reachable_Inv in Hr as I.
  pose proof (POMODORO_DURATION_SECONDS_pos (settings a)) as HD.
  set (D := POMODORO_DURATION_SECONDS (settings a)) in *.
  set (b := handleResetPomodoros now a).
  assert (B : settings b = settings a /\
              pomodorosCompleted b = 0 /\
              totalSeconds b = Z.rem (totalSeconds a) D /\
              prevPomodorosRef b = prevPomodorosRef a /\
              manualUpdatesPending b = 0 /\
              availableRestMinutes b = availableRestMinutes a /\
              getItem (localStorage b) kAccumulated
              = Some (toString (Z.rem (totalSeconds a) D))).
  { unfold b, handleResetPomodoros. fold D.
    destruct (isRunning a) eqn:E; app_cbn; ls_simpl; repeat split; reflexivity. }
  destruct B as (B1 & B2 & B3 & B4 & B5 & B6 & B7).
  pose proof (Z.rem_bound_abs (totalSeconds a) D ltac:(lia)) as Hb.
  assert (Hrem : - D < Z.rem (totalSeconds a) D < D).
  { pose proof (Z.rem_bound_pos (Z.abs (totalSeconds a)) D ltac:(lia) ltac:(lia)).
    pose proof (Z.rem_abs_l (totalSeconds a) D ltac:(lia)). lia. }
  assert (Hder : floor_div (totalSeconds b)
                   (POMODORO_DURATION_SECONDS (settings b))
                 <= pomodorosCompleted b).
  { rewrite B1, B2, B3. fold D. unfold floor_div.
    assert (Z.rem (totalSeconds a) D / D < 1)
      by (apply Z.div_lt_upper_bound; lia).
    lia. }
  destruct (settle_quiet b) as (Q1 & Q2 & Q3 & Q4); [|exact Hder|].
  { rewrite B2, B4, (inv_prev a I). apply (inv_nonneg a I). }
  destruct (settle_frame b) as (_ & _ & _ & S4 & _).
  assert (Ib : Inv (settle b))
    by (apply settle_inv, handleResetPomodoros_pre; exact I).
  exists (settle b). split; [reflexivity|].
  split; [congruence|]. split; [congruence|].
  split.
  { intros Ht. rewrite S4, B3. rewrite Z.rem_mod_nonneg by lia.
    split; [apply Z.mod_pos_bound; lia|].
    unfold floor_div. pose proof (Z.div_mod (totalSeconds a) D ltac:(lia)). lia. }
  split; [congruence|]. split; [congruence|].
  split.
  - rewrite settle_other by keys_ne. rewrite S4, B3. exact B7.
  - pose proof (inv_stored _ Ib) as Hst. rewrite Q1, B2 in Hst. exact Hst.
Qed.

(** A page with three cycles by hand and ten minutes of focus. *)
Lemma reset_cycles_keeps_progress_example :
  exists a a',
    run pausedApp [AddPomodoro 1; AddPomodoro 2; AddPomodoro 3] = Some a /\
    totalSeconds a = 5100 /\
    pomodorosCompleted a = 3 /\
    step a (ResetPomodoros 900000) = Some a' /\
    pomodorosCompleted a' = 0 /\
    totalSeconds a' = 600.
Proof.
  destruct (run pausedApp [AddPomodoro 1; AddPomodoro 2; AddPomodoro 3])
    as [a|] eqn:E; [|vm_compute in E; discriminate].
  exists a.
  destruct (reset_cycles_keeps_progress a 900000) as (a' & H1 & H2 & H3 & _).
  - exact (run_reachable _ pausedApp a pausedApp_reachable E).
  - exists a'. split; [reflexivity|].
    assert (Ht : totalSeconds a = 5100)
      by (vm_compute in E; injection E as <-; reflexivity).
    assert (Hc : pomodorosCompleted a = 3)
      by (vm_compute in E; injection E as <-; reflexivity).
    assert (Hs : settings a = defaultSettings)
      by (vm_compute in E; injection E as <-; reflexivity).
    split; [exact Ht|]. split; [exact Hc|]. split; [exact H1|].
    split; [exact H2|]. rewrite H3, Ht, Hs. reflexivity.
Defined.

(** ** Steps that leave the cycle count alone *)

Lemma PreSettle_Inv b :
  PreSettle b ->
  prevPomodorosRef b = pomodorosCompleted b ->
  floor_div (totalSeconds b) (POMODORO_DURATION_SECONDS (settings b))
    <= pomodorosCompleted b ->
  Inv b.
Proof.
  intros [Hx Hs Hr Hp Hf Hn] Hprev Hd.
  split; auto. rewrite Hprev, Z.sub_diag in Hp. lia.
Qed.

Lemma settle_id b : Inv b -> settle b = b.
Proof.
  intros I. unfold settle.
  rewrite (renderEffects_fix b I). exact (renderEffects_fix b I).
Qed.

Lemma handleUseRest_Inv a : Inv a -> Inv (handleUseRest a).
Proof.
  intros I. apply PreSettle_Inv; [by apply handleUseRest_pre| |].
  - pose proof (inv_prev a I). pose proof (inv_derived a I).
    unfold handleUseRest, handlePause.
    repeat case_match; app_cbn; unfold floor_div in *; lia.
  - pose proof (inv_derived a I).
    unfold handleUseRest, handlePause.
    repeat case_match; app_cbn; unfold floor_div in *; lia.
Qed.

Lemma handlePauseRest_Inv a : Inv a -> Inv (handlePauseRest a).
Proof.
  intros I. apply PreSettle_Inv; [by apply handlePauseRest_pre| |].
  - pose proof (inv_prev a I). unfold handlePauseRest.
    repeat case_match; app_cbn; lia.
  - pose proof (inv_derived a I). unfold handlePauseRest.
    repeat case_match; app_cbn; lia.
Qed.

Lemma handleRestTick_Inv a : Inv a -> Inv (handleRestTick a).
Proof.
  intros I. apply PreSettle_Inv; [by apply handleRestTick_pre| |].
  - exact (inv_prev a I).
  - exact (inv_derived a I).
Qed.

Lemma handleAddRestMinutes_Inv m a : Inv a -> Inv (handleAddRestMinutes m a).
Proof.
  intros I. apply PreSettle_Inv; [by apply handleAddRestMinutes_pre| |].
  - pose proof (inv_prev a I). unfold handleAddRestMinutes.
    case_match; app_cbn; lia.
  - pose proof (inv_derived a I). unfold handleAddRestMinutes.
    case_match; app_cbn; lia.
Qed.

Lemma handleRemoveRestMinutes_Inv m a :
  Inv a -> Inv (handleRemoveRestMinutes m a).
Proof.
  intros I. apply PreSettle_Inv; [by apply handleRemoveRestMinutes_pre| |].
  - pose proof (inv_prev a I). unfold handleRemoveRestMinutes.
    repeat case_match; app_cbn; lia.
  - pose proof (inv_derived a I). unfold handleRemoveRestMinutes.
    repeat case_match; app_cbn; lia.
Qed.

Lemma restFinishedEffect_Inv a : Inv a -> Inv (restFinishedEffect a).
Proof.
  intros [H1 H2 H3 H4 H5 H6 H7 H8]. unfold restFinishedEffect.
  case_match; [|by split]. split; app_cbn; assumption.
Qed.

(** ** The gift store *)

(** X11.  Adding or removing a number of minutes that is not positive
    changes nothing at all.  Adding [m > 0] minutes and then removing
    them gives back the balance. *)
Theorem gift_store_add_then_remove (a : App) (m : Z) :
  reachable a ->
  (m <= 0 ->
   step a (AddRestMinutes m) = Some a /\
   step a (RemoveRestMinutes m) = Some a) /\
  (0 < m ->
   exists a1 a2,
     step a (AddRestMinutes m) = Some a1 /\
     availableRestMinutes a1 = availableRestMinutes a + m /\
     getItem (localStorage a1) kRest
     = Some (toString (availableRestMinutes a + m)) /\
     step a1 (RemoveRestMinutes m) = Some a2 /\
     availableRestMinutes a2 = availableRestMinutes a /\
     getItem (localStorage a2) kRest
     = Some (toString (availableRestMinutes a))).
Proof.
  intros Hr. apply reachable_Inv in Hr as I. split.
  - intros Hm. cbn [step]. unfold handleAddRestMinutes, handleRemoveRestMinutes.
    destruct (Z.ltb_spec 0 m); [lia|]. by rewrite settle_id.
  - intros Hm.
    exists (handleAddRestMinutes m a),
           (handleRemoveRestMinutes m (handleAddRestMinutes m a)).
    pose proof (handleAddRestMinutes_Inv m a I) as I1.
    pose proof (handleRemoveRestMinutes_Inv m _ I1) as I2.
    cbn [step]. rewrite !settle_id by assumption.
    unfold handleRemoveRestMinutes, handleAddRestMinutes.
    destruct (Z.ltb_spec 0 m); [|lia]. app_cbn.
    replace (availableRestMinutes a + m - m) with (availableRestMinutes a)
      by lia.
    case_match; app_cbn; ls_simpl; repeat split; reflexivity.
Qed.

Lemma gift_store_add_then_remove_example :
  (step pausedApp (AddRestMinutes 0) = Some pausedApp /\
   step pausedApp (RemoveRestMinutes 0) = Some pausedApp) /\
  exists a1 a2,
    step pausedApp (AddRestMinutes 10) = Some a1 /\
    availableRestMinutes a1 = 0 + 10 /\
    getItem (localStorage a1) kRest = Some (toString (0 + 10)) /\
    step a1 (RemoveRestMinutes 10) = Some a2 /\
    availableRestMinutes a2 = 0 /\
    getItem (localStorage a2) kRest = Some (toString 0).
Proof.
  destruct (gift_store_add_then_remove pausedApp 0 pausedApp_reachable)
    as (H0 & _).
  destruct (gift_store_add_then_remove pausedApp 10 pausedApp_reachable)
    as (_ & H10).
  split; [apply H0; lia|apply H10; lia].
Defined.

(** X12.  Removing [m > 0] minutes always lowers the balance by [m],
    below zero if the balance is smaller; the new balance is stored
    either way, but the notification is shown only when the balance
    covered the removal. *)
Theorem gift_store_removal_can_overdraw (a : App) (m : Z) :
  reachable a ->
  0 < m ->
  exists a',
    step a (RemoveRestMinutes m) = Some a' /\
    availableRestMinutes a' = availableRestMinutes a - m /\
    getItem (localStorage a') kRest
    = Some (toString (availableRestMinutes a - m)) /\
    (availableRestMinutes a < m ->
     availableRestMinutes a' < 0 /\ outputs a' = outputs a) /\
    (m <= availableRestMinutes a ->
     outputs a'
     = (outputs a
        ++ [ShowNotification
              (toString m +:+ " minute(s) removed from your gift store.")
              info])%list).
Proof.
  intros Hr Hm. apply reachable_Inv in Hr as I.
  exists (handleRemoveRestMinutes m a). cbn [step].
  rewrite settle_id by (by apply handleRemoveRestMinutes_Inv).
  split; [reflexivity|]. unfold handleRemoveRestMinutes.
  destruct (Z.ltb_spec 0 m); [|lia].
  destruct (Z.leb_spec m (availableRestMinutes a)); app_cbn; ls_simpl;
    repeat split; try reflexivity; intros; lia.
Qed.

Lemma gift_store_removal_can_overdraw_example :
  exists a',
    step pausedApp (RemoveRestMinutes 3) = Some a' /\
    availableRestMinutes a' = 0 - 3 /\
    getItem (localStorage a') kRest = Some (toString (0 - 3)) /\
    (availableRestMinutes pausedApp < 3 ->
     availableRestMinutes a' < 0 /\ outputs a' = outputs pausedApp) /\
    (3 <= availableRestMinutes pausedApp ->
     outputs a'
     = (outputs pausedApp
        ++ [ShowNotification
              (toString 3 +:+ " minute(s) removed from your gift store.")
              info])%list).
Proof.
  apply (gift_store_removal_can_overdraw pausedApp 3);
    [exact pausedApp_reachable | lia].
Defined.

(** ** The rest session over time *)

Lemma step_RestTick_eq a :
  Inv a -> step a RestTick = Some (restFinishedEffect (handleRestTick a)).
Proof.
  intros I. cbn [step]. by rewrite settle_id by (by apply handleRestTick_Inv).
Qed.

(** X13.  A tick of a rest session takes one second off the remaining
    time and leaves the balance alone.  It announces the end of the rest
    (one call of the helper for browser notifications, whose calls
    depend on the browser, then the alert sound) exactly when the
    remaining time reaches zero: not before, and not during overtime. *)
Theorem rest_tick_announces_end_once (a : App) :
  reachable a ->
  isResting a = true ->
  exists a',
    step a RestTick = Some a' /\
    restSecondsRemaining a' = restSecondsRemaining a - 1 /\
    isResting a' = true /\
    availableRestMinutes a' = availableRestMinutes a /\
    outputs a'
    = (outputs a
       ++ (if restSecondsRemaining a =? 1
           then notificationCalls (browser a) "Rest Finished!"
                  "Time to get back to focus."
                ++ [PlaySound alert]
           else []))%list.
Proof.
  intros Hr Hrest. apply reachable_Inv in Hr as I.
  eexists. split; [by apply step_RestTick_eq|].
  unfold restFinishedEffect, handleRestTick. app_cbn. rewrite Hrest.
  cbn [andb].
  destruct (Z.eqb_spec (restSecondsRemaining a - 1) 0) as [E|E];
    destruct (Z.eqb_spec (restSecondsRemaining a) 1) as [E'|E']; try lia;
    app_cbn; rewrite <- ?app_assoc, ?app_nil_r, ?Hrest;
    repeat split; reflexivity.
Qed.

Lemma rest_ticks_run (n : nat) (rest : list Event) : forall a0,
  Inv a0 -> isResting a0 = true ->
  exists a1,
    run a0 (repeat RestTick n ++ rest) = run a1 rest /\
    Inv a1 /\ isResting a1 = true /\ isRunning a1 = isRunning a0 /\
    restSecondsRemaining a1 = restSecondsRemaining a0 - Z.of_nat n /\
    availableRestMinutes a1 = availableRestMinutes a0.
Proof.
  induction n as [|n IH]; intros a0 I Hrest.
  - exists a0. cbn [repeat app].
    split; [reflexivity|]. split; [exact I|]. split; [exact Hrest|].
    split; [reflexivity|]. split; [lia|reflexivity].
  - cbn [repeat app run enabled]. rewrite Hrest, (step_RestTick_eq a0 I).
    set (a0' := restFinishedEffect (handleRestTick a0)).
    assert (F : isResting a0' = true /\ isRunning a0' = isRunning a0 /\
                restSecondsRemaining a0' = restSecondsRemaining a0 - 1 /\
                availableRestMinutes a0' = availableRestMinutes a0).
    { unfold a0', restFinishedEffect, handleRestTick.
      case_match; app_cbn; auto. }
    destruct F as (F1 & F2 & F3 & F4).
    destruct (IH a0') as (a1 & E1 & E2 & E3 & E4 & E5 & E6).
    { by apply restFinishedEffect_Inv, handleRestTick_Inv. }
    { exact F1. }
    exists a1. split; [exact E1|]. split; [exact E2|]. split; [exact E3|].
    split; [congruence|]. split; [lia|congruence].
Qed.

(** X14.  A rest session that is started from the idle page and ended
    after [n] ticks costs [n / 60] minutes of the balance rounded down
    when it is ended before its time is out, and rounded up otherwise;
    the time of the session is [balance * 60] seconds for a positive
    balance and 300 borrowed seconds otherwise.  Resting never raises
    the balance. *)
Theorem rest_session_cost (a : App) (n : nat) :
  reachable a ->
  isResting a = false ->
  let sessionSeconds :=
    if 0 <? availableRestMinutes a then availableRestMinutes a * 60
    else 300 in
  exists a',
    run a (UseRest :: repeat RestTick n ++ [PauseRest]) = Some a' /\
    availableRestMinutes a'
    = availableRestMinutes a
      - (if Z.of_nat n <? sessionSeconds
         then floor_div (Z.of_nat n) 60
         else ceil_div (Z.of_nat n) 60) /\
    availableRestMinutes a' <= availableRestMinutes a /\
    isResting a' = false /\
    isRunning a' = false.
Proof.
  intros Hr Hidle. cbn zeta. apply reachable_Inv in Hr as I.
  pose proof (handleUseRest_Inv a I) as I0.
  set (a0 := handleUseRest a) in *.
  assert (F : isResting a0 = true /\ isRunning a0 = false /\
              restSecondsRemaining a0
              = (if 0 <? availableRestMinutes a
                 then availableRestMinutes a * 60 else 300) /\
              availableRestMinutes a0
              = (if 0 <? availableRestMinutes a then 0
                 else availableRestMinutes a - 5)).
  { unfold a0, handleUseRest. rewrite Hidle.
    destruct (isRunning a) eqn:Er; unfold handlePause, BORROW_MINUTES; app_cbn;
      destruct (0 <? availableRestMinutes a); app_cbn; rewrite ?Er;
      repeat split; reflexivity. }
  destruct F as (F1 & F2 & F3 & F4).
  destruct (rest_ticks_run n [PauseRest] a0 I0 F1)
    as (a1 & E1 & I1 & E3 & E4 & E5 & E6).
  set (N := Z.of_nat n) in *.
  assert (HN : 0 <= N) by (unfold N; lia).
  pose proof (Z.div_mod N 60 ltac:(lia)) as Hdm.
  pose proof (Z.mod_pos_bound N 60 ltac:(lia)) as Hmb.
  pose proof (Z.div_mod (- N) 60 ltac:(lia)) as Hdm'.
  pose proof (Z.mod_pos_bound (- N) 60 ltac:(lia)) as Hmb'.
  set (q := if 0 <? availableRestMinutes a then availableRestMinutes a else 5).
  assert (Hq : restSecondsRemaining a0 = 60 * q /\
               availableRestMinutes a0 + q = availableRestMinutes a /\ 0 < q).
  { unfold q. rewrite F3, F4.
    destruct (Z.ltb_spec 0 (availableRestMinutes a)); lia. }
  destruct Hq as (Q1 & Q2 & Q3). rewrite <- F3, Q1.
  set (m := if N <? 60 * q then q - N / 60 else q - (- ((- N) / 60))).
  assert (Hbal : availableRestMinutes (handlePauseRest a1)
                 = availableRestMinutes a1 + m).
  { apply handlePauseRest_balance. rewrite E5, Q1. fold N. unfold m.
    destruct (Z.ltb_spec N (60 * q)); [left|right]; lia. }
  exists (handlePauseRest a1). split.
  { cbn [run enabled]. rewrite Hidle. cbn [negb].
    assert (Hs0 : step a UseRest = Some a0)
      by (cbn [step]; by rewrite settle_id).
    rewrite Hs0. rewrite E1. cbn [run enabled]. rewrite E3.
    cbn [step]. by rewrite settle_id by (by apply handlePauseRest_Inv). }
  unfold floor_div, ceil_div. rewrite Hbal, E6.
  assert (R : isResting (handlePauseRest a1) = false /\
              isRunning (handlePauseRest a1) = isRunning a1).
  { unfold handlePauseRest. repeat case_match; app_cbn; auto. }
  destruct R as (R1 & R2).
  split; [unfold m; destruct (N <? 60 * q); lia|].
  split; [unfold m; destruct (Z.ltb_spec N (60 * q)); lia|].
  split; [exact R1|congruence].
Qed.

Lemma restedApp_reachable : reachable restedApp.
Proof.
  apply (run_reachable [AddRestMinutes 12] freshApp);
    [exact freshApp_reachable | vm_compute; reflexivity].
Defined.

(** A rest of 90 s out of 720 costs one minute; a rest of 90 s on
    borrowed time of 300 s costs one minute of debt; a rest of 375 s on
    borrowed time costs seven. *)
Lemma rest_session_cost_example :
  (exists a',
     run restedApp (UseRest :: repeat RestTick 90 ++ [PauseRest]) = Some a' /\
     availableRestMinutes a' = 12 - 1) /\
  (exists a',
     run freshApp (UseRest :: repeat RestTick 90 ++ [PauseRest]) = Some a' /\
     availableRestMinutes a' = 0 - 1) /\
  (exists a',
     run freshApp (UseRest :: repeat RestTick 375 ++ [PauseRest]) = Some a' /\
     availableRestMinutes a' = 0 - 7).
Proof.
  destruct (rest_session_cost restedApp 90 restedApp_reachable eq_refl)
    as (a1 & R1 & B1 & _).
  destruct (rest_session_cost freshApp 90 freshApp_reachable eq_refl)
    as (a2 & R2 & B2 & _).
  destruct (rest_session_cost freshApp 375 freshApp_reachable eq_refl)
    as (a3 & R3 & B3 & _).
  split; [|split]; eexists; (split; [eassumption|assumption]).
Defined.

(** The last second of a rest of one minute: in the fixed variant only
    the alert sounds; in a browser that has granted notifications one
    notification is created before it. *)
Lemma rest_tick_announces_end_once_example :
  (exists a a',
     run freshApp (AddRestMinutes 1 :: UseRest :: repeat RestTick 59)
     = Some a /\
     restSecondsRemaining a = 1 /\
     step a RestTick = Some a' /\
     restSecondsRemaining a' = 0 /\
     outputs a' = (outputs a ++ [PlaySound alert])%list) /\
  (exists a a',
     run freshApp
       (BrowserChange grantedBrowser :: AddRestMinutes 1 :: UseRest
          :: repeat RestTick 59)
     = Some a /\
     restSecondsRemaining a = 1 /\
     step a RestTick = Some a' /\
     restSecondsRemaining a' = 0 /\
     outputs a'
     = (outputs a
        ++ [BrowserNotification "Rest Finished!" "Time to get back to focus.";
            PlaySound alert])%list).
Proof.
  split.
  - destruct (run freshApp (AddRestMinutes 1 :: UseRest :: repeat RestTick 59))
      as [a|] eqn:E; [|vm_compute in E; discriminate].
    exists a.
    assert (H : restSecondsRemaining a = 1 /\ isResting a = true /\
                browser a = fixedVariantBrowser)
      by (vm_compute in E; injection E as <-; repeat split; reflexivity).
    destruct H as (H1 & H2 & H3).
    destruct (rest_tick_announces_end_once a
                (run_reachable _ freshApp a freshApp_reachable E) H2)
      as (a' & S1 & S2 & _ & _ & S5).
    exists a'. split; [reflexivity|]. split; [exact H1|]. split; [exact S1|].
    split; [lia|]. rewrite S5, H1, H3. reflexivity.
  - destruct (run freshApp
                (BrowserChange grantedBrowser :: AddRestMinutes 1 :: UseRest
                   :: repeat RestTick 59))
      as [a|] eqn:E; [|vm_compute in E; discriminate].
    exists a.
    assert (H : restSecondsRemaining a = 1 /\ isResting a = true /\
                browser a = grantedBrowser)
      by (vm_compute in E; injection E as <-; repeat split; reflexivity).
    destruct H as (H1 & H2 & H3).
    destruct (rest_tick_announces_end_once a
                (run_reachable _ freshApp a freshApp_reachable E) H2)
      as (a' & S1 & S2 & _ & _ & S5).
    exists a'. split; [reflexivity|]. split; [exact H1|]. split; [exact S1|].
    split; [lia|]. rewrite S5, H1, H3. reflexivity.
Defined.

(** ** The reward notification *)

(** X15.  A batch of rewarded cycles produces exactly one banner, one
    call of the helper for browser notifications and one success sound,
    whatever the number of cycles.  The banner is of type gift and starts
    with Gift! when no cycle of the batch is a bonus cycle, of type super
    and starts with Super Gift! when all are, and of type super and
    starts with Gifts! when the batch is mixed; it names the total of the
    minutes.  The helper makes at most one call to the browser. *)
Theorem reward_batch_has_one_notification (a : App) :
  prevPomodorosRef a < pomodorosCompleted a ->
  manualUpdatesPending a < pomodorosCompleted a - prevPomodorosRef a ->
  0 < shortRestReward (settings a) ->
  0 < longRestReward (settings a) ->
  let totalDelta := pomodorosCompleted a - prevPomodorosRef a in
  let manualCount := Z.min totalDelta (manualUpdatesPending a) in
  let giftableCount := totalDelta - manualCount in
  let bonus := spec_bonusCount (prevPomodorosRef a) manualCount giftableCount in
  let credit :=
    spec_credit (settings a) (prevPomodorosRef a) manualCount giftableCount in
  let calls :=
    notificationCalls (browser a) "Pomodoro Completed!"
      ("You've earned " +:+ toString credit +:+ " minutes of rest.") in
  0 <= bonus <= giftableCount /\
  (length calls <= 1)%nat /\
  outputs (giftEffect a)
  = (outputs a
     ++ ShowNotification
          ((if bonus =? 0 then "Gift! You've earned "
            else if bonus <? giftableCount then "Gifts! You've earned "
                 else "Super Gift! You've earned ")
             +:+ toString credit +:+ " minutes of rest.")
          (if bonus =? 0 then gift else super)
        :: calls ++ [PlaySound success])%list.
Proof.
  intros Hlt Hpend Hs Hl. cbn zeta.
  set (totalDelta := pomodorosCompleted a - prevPomodorosRef a).
  set (manualCount := Z.min totalDelta (manualUpdatesPending a)).
  set (g := totalDelta - manualCount).
  assert (Hg : 0 < g) by (unfold g, manualCount, totalDelta; lia).
  pose proof (giftLoop_credit (settings a) (prevPomodorosRef a) manualCount g
                ltac:(lia)) as Hloop.
  cbn zeta in Hloop. destruct Hloop as (L1 & L2 & L3).
  pose proof (spec_credit_pos (settings a) (prevPomodorosRef a) manualCount g
                Hs Hl Hg) as Hpos.
  set (t := giftLoop (settings a) (Z.to_nat g) (prevPomodorosRef a + manualCount)
              g 1 (mkTally 0 0 0)) in *.
  assert (Hn : 0 <= normalGifts t /\ 0 <= superGifts t).
  { assert (Hgen : forall n start gg i t0,
              0 <= normalGifts t0 -> 0 <= superGifts t0 ->
              0 <= normalGifts (giftLoop (settings a) n start gg i t0) /\
              0 <= superGifts (giftLoop (settings a) n start gg i t0)).
    { induction n as [|n IH]; intros start gg i t0 H1 H2; cbn [giftLoop];
        [auto|].
      case_match; [|auto]. apply IH; unfold giftLoopBody;
        case_match; cbn [normalGifts superGifts]; lia. }
    apply Hgen; cbn; lia. }
  split; [rewrite <- L2; lia|].
  split.
  { unfold notificationCalls.
    destruct (notificationObject (browser a)) as [[[[| |]|] []]|];
      cbn [length]; lia. }
  unfold giftEffect. app_cbn.
  destruct (Z.ltb_spec (prevPomodorosRef a) (pomodorosCompleted a)); [|lia].
  fold totalDelta. fold manualCount. fold g. app_cbn.
  destruct (Z.ltb_spec 0 g); [|lia]. fold t.
  rewrite L1. destruct (Z.ltb_spec 0 (spec_credit (settings a)
    (prevPomodorosRef a) manualCount g)); [|lia].
  app_cbn. rewrite <- !app_assoc. cbn [app]. do 2 f_equal.
  unfold giftMessage. rewrite L1, <- L2.
  destruct (Z.ltb_spec 0 (superGifts t)) as [Hsup|Hsup].
  - destruct (Z.eqb_spec (superGifts t) 0); [lia|].
    destruct (Z.ltb_spec 0 (normalGifts t));
      destruct (Z.ltb_spec (superGifts t) g); try lia; reflexivity.
  - destruct (Z.eqb_spec (superGifts t) 0); [|lia]. reflexivity.
Qed.

(** The count goes from 2 to 5.  In the fixed variant the batch gives the
    banner and the sound; in a browser that has granted notifications it
    gives one notification between them. *)
Lemma reward_batch_has_one_notification_example :
  outputs (giftEffect (ledgerState 2 5 0))
  = [ShowNotification "Gifts! You've earned 25 minutes of rest." super;
     PlaySound success] /\
  outputs (giftEffect (set_browser grantedBrowser (ledgerState 2 5 0)))
  = [ShowNotification "Gifts! You've earned 25 minutes of rest." super;
     BrowserNotification "Pomodoro Completed!"
       "You've earned 25 minutes of rest.";
     PlaySound success].
Proof.
  split.
  - exact (proj2 (proj2 (reward_batch_has_one_notification (ledgerState 2 5 0)
                           eq_refl eq_refl eq_refl eq_refl))).
  - exact (proj2 (proj2 (reward_batch_has_one_notification
                           (set_browser grantedBrowser (ledgerState 2 5 0))
                           eq_refl eq_refl eq_refl eq_refl))).
Defined.

Lemma reboot_resets_and_is_idempotent_example :
  exists a1,
    step runningApp (Reboot 7000) = Some a1 /\
    pomodorosCompleted a1 = 0 /\
    totalSeconds a1 = 0 /\
    availableRestMinutes a1 = 0 /\
    step a1 (Reboot 8000) = Some a1.
Proof.
  destruct (reboot_resets_and_is_idempotent runningApp 7000)
    as (a1 & H1 & H2 & H3 & H4 & _ & _ & _ & _ & _ & H10).
  exists a1. split; [exact H1|]. split; [exact H2|]. split; [exact H3|].
  split; [exact H4|exact (H10 8000)].
Defined.

(** ** The clock displays: proofs *)

Lemma splitColon_noColon s : noColon s = true -> splitColon s = [s].
Proof.
  induction s as [|c r IH]; cbn [noColon splitColon]; [reflexivity|].
  intros [Hc Hr]%andb_true_iff. apply negb_true_iff in Hc.
  by rewrite Hc, (IH Hr).
Qed.

Lemma splitColon_app s r :
  noColon s = true ->
  splitColon (s +:+ String ":" r) = s :: splitColon r.
Proof.
  induction s as [|c s IH]; cbn [noColon String.app splitColon].
  - intros _. reflexivity.
  - intros [Hc Hs]%andb_true_iff. apply negb_true_iff in Hc.
    change (String c s +:+ String ":" r) with (String c (s +:+ String ":" r)).
    cbn [splitColon]. by rewrite Hc, (IH Hs).
Qed.

Lemma noColon_string_of_uint d : noColon (NilEmpty.string_of_uint d) = true.
Proof. induction d; cbn [NilEmpty.string_of_uint noColon]; auto. Qed.

Lemma toString_nonneg k :
  0 <= k ->
  exists d, toString k = NilEmpty.string_of_uint d /\ d <> Nil /\
            Z.of_uint d = k.
Proof.
  intros Hk. destruct k as [|p|p]; [| |lia].
  - exists (D0 Nil). repeat split; discriminate.
  - exists (Pos.to_uint p).
    pose proof (DecimalPos.Unsigned.to_uint_nonnil p) as Hn.
    split; [|split; [exact Hn|exact (DecimalZ.of_to (Z.pos p))]].
    unfold toString. cbn [Z.to_int NilZero.string_of_int].
    unfold NilZero.string_of_uint. destruct (Pos.to_uint p); congruence.
Qed.

Lemma parseInt_zero_digits d :
  parseInt (String "0" (NilEmpty.string_of_uint d)) = Num (Z.of_uint d).
Proof.
  unfold parseInt.
  change (trimStart (String "0" (NilEmpty.string_of_uint d)))
    with (String "0" (NilEmpty.string_of_uint d)).
  cbv iota beta. cbn [takeDigits]. rewrite takeDigits_string_of_uint.
  reflexivity.
Qed.

Lemma padStart_two s :
  s <> "" ->
  (padStart 2 "0" s = s /\ (2 <= String.length s)%nat) \/
  (padStart 2 "0" s = String "0" s /\ String.length s = 1%nat).
Proof.
  intros Hs. destruct s as [|c [|c2 r]]; [congruence| |].
  - right. split; reflexivity.
  - left. split; [reflexivity|cbn; lia].
Qed.

Lemma padStart_toString k :
  0 <= k ->
  parseInt (padStart 2 "0" (toString k)) = Num k /\
  noColon (padStart 2 "0" (toString k)) = true /\
  padStart 2 "0" (toString k) <> "" /\
  (2 <= String.length (padStart 2 "0" (toString k)))%nat.
Proof.
  intros Hk. destruct (toString_nonneg k Hk) as (d & Hd & Hn & Hv).
  pose proof (toString_nonempty k) as Hne.
  destruct (padStart_two (toString k) Hne) as [[-> Hl]|[-> Hl]].
  - split; [apply parseInt_toString|]. split.
    + rewrite Hd. apply noColon_string_of_uint.
    + split; [exact Hne|exact Hl].
  - split; [by rewrite Hd, parseInt_zero_digits, Hv|]. split.
    + rewrite Hd. cbn [noColon]. apply noColon_string_of_uint.
    + split; [discriminate|]. cbn [String.length]. lia.
Qed.


Lemma filterBoolean_keep s rest :
  s <> "" -> filterBoolean (Some s :: rest) = s :: filterBoolean rest.
Proof. destruct s; [congruence|reflexivity]. Qed.

Lemma readClock_two p1 p2 v1 v2 :
  noColon p1 = true -> noColon p2 = true ->
  parseInt p1 = Num v1 -> parseInt p2 = Num v2 ->
  readClock (String.concat ":" [p1; p2]) = Some (v1 * 60 + v2).
Proof.
  intros N1 N2 P1 P2. unfold readClock. cbn [String.concat].
  change (p1 +:+ ":" +:+ p2) with (p1 +:+ String ":" p2).
  rewrite splitColon_app, splitColon_noColon by assumption.
  cbn [foldl]. by rewrite P1, P2.
Qed.

Lemma readClock_three p0 p1 p2 v0 v1 v2 :
  noColon p0 = true -> noColon p1 = true -> noColon p2 = true ->
  parseInt p0 = Num v0 -> parseInt p1 = Num v1 -> parseInt p2 = Num v2 ->
  readClock (String.concat ":" [p0; p1; p2])
  = Some ((v0 * 60 + v1) * 60 + v2).
Proof.
  intros N0 N1 N2 P0 P1 P2. unfold readClock. cbn [String.concat].
  change (p0 +:+ ":" +:+ p1 +:+ ":" +:+ p2)
    with (p0 +:+ String ":" (p1 +:+ String ":" p2)).
  rewrite !splitColon_app, splitColon_noColon by assumption.
  cbn [foldl]. by rewrite P0, P1, P2.
Qed.

Lemma formatTime_fields n :
  0 <= n ->
  let h := n / 3600 in
  let m := (n mod 3600) / 60 in
  let s := n mod 60 in
  0 <= h /\ 0 <= m < 60 /\ 0 <= s < 60 /\ (h * 60 + m) * 60 + s = n /\
  formatTime n
  = String.concat ":"
      (if 0 <? h
       then [padStart 2 "0" (toString h); padStart 2 "0" (toString m);
             padStart 2 "0" (toString s)]
       else [padStart 2 "0" (toString m); padStart 2 "0" (toString s)]).
Proof.
  intros Hn. cbn zeta.
  pose proof (Z.div_mod n 3600 ltac:(lia)) as D1.
  pose proof (Z.mod_pos_bound n 3600 ltac:(lia)) as B1.
  pose proof (Z.div_mod (n mod 3600) 60 ltac:(lia)) as D2.
  pose proof (Z.mod_pos_bound (n mod 3600) 60 ltac:(lia)) as B2.
  assert (Hs : (n mod 3600) mod 60 = n mod 60).
  { replace n with (n mod 3600 + (60 * (n / 3600)) * 60) at 2 by lia.
    by rewrite Z.mod_add by lia. }
  assert (Hh : 0 <= n / 3600) by (apply Z.div_pos; lia).
  assert (Hm : 0 <= (n mod 3600) / 60 < 60).
  { split; [apply Z.div_pos; lia|apply Z.div_lt_upper_bound; lia]. }
  split; [exact Hh|]. split; [exact Hm|].
  split; [rewrite <- Hs; lia|]. split; [rewrite <- Hs; lia|].
  unfold formatTime, floor_div. rewrite !Z.rem_mod_nonneg by lia.
  destruct (padStart_toString ((n mod 3600) / 60) ltac:(lia)) as (_ & _ & M3 & _).
  destruct (padStart_toString (n mod 60) ltac:(lia)) as (_ & _ & S3 & _).
  destruct (0 <? n / 3600).
  - destruct (padStart_toString (n / 3600) Hh) as (_ & _ & H3 & _).
    by rewrite !filterBoolean_keep by assumption.
  - change (filterBoolean (None :: ?l)) with (filterBoolean l).
    by rewrite !filterBoolean_keep by assumption.
Qed.


Lemma readClock_formatTime (n : Z) :
  0 <= n -> readClock (formatTime n) = Some n.
Proof.
  intros Hn.
  destruct (formatTime_fields n Hn) as (Hh & Hm & Hs & Hsum & ->).
  destruct (padStart_toString (n / 3600) Hh) as (H1 & H2 & _).
  destruct (padStart_toString ((n mod 3600) / 60) ltac:(lia)) as (M1 & M2 & _).
  destruct (padStart_toString (n mod 60) ltac:(lia)) as (S1 & S2 & _).
  destruct (Z.ltb_spec 0 (n / 3600)).
  - rewrite (readClock_three _ _ _ _ _ _ H2 M2 S2 H1 M1 S1). f_equal. lia.
  - rewrite (readClock_two _ _ _ _ M2 S2 M1 S1). f_equal. lia.
Qed.



(** X17.  The rest clock shows the remaining seconds with their sign:
    its digits read back as the absolute value, and the minus sign is
    shown when the remaining seconds are negative and only then; at zero
    the clock shows no sign. *)
Theorem rest_clock_reads_back (secondsRemaining : Z) :
  readClock (digits (RestTimerDisplay secondsRemaining))
  = Some (Z.abs secondsRemaining) /\
  (showMinus (RestTimerDisplay secondsRemaining) = true
   <-> secondsRemaining < 0) /\
  (if showMinus (RestTimerDisplay secondsRemaining)
   then - Z.abs secondsRemaining else Z.abs secondsRemaining)
  = secondsRemaining.
Proof.
  unfold RestTimerDisplay. cbn [digits showMinus].
  rewrite (readClock_formatTime (Z.abs secondsRemaining)) by lia.
  split; [reflexivity|].
  destruct (Z.ltb_spec secondsRemaining 0); (split; [split|]);
    try lia; try discriminate; reflexivity.
Qed.

(** X18.  While the seconds are not negative, the time shown as
    remaining in the cycle is more than zero and at most one cycle
    length, it brings the seconds to the next multiple of the cycle
    length, and the focus clock shows a text that reads back as it. *)
Theorem remaining_time_is_within_cycle (a : App) :
  0 <= totalSeconds a ->
  let D := POMODORO_DURATION_SECONDS (settings a) in
  let r := secondsRemainingInPomodoro a in
  0 < r <= D /\
  (totalSeconds a + r) mod D = 0 /\
  readClock (formatTime r) = Some r.
Proof.
  intros Ht. cbn zeta.
  pose proof (POMODORO_DURATION_SECONDS_pos (settings a)) as HD.
  set (D := POMODORO_DURATION_SECONDS (settings a)) in *.
  pose proof (Z.mod_pos_bound (totalSeconds a) D ltac:(lia)) as Hb.
  pose proof (Z.div_mod (totalSeconds a) D ltac:(lia)) as Hdm.
  assert (Hr : 0 < secondsRemainingInPomodoro a <= D /\
               (totalSeconds a + secondsRemainingInPomodoro a) mod D = 0).
  { unfold secondsRemainingInPomodoro. fold D.
    rewrite Z.rem_mod_nonneg by lia.
    destruct (Z.eqb_spec (totalSeconds a) 0) as [E|E].
    - rewrite E. cbn [Z.add]. split; [lia|]. apply Z.mod_same. lia.
    - destruct (Z.eqb_spec (totalSeconds a mod D) 0) as [E2|E2];
        destruct (Z.ltb_spec 0 (totalSeconds a)); cbn [andb]; try lia.
      + split; [lia|].
        replace (totalSeconds a + D)
          with (0 + (totalSeconds a / D + 1) * D) by lia.
        by rewrite Z.mod_add by lia.
      + split; [lia|].
        replace (totalSeconds a + (D - totalSeconds a mod D))
          with (0 + (totalSeconds a / D + 1) * D) by lia.
        by rewrite Z.mod_add by lia. }
  destruct Hr as [H1 H2]. split; [exact H1|]. split; [exact H2|].
  apply readClock_formatTime. lia.
Qed.

Lemma remaining_time_is_within_cycle_example :
  secondsRemainingInPomodoro pausedApp = 900 /\
  0 < secondsRemainingInPomodoro pausedApp
    <= POMODORO_DURATION_SECONDS (settings pausedApp) /\
  (totalSeconds pausedApp + secondsRemainingInPomodoro pausedApp)
    mod POMODORO_DURATION_SECONDS (settings pausedApp) = 0 /\
  readClock (formatTime (secondsRemainingInPomodoro pausedApp))
  = Some (secondsRemainingInPomodoro pausedApp).
Proof.
  split; [reflexivity|].
  apply (remaining_time_is_within_cycle pausedApp). vm_compute. discriminate.
Defined.

(** Seventy-five seconds of overtime, and the instant the rest ends. *)
Lemma rest_clock_reads_back_example :
  digits (RestTimerDisplay (-75)) = "01:15" /\
  showMinus (RestTimerDisplay (-75)) = true /\
  digits (RestTimerDisplay 0) = "00:00" /\
  showMinus (RestTimerDisplay 0) = false /\
  readClock (digits (RestTimerDisplay (-75))) = Some 75 /\
  (showMinus (RestTimerDisplay 0) = true <-> 0 < 0).
Proof.
  split; [reflexivity|]. split; [reflexivity|].
  split; [reflexivity|]. split; [reflexivity|].
  split.
  - exact (proj1 (rest_clock_reads_back (-75))).
  - exact (proj1 (proj2 (rest_clock_reads_back 0))).
Defined.

(** ** The worker: proofs *)

Lemma newWorker_inv : WorkerInv newWorker.
Proof.
  split; [reflexivity|]. intros id H. cbn in H.
  by apply not_elem_of_empty in H.
Qed.

Lemma worker_start_active (w : Worker) :
  WorkerInv w ->
  activeIntervals (worker_onmessage "start" w) = {[nextIntervalId w]} /\
  intervalId (worker_onmessage "start" w) = Some (nextIntervalId w) /\
  nextIntervalId (worker_onmessage "start" w) = S (nextIntervalId w).
Proof.
  intros [Ha Hf]. unfold worker_onmessage.
  rewrite bool_decide_eq_true_2 by reflexivity.
  destruct (intervalId w) as [id|] eqn:E; cbn; rewrite Ha.
  - by rewrite difference_diag_L, union_empty_r_L.
  - by rewrite union_empty_r_L.
Qed.

Lemma worker_stop_active (w : Worker) :
  WorkerInv w ->
  activeIntervals (worker_onmessage "stop" w) = ∅ /\
  intervalId (worker_onmessage "stop" w) = None /\
  nextIntervalId (worker_onmessage "stop" w) = nextIntervalId w.
Proof.
  intros [Ha Hf]. unfold worker_onmessage.
  rewrite bool_decide_eq_false_2 by discriminate.
  rewrite bool_decide_eq_true_2 by reflexivity.
  destruct (intervalId w) as [id|] eqn:E; cbn.
  - rewrite Ha. by rewrite difference_diag_L.
  - by rewrite Ha, E.
Qed.

Lemma worker_onmessage_inv data w :
  WorkerInv w -> WorkerInv (worker_onmessage data w).
Proof.
  intros I.
  destruct (decide (data = "start")) as [->|H1].
  { destruct (worker_start_active w I) as (A & B & C).
    split; rewrite ?A, ?B, ?C; [reflexivity|].
    intros id Hid. apply elem_of_singleton in Hid. lia. }
  destruct (decide (data = "stop")) as [->|H2].
  { destruct (worker_stop_active w I) as (A & B & C).
    split; rewrite ?A, ?B, ?C; [reflexivity|].
    intros id Hid. by apply not_elem_of_empty in Hid. }
  unfold worker_onmessage.
  by rewrite !bool_decide_eq_false_2 by assumption.
Qed.

Lemma worker_run_inv msgs : forall w,
  WorkerInv w -> WorkerInv (worker_run msgs w).
Proof.
  induction msgs as [|m msgs IH]; intros w I; [exact I|].
  apply IH, worker_onmessage_inv, I.
Qed.

Lemma worker_run_snoc msgs m w :
  worker_run (msgs ++ [m]) w = worker_onmessage m (worker_run msgs w).
Proof. unfold worker_run. by rewrite foldl_app. Qed.

(** X19.  Whatever sequence of running flags the hook has posted to a
    new worker, the worker never has more than one active interval: it
    posts one tick per second when the last flag was true and none when
    it was false. *)
Theorem worker_ticks_follow_running_flag (flags : list bool) (last : bool) :
  let w :=
    worker_run (map useWorkerTimer_message (flags ++ [last])) newWorker in
  ticksPerSecond w = (if last then 1%nat else 0%nat) /\
  (is_Some (intervalId w) <-> last = true).
Proof.
  cbn zeta. rewrite map_app. cbn [map]. rewrite worker_run_snoc.
  pose proof (worker_run_inv (map useWorkerTimer_message flags) newWorker
                newWorker_inv) as I.
  set (w := worker_run (map useWorkerTimer_message flags) newWorker) in *.
  unfold ticksPerSecond, useWorkerTimer_message.
  destruct last; cbv iota.
  - destruct (worker_start_active _ I) as (A & B & _). rewrite A, B.
    split; [apply size_singleton|]. split; eauto.
  - destruct (worker_stop_active _ I) as (A & B & _). rewrite A, B.
    split; [apply size_empty|].
    split; [intros [x Hx]; discriminate|discriminate].
Qed.

Lemma worker_ticks_follow_running_flag_example :
  ticksPerSecond (worker_run ["start"; "start"; "stop"; "start"] newWorker)
  = 1%nat.
Proof.
  exact (proj1 (worker_ticks_follow_running_flag [true; true; false] true)).
Defined.

(** ** The settings dialog: proofs *)

Lemma handleSave_Some l st :
  SettingsModal.handleSave l = Some st ->
  parseInt (SettingsModal.pomodoroDuration l) = Num (pomodoroDuration st) /\
  parseInt (SettingsModal.shortRestReward l) = Num (shortRestReward st) /\
  parseInt (SettingsModal.longRestReward l) = Num (longRestReward st) /\
  0 < pomodoroDuration st /\ 0 < shortRestReward st /\ 0 < longRestReward st.
Proof.
  unfold SettingsModal.handleSave.
  destruct (parseInt (SettingsModal.pomodoroDuration l)) as [|p];
    [discriminate|].
  destruct (parseInt (SettingsModal.shortRestReward l)) as [|s];
    [cbn; by rewrite ?orb_true_r|].
  destruct (parseInt (SettingsModal.longRestReward l)) as [|g];
    [cbn; by rewrite ?orb_true_r|].
  cbn [SettingsModal.invalid].
  destruct (p <=? 0) eqn:Ep; [discriminate|].
  destruct (s <=? 0) eqn:Es; [discriminate|].
  destruct (g <=? 0) eqn:Eg; [discriminate|].
  cbn. intros [= <-]. cbn. repeat split; lia.
Qed.

Lemma handleSave_accepts l p s g :
  parseInt (SettingsModal.pomodoroDuration l) = Num p ->
  parseInt (SettingsModal.shortRestReward l) = Num s ->
  parseInt (SettingsModal.longRestReward l) = Num g ->
  0 < p -> 0 < s -> 0 < g ->
  SettingsModal.handleSave l = Some (mkSettings p s g).
Proof.
  intros H1 H2 H3 Hp Hs Hg. unfold SettingsModal.handleSave.
  rewrite H1, H2, H3.
  cbn [SettingsModal.invalid].
  destruct (p <=? 0) eqn:Ep; [lia|].
  destruct (s <=? 0) eqn:Es; [lia|].
  destruct (g <=? 0) eqn:Eg; [lia|]. reflexivity.
Qed.

(** X20.  The dialog passes settings on exactly when each of its three
    fields begins with a whole number above zero; the saved cycle then
    lasts sixty seconds per minute entered, and opening the dialog on
    positive settings and saving at once gives the same settings back. *)
Theorem settings_dialog_accepts_positive_numbers
    (l : SettingsModal.LocalSettings) (st : Settings) :
  (SettingsModal.handleSave l = Some st <->
   parseInt (SettingsModal.pomodoroDuration l) = Num (pomodoroDuration st) /\
   parseInt (SettingsModal.shortRestReward l) = Num (shortRestReward st) /\
   parseInt (SettingsModal.longRestReward l) = Num (longRestReward st) /\
   0 < pomodoroDuration st /\ 0 < shortRestReward st /\
   0 < longRestReward st) /\
  (SettingsModal.handleSave l = Some st ->
   POMODORO_DURATION_SECONDS st = 60 * pomodoroDuration st) /\
  (0 < pomodoroDuration st -> 0 < shortRestReward st ->
   0 < longRestReward st ->
   SettingsModal.handleSave (SettingsModal.open st) = Some st).
Proof.
  split; [split|split].
  - apply handleSave_Some.
  - intros (H1 & H2 & H3 & H4 & H5 & H6). destruct st as [p s g].
    by apply handleSave_accepts.
  - intros H. apply handleSave_Some in H as (_ & _ & _ & Hp & _).
    unfold POMODORO_DURATION_SECONDS. lia.
  - intros Hp Hs Hg. destruct st as [p s g]. cbn in Hp, Hs, Hg.
    apply handleSave_accepts; cbn; try assumption;
      apply parseInt_toString; lia.
Qed.

Lemma settings_dialog_accepts_positive_numbers_example :
  let l := {| SettingsModal.pomodoroDuration := "30 min";
              SettingsModal.shortRestReward := " 7";
              SettingsModal.longRestReward := "+20" |} in
  SettingsModal.handleSave l = Some (mkSettings 30 7 20) /\
  POMODORO_DURATION_SECONDS (mkSettings 30 7 20) = 1800.
Proof.
  cbn zeta.
  pose proof (settings_dialog_accepts_positive_numbers
                {| SettingsModal.pomodoroDuration := "30 min";
                   SettingsModal.shortRestReward := " 7";
                   SettingsModal.longRestReward := "+20" |}
                (mkSettings 30 7 20)) as (H1 & H2 & _).
  assert (H : SettingsModal.handleSave
                {| SettingsModal.pomodoroDuration := "30 min";
                   SettingsModal.shortRestReward := " 7";
                   SettingsModal.longRestReward := "+20" |}
              = Some (mkSettings 30 7 20)).
  { apply H1. repeat split; vm_compute; reflexivity. }
  split; [exact H|exact (H2 H)].
Defined.

(** X21.  Saving valid settings in any reachable state recounts the
    cycles with the new length at once: the count becomes the larger of
    the old count and the completed cycles of the new length, never less,
    and the cycles gained are rewarded with the new reward sizes. *)
Theorem settings_change_recounts_cycles (st : Settings) (a : App) :
  reachable a ->
  0 < pomodoroDuration st -> 0 < shortRestReward st ->
  0 < longRestReward st ->
  let derived := floor_div (totalSeconds a) (60 * pomodoroDuration st) in
  let newCount := Z.max (pomodorosCompleted a) derived in
  exists a',
    step a (SaveSettings st) = Some a' /\
    settings a' = st /\
    totalSeconds a' = totalSeconds a /\
    pomodorosCompleted a' = newCount /\
    availableRestMinutes a'
    = availableRestMinutes a
      + spec_credit st (pomodorosCompleted a) 0
          (newCount - pomodorosCompleted a).
Proof.
  intros Hr Hp Hs Hl. cbn zeta. apply reachable_Inv in Hr as I.
  assert (Hb : handleSaveSettings st a
               = showNotification "Settings saved." info (set_settings st a)).
  { unfold handleSaveSettings.
    destruct (pomodoroDuration st <=? 0) eqn:Ep; [lia|].
    destruct (shortRestReward st <=? 0) eqn:Es; [lia|].
    destruct (longRestReward st <=? 0) eqn:El; [lia|]. reflexivity. }
  set (b := showNotification "Settings saved." info (set_settings st a)) in *.
  assert (B : settings b = st /\
              totalSeconds b = totalSeconds a /\
              pomodorosCompleted b = pomodorosCompleted a /\
              availableRestMinutes b = availableRestMinutes a /\
              prevPomodorosRef b = prevPomodorosRef a /\
              manualUpdatesPending b = manualUpdatesPending a)
    by (repeat split; reflexivity).
  destruct B as (B1 & B2 & B3 & B4 & B5 & B6).
  destruct (settle_live_increase b) as (L1 & L2 & _).
  { rewrite B5, B3. apply (inv_prev a I). }
  { rewrite B6. apply (inv_pending a I). }
  { by rewrite B1. }
  { by rewrite B1. }
  cbn zeta in L1, L2. rewrite B1, B2, B3 in L1, L2. rewrite B4 in L2.
  assert (HD : POMODORO_DURATION_SECONDS st = 60 * pomodoroDuration st)
    by (unfold POMODORO_DURATION_SECONDS; lia).
  rewrite HD in L1, L2.
  destruct (settle_frame b) as (S1 & _ & _ & S4 & _).
  exists (settle b). cbn [step]. rewrite Hb.
  split; [reflexivity|]. split; [congruence|]. split; [congruence|].
  split; [exact L1|exact L2].
Qed.

Lemma settings_change_recounts_cycles_example :
  exists a',
    step pausedApp (SaveSettings (mkSettings 3 2 9)) = Some a' /\
    totalSeconds a' = 600 /\
    pomodorosCompleted a' = 3 /\
    availableRestMinutes a' = 6.
Proof.
  destruct (settings_change_recounts_cycles (mkSettings 3 2 9) pausedApp)
    as (a' & H1 & _ & H3 & H4 & H5);
    [apply pausedApp_reachable|reflexivity|reflexivity|reflexivity|].
  exists a'. split; [exact H1|]. split; [exact H3|].
  split; [exact H4|exact H5].
Defined.

(** ** Browser notifications that wait for the permission *)





